(** * Run orchestration core of [skyvern/forge/sdk/routes/agent_protocol.py]

    A shallow embedding of the route handlers that cancel runs, dispatch
    runs to one of the two engines and rebuild the flattened timeline of a
    workflow run, together with the properties the design document states
    about them.

    Conventions.
    - Python's [None] is [option]'s [None]; an [Optional[str]] is an
      [option string].
    - Python's truth test ([if x], [not x], [x or y]) is the [Truthy] class
      below: the handlers rely on it for strings, integers and JSON values.
    - [dt.datetime] values are integers (microseconds since the epoch);
      only their order is used.
    - Collaborators that live outside this file (database, services,
      executors, permission checker) are either stores in [Database] or
      fields of [Collaborators]; every call the handlers make to them is
      recorded in an event trace. *)

From Stdlib Require Import ZArith.
From stdpp Require Import base option list sorting gmap strings.

Local Open Scope string_scope.
Local Open Scope list_scope.
Set Warnings "-register-all".

(** ** Python truthiness *)

Class Truthy (A : Type) := truthy : A → bool.
Global Hint Mode Truthy ! : typeclass_instances.

Global Instance truthy_string : Truthy string :=
  λ s, match s with EmptyString => false | String _ _ => true end.

Global Instance truthy_Z : Truthy Z := λ z, negb (z =? 0)%Z.

Global Instance truthy_bool : Truthy bool := λ b, b.

Global Instance truthy_option {A} `{Truthy A} : Truthy (option A) :=
  λ o, match o with None => false | Some a => truthy a end.

Global Instance truthy_list {A} : Truthy (list A) :=
  λ l, match l with [] => false | _ :: _ => true end.

(** [a or b] *)
Definition py_or {A} `{Truthy A} (a b : A) : A := if truthy a then a else b.

(** A JSON value as it arrives in a request body ([dict | list | str | ...]). *)
Inductive Json : Type :=
  | JBool (b : bool)
  | JNum (z : Z)
  | JStr (s : string)
  | JList (l : list Json)
  | JDict (kv : list (string * Json)).

Global Instance truthy_Json : Truthy Json :=
  λ j, match j with
       | JBool b => b
       | JNum z => truthy z
       | JStr s => truthy s
       | JList l => truthy l
       | JDict kv => truthy kv
       end.

(** ** Data model *)

(** [BlockType]: the enumeration is declared in
    [skyvern.forge.sdk.workflow.models.block]; [TaskV2] is the only member
    this file names, every other member is an [other]. *)
Module BlockType.
Inductive t : Type :=
  | TaskV2
  | other (name : string).
End BlockType.

Global Instance BlockType_eq_dec : EqDecision BlockType.t.
Proof. solve_decision. Defined.

Inductive WorkflowRunTimelineType : Type :=
  | timeline_block
  | timeline_thought.

Module WorkflowRunBlock.
Record t : Type := mk {
  workflow_run_block_id : string;
  block_type : BlockType.t;
  block_workflow_run_id : option string;
}.
End WorkflowRunBlock.

Module ObserverThought.
Record t : Type := mk {
  observer_thought_id : string;
  observer_cruise_id : string;
  organization_id : string;
  created_at : Z;
  modified_at : Z;
}.
End ObserverThought.

(** [src/skyvern/client/types/workflow_run_timeline.py] *)
Module WorkflowRunTimeline.
Inductive t : Type := mk {
  type : WorkflowRunTimelineType;
  block : option WorkflowRunBlock.t;
  thought : option ObserverThought.t;
  children : option (list t);
  created_at : Z;
  modified_at : Z;
}.
End WorkflowRunTimeline.

Module TaskV2.
Record t : Type := mk {
  observer_cruise_id : string;
  organization_id : string;
  workflow_run_id : option string;
  status : string;
  prompt : option string;
  url : option string;
  output : option Json;
  webhook_callback_url : option string;
  totp_identifier : option string;
  totp_verification_url : option string;
  proxy_location : option string;
  error_code_mapping : option Json;
  extracted_information_schema : option Json;
  created_at : Z;
  modified_at : Z;
}.
End TaskV2.

(** A pydantic model object is always true. *)
Global Instance truthy_TaskV2 : Truthy TaskV2.t := λ _, true.
Global Instance truthy_WorkflowRunBlock : Truthy WorkflowRunBlock.t := λ _, true.

(** ** Statuses, runs, tasks *)

(** Members of the status enumerations: [running], [created], [queued] and
    [canceled] are the ones this file names, the other terminal ones are
    those of the design document; [other] stands for any further member. *)
Module WorkflowRunStatus.
Inductive t : Type :=
  | created | queued | running | canceled | completed | failed | terminated
  | other (name : string).
End WorkflowRunStatus.

Global Instance WorkflowRunStatus_eq_dec : EqDecision WorkflowRunStatus.t.
Proof. solve_decision. Defined.

Module TaskStatus.
Inductive t : Type :=
  | created | queued | running | canceled | completed | failed | terminated
  | other (name : string).
End TaskStatus.

Global Instance TaskStatus_eq_dec : EqDecision TaskStatus.t.
Proof. solve_decision. Defined.

Module Organization.
Record t : Type := mk { organization_id : string }.
End Organization.

(** A workflow run as the handlers see it, and the row the store keeps for
    it under its primary key [workflow_run_id]. *)
Module WorkflowRun.
Record row : Type := mkrow {
  row_workflow_id : string;
  row_organization_id : string;
  row_status : WorkflowRunStatus.t;
  row_parent_workflow_run_id : option string;
}.
Record t : Type := mk {
  workflow_run_id : string;
  workflow_id : string;
  organization_id : string;
  status : WorkflowRunStatus.t;
  parent_workflow_run_id : option string;
}.
Definition of_row (k : string) (r : row) : t :=
  mk k (row_workflow_id r) (row_organization_id r) (row_status r)
    (row_parent_workflow_run_id r).
Definition set_status (s : WorkflowRunStatus.t) (r : row) : row :=
  mkrow (row_workflow_id r) (row_organization_id r) s (row_parent_workflow_run_id r).
End WorkflowRun.

Module Task.
Record row : Type := mkrow {
  row_organization_id : string;
  row_status : TaskStatus.t;
  row_webhook_callback_url : option string;
}.
Record t : Type := mk {
  task_id : string;
  organization_id : string;
  status : TaskStatus.t;
  webhook_callback_url : option string;
}.
Definition of_row (k : string) (r : row) : t :=
  mk k (row_organization_id r) (row_status r) (row_webhook_callback_url r).
Definition set_status (s : TaskStatus.t) (r : row) : row :=
  mkrow (row_organization_id r) s (row_webhook_callback_url r).
End Task.

Module Step.
Record t : Type := mk {
  step_id : string;
  task_id : string;
  organization_id : string;
}.
End Step.

(** ** Requests, responses and collaborator results of the dispatcher *)

(** [RunEngine]: declared in [skyvern.schemas.runs]; the two members the
    dispatcher names, and [other] for any further member. *)
Module RunEngine.
Inductive t : Type :=
  | skyvern_v1
  | skyvern_v2
  | other (name : string).
End RunEngine.

Global Instance RunEngine_eq_dec : EqDecision RunEngine.t.
Proof. solve_decision. Defined.

(** What the f-string of the last line renders for an engine. *)
Definition RunEngine_str (e : RunEngine.t) : string :=
  match e with
  | RunEngine.skyvern_v1 => "skyvern_v1"
  | RunEngine.skyvern_v2 => "skyvern_v2"
  | RunEngine.other name => name
  end.

(** A header declared [int | str | None]. *)
Inductive IntOrStr : Type :=
  | HInt (z : Z)
  | HStr (s : string).

Global Instance truthy_IntOrStr : Truthy IntOrStr :=
  λ v, match v with HInt z => truthy z | HStr s => truthy s end.

Module TaskRunRequest.
Record t : Type := mk {
  engine : RunEngine.t;
  goal : string;
  url : option string;
  title : option string;
  data_extraction_schema : option Json;
  error_code_mapping : option Json;
  proxy_location : option string;
  browser_session_id : option string;
  max_steps : option Z;
  totp_identifier : option string;
  totp_url : option string;
  webhook_url : option string;
  publish_workflow : bool;
}.
End TaskRunRequest.

Module TaskGeneration.
Record t : Type := mk {
  url : option string;
  navigation_goal : option string;
  navigation_payload : option Json;
  data_extraction_goal : option string;
  extracted_information_schema : option Json;
}.
End TaskGeneration.

Module TaskRequest.
Record t : Type := mk {
  title : option string;
  url : option string;
  navigation_goal : option string;
  navigation_payload : option Json;
  data_extraction_goal : option string;
  extracted_information_schema : option Json;
  error_code_mapping : option Json;
  proxy_location : option string;
  browser_session_id : option string;
}.
End TaskRequest.

Module TaskResponse.
Record t : Type := mk {
  task_id : string;
  title : option string;
  status : TaskStatus.t;
  created_at : Z;
  modified_at : Z;
  navigation_goal : option string;
  url : option string;
  extracted_information : option Json;
  failure_reason : option string;
  extracted_information_schema : option Json;
  error_code_mapping : option Json;
  proxy_location : option string;
  totp_identifier : option string;
  totp_verification_url : option string;
  webhook_callback_url : option string;
  max_steps_per_run : option Z;
}.
End TaskResponse.

Module TaskV2Request.
Record t : Type := mk {
  user_prompt : string;
  url : option string;
  browser_session_id : option string;
  totp_identifier : option string;
  totp_verification_url : option string;
  webhook_callback_url : option string;
  proxy_location : option string;
  publish_workflow : bool;
  extracted_information_schema : option Json;
  error_code_mapping : option Json;
}.
End TaskV2Request.

(** The keyword arguments of [task_v2_service.initialize_task_v2]. *)
Module InitializeTaskV2.
Record t : Type := mk {
  organization : Organization.t;
  user_prompt : string;
  user_url : option string;
  totp_identifier : option string;
  totp_verification_url : option string;
  webhook_callback_url : option string;
  proxy_location : option string;
  publish_workflow : bool;
  create_task_run : bool;
  extracted_information_schema : option Json;
  error_code_mapping : option Json;
}.
End InitializeTaskV2.

Module TaskRunResponse.
Record t : Type := mk {
  run_id : string;
  title : option string;
  status : string;
  created_at : option Z;
  updated_at : option Z;
  modified_at : option Z;
  engine : RunEngine.t;
  goal : option string;
  url : option string;
  output : option Json;
  failure_reason : option string;
  data_extraction_schema : option Json;
  error_code_mapping : option Json;
  proxy_location : option string;
  totp_identifier : option string;
  totp_url : option string;
  webhook_url : option string;
  max_steps : option Z;
}.
End TaskRunResponse.

(** [str(task.status)] *)
Definition TaskStatus_str (s : TaskStatus.t) : string :=
  match s with
  | TaskStatus.created => "created"
  | TaskStatus.queued => "queued"
  | TaskStatus.running => "running"
  | TaskStatus.canceled => "canceled"
  | TaskStatus.completed => "completed"
  | TaskStatus.failed => "failed"
  | TaskStatus.terminated => "terminated"
  | TaskStatus.other name => name
  end.

(** ** Log records ([LOG.info], [LOG.warning], [LOG.error]) *)

Inductive LogLevel : Type := INFO | WARNING | ERROR.

Inductive LogValue : Type :=
  | LNone
  | LInt (z : Z)
  | LStr (s : string).

Record LogRecord : Type := mkLog {
  level : LogLevel;
  event : string;
  kwargs : list (string * LogValue);
}.

Definition log_opt_str (o : option string) : LogValue :=
  match o with None => LNone | Some s => LStr s end.

(** ** The record store *)

(** Runs and tasks are kept under their primary keys; steps, task-v2 runs
    and thoughts are rows in insertion order; the per-run block timeline is
    what the workflow service hands back for an organization and a run. *)
Record Database : Type := mkDatabase {
  workflow_runs : gmap string WorkflowRun.row;
  tasks : gmap string Task.row;
  steps : list Step.t;
  task_v2_rows : list TaskV2.t;
  block_timelines : gmap (string * string) (list WorkflowRunTimeline.t);
  thought_rows : list ObserverThought.t;
}.

Definition set_workflow_runs (m : gmap string WorkflowRun.row) (d : Database) : Database :=
  mkDatabase m (tasks d) (steps d) (task_v2_rows d) (block_timelines d) (thought_rows d).

Definition set_tasks (m : gmap string Task.row) (d : Database) : Database :=
  mkDatabase (workflow_runs d) m (steps d) (task_v2_rows d) (block_timelines d)
    (thought_rows d).

Definition set_task_v2_rows (l : list TaskV2.t) (d : Database) : Database :=
  mkDatabase (workflow_runs d) (tasks d) (steps d) l (block_timelines d) (thought_rows d).

(** ** Exceptions, events and the handler monad *)

Inductive Exception : Type :=
  | HTTPException (status_code : Z) (detail : string)
  | LLMProviderError
  | OtherException (name : string).

Inductive Result (A : Type) : Type :=
  | Ok (a : A)
  | Raise (e : Exception).
Global Arguments Ok {A} a.
Global Arguments Raise {A} e.

(** One entry per call a handler makes to a collaborator that writes,
    notifies, logs or starts work. *)
Inductive Event : Type :=
  | EvAnalytics (name : string)
  | EvLog (r : LogRecord)
  | EvPermissionCheck (organization_id : string) (browser_session_id : option string)
  | EvMarkWorkflowRunCanceled (workflow_run_id : string)
  | EvWorkflowWebhook (workflow_run_id : string) (api_key : option string)
  | EvUpdateTask (task_id : string) (status : TaskStatus.t)
  | EvTaskWebhook (task_id : string) (last_step : option Step.t)
      (api_key : option string)
  | EvGenerateTask (user_prompt : string)
  | EvRunTaskV1 (task : TaskRequest.t) (x_max_steps_override : option Z)
  | EvInitializeTaskV2 (args : InitializeTaskV2.t)
  | EvExecuteTaskV2 (task_v2_id : string) (max_steps_override : option IntOrStr)
      (browser_session_id : option string).

Record World : Type := mkWorld {
  db : Database;
  trace : list Event;
}.

Definition M (A : Type) : Type := World → Result A * World.

Global Instance M_ret : MRet M := λ A a w, (Ok a, w).

Global Instance M_bind : MBind M := λ A B f m w,
  match m w with
  | (Ok a, w') => f a w'
  | (Raise e, w') => (Raise e, w')
  end.

Definition raise {A} (e : Exception) : M A := λ w, (Raise e, w).

Definition emit (ev : Event) : M unit :=
  λ w, (Ok tt, mkWorld (db w) (trace w ++ [ev])).

Definition read_db {A} (q : Database → A) : M A := λ w, (Ok (q (db w)), w).

Definition write_db (f : Database → Database) : M unit :=
  λ w, (Ok tt, mkWorld (f (db w)) (trace w)).

(** [try: m except LLMProviderError: handler] *)
Definition try_except_LLMProviderError {A} (m : M A) (handler : M A) : M A :=
  λ w, match m w with
       | (Raise LLMProviderError, w') => handler w'
       | r => r
       end.

(** Lift a collaborator's answer into the monad. *)
Definition answer {A} (r : Result A) : M A := λ w, (r, w).

(** ** Collaborators *)

(** What the code outside this file answers when the dispatcher calls it:
    the permission checker, task generation, the creation of a v1 task and
    the initialization of a v2 run either hand back a value or raise. So do
    two operations on classes declared elsewhere. [new_TaskRequest] is the
    constructor call [TaskRequest(title=..., url=..., ...)]: it is given the
    keyword arguments as passed and answers the validated model, whose
    fields it may have normalised, or raises. [task_v2_failure_reason] is
    the attribute read [task_v2.failure_reason], which raises when the
    object has no such attribute. *)
Record Collaborators : Type := mkCollaborators {
  permission_checker : Organization.t → option string → Result unit;
  generated_task : string → Organization.t → Result TaskGeneration.t;
  create_task_v1 : TaskRequest.t → Organization.t → option Z → option string
                   → Result TaskResponse.t;
  create_task_v2 : InitializeTaskV2.t → Result TaskV2.t;
  new_TaskRequest : TaskRequest.t → Result TaskRequest.t;
  task_v2_failure_reason : TaskV2.t → Result (option string);
}.

(** [app.DATABASE] *)
Module DATABASE.

(** Modelled from the spec: [app.DATABASE.get_task_v2_by_workflow_run_id] is
    not under src/; section 4.3 step 1, "fetch the autonomous-run record (if
    any) associated with this workflow run id". *)
Definition get_task_v2_by_workflow_run_id (db : Database)
    (workflow_run_id organization_id : string) : option TaskV2.t :=
  List.find
    (λ r, bool_decide (TaskV2.workflow_run_id r = Some workflow_run_id
                       ∧ TaskV2.organization_id r = organization_id))
    (task_v2_rows db).

(** Modelled from the spec: [app.DATABASE.get_workflow_run] is not under
    src/; section 4.2 step 1, "load the target workflow run", by id within
    the caller's organization. *)
Definition get_workflow_run (d : Database) (workflow_run_id organization_id : string)
    : option WorkflowRun.t :=
  r ← workflow_runs d !! workflow_run_id;
  if bool_decide (WorkflowRun.row_organization_id r = organization_id)
  then Some (WorkflowRun.of_row workflow_run_id r) else None.

(** Modelled from the spec:
    [app.DATABASE.get_workflow_runs_by_parent_workflow_run_id] is not under
    src/; section 4.2 step 2, "load all workflow runs whose
    parent_workflow_run_id equals the target id (direct children only)". *)
Definition get_workflow_runs_by_parent_workflow_run_id (d : Database)
    (organization_id parent_workflow_run_id : string) : list WorkflowRun.t :=
  (λ kr, WorkflowRun.of_row kr.1 kr.2) <$>
    filter
      (λ kr : string * WorkflowRun.row,
         WorkflowRun.row_organization_id kr.2 = organization_id
         ∧ WorkflowRun.row_parent_workflow_run_id kr.2 = Some parent_workflow_run_id)
      (map_to_list (workflow_runs d)).

(** Modelled from the spec: [app.DATABASE.get_task] is not under src/; the
    task by id within the caller's organization. *)
Definition get_task (d : Database) (task_id organization_id : string) : option Task.t :=
  r ← tasks d !! task_id;
  if bool_decide (Task.row_organization_id r = organization_id)
  then Some (Task.of_row task_id r) else None.

(** Modelled from the spec: [app.DATABASE.get_latest_step] is not under
    src/; the last step row of the task within the organization. *)
Definition get_latest_step (d : Database) (task_id organization_id : string)
    : option Step.t :=
  last (List.filter
          (λ st, bool_decide (Step.task_id st = task_id
                              ∧ Step.organization_id st = organization_id))
          (steps d)).

End DATABASE.

(** [app.WORKFLOW_SERVICE] *)
Module WORKFLOW_SERVICE.

(** Modelled from the spec: [app.WORKFLOW_SERVICE.get_workflow_run_timeline]
    is not under src/; section 4.3 step 2, "fetch the raw per-block timeline
    for this workflow run id from the record store". *)
Definition get_workflow_run_timeline (db : Database)
    (workflow_run_id organization_id : string) : list WorkflowRunTimeline.t :=
  default [] (block_timelines db !! (organization_id, workflow_run_id)).

(** Modelled from the spec: [app.WORKFLOW_SERVICE.mark_workflow_run_as_canceled]
    is not under src/; section 4.2 steps 3 and 4: the write sets the status
    of the named run to canceled whatever it was before. *)
Definition mark_workflow_run_as_canceled (workflow_run_id : string) : M unit :=
  write_db (λ d, set_workflow_runs
     (alter (WorkflowRun.set_status WorkflowRunStatus.canceled) workflow_run_id
        (workflow_runs d)) d) ;;
  emit (EvMarkWorkflowRunCanceled workflow_run_id).

(** Modelled from the spec: [app.WORKFLOW_SERVICE.execute_workflow_webhook]
    is not under src/; section 4.2 step 5, one notification for the run. *)
Definition execute_workflow_webhook (workflow_run : WorkflowRun.t)
    (api_key : option string) : M unit :=
  emit (EvWorkflowWebhook (WorkflowRun.workflow_run_id workflow_run) api_key).

End WORKFLOW_SERVICE.

(** [app.agent] *)
Module agent.

(** Modelled from the spec: [app.agent.update_task] is not under src/;
    section 4.2, "mark canceled": the status write for the given task, which
    hands back the task as written. *)
Definition update_task (task : Task.t) (status : TaskStatus.t) : M Task.t :=
  write_db (λ d, set_tasks
     (alter (Task.set_status status) (Task.task_id task) (tasks d)) d) ;;
  emit (EvUpdateTask (Task.task_id task) status) ;;
  mret (Task.mk (Task.task_id task) (Task.organization_id task) status
          (Task.webhook_callback_url task)).

(** Modelled from the spec: [app.agent.execute_task_webhook] is not under
    src/; section 4.2, "fire (or re-fire) the webhook for that task". *)
Definition execute_task_webhook (task : Task.t) (last_step : option Step.t)
    (api_key : option string) : M unit :=
  emit (EvTaskWebhook (Task.task_id task) last_step api_key).

End agent.

(** [skyvern.services.task_v1_service] *)
Module task_v1_service.

(** The call is recorded; what it hands back is the collaborator's answer. *)
Definition generate_task (collab : Collaborators) (user_prompt : string)
    (organization : Organization.t) : M TaskGeneration.t :=
  emit (EvGenerateTask user_prompt) ;;
  answer (generated_task collab user_prompt organization).

(** Modelled from the spec: [task_v1_service.run_task] is not under src/;
    section 4.1, "create and asynchronously start a scripted run": on
    success the task row exists and its start has been handed over. *)
Definition run_task (collab : Collaborators) (task : TaskRequest.t)
    (organization : Organization.t) (x_max_steps_override : option Z)
    (x_api_key : option string) : M TaskResponse.t :=
  emit (EvRunTaskV1 task x_max_steps_override) ;;
  task_v1_response ← answer (create_task_v1 collab task organization
                               x_max_steps_override x_api_key);
  write_db (λ d, set_tasks
     (<[TaskResponse.task_id task_v1_response :=
          Task.mkrow (Organization.organization_id organization)
            (TaskResponse.status task_v1_response)
            (TaskResponse.webhook_callback_url task_v1_response)]> (tasks d)) d) ;;
  mret task_v1_response.

End task_v1_service.

(** [skyvern.services.task_v2_service] *)
Module task_v2_service.

Definition thought_entry (th : ObserverThought.t) : WorkflowRunTimeline.t :=
  WorkflowRunTimeline.mk timeline_thought None (Some th) None
    (ObserverThought.created_at th) (ObserverThought.modified_at th).

(** Modelled from the spec: [task_v2_service.get_thought_timelines] is not
    under src/; section 4.3 step 4, "fetch its thought entries as
    TimelineEntry values". *)
Definition get_thought_timelines (db : Database)
    (task_v2_id organization_id : string) : list WorkflowRunTimeline.t :=
  thought_entry <$>
    List.filter
      (λ th, bool_decide (ObserverThought.observer_cruise_id th = task_v2_id
                          ∧ ObserverThought.organization_id th = organization_id))
      (thought_rows db).

(** Modelled from the spec: [task_v2_service.initialize_task_v2] is not under
    src/; section 4.1, "initializes an autonomous run record synchronously";
    when the reasoning provider fails "the run is never considered created". *)
Definition initialize_task_v2 (collab : Collaborators) (args : InitializeTaskV2.t)
    : M TaskV2.t :=
  emit (EvInitializeTaskV2 args) ;;
  task_v2 ← answer (create_task_v2 collab args);
  write_db (λ d, set_task_v2_rows (task_v2_rows d ++ [task_v2]) d) ;;
  mret task_v2.

End task_v2_service.

(** [AsyncExecutorFactory.get_executor()] *)
Module AsyncExecutor.

(** Modelled from the spec: [execute_task_v2] of the executor is not under
    src/; section 4.1, "asynchronously starts execution". *)
Definition execute_task_v2 (organization_id task_v2_id : string)
    (max_steps_override : option IntOrStr) (browser_session_id : option string) : M unit :=
  emit (EvExecuteTaskV2 task_v2_id max_steps_override browser_session_id).

End AsyncExecutor.

(** [PermissionCheckerFactory.get_instance()]: the call is recorded; it
    either passes or raises, as the collaborator answers. *)
Module PermissionChecker.

Definition check (collab : Collaborators) (organization : Organization.t)
    (browser_session_id : option string) : M unit :=
  emit (EvPermissionCheck (Organization.organization_id organization) browser_session_id) ;;
  answer (permission_checker collab organization browser_session_id).

End PermissionChecker.

Module analytics.

Definition capture (name : string) : M unit := emit (EvAnalytics name).

End analytics.

Definition LOG (r : LogRecord) : M unit := emit (EvLog r).

(** ** [list.sort(key=..., reverse=True)]

    Python's sort is stable, also with [reverse=True]: entries with equal
    keys keep the order they had. *)
Section sort_reverse.
Context {A : Type} (key : A → Z).

Fixpoint insert_reverse (x : A) (l : list A) : list A :=
  match l with
  | [] => [x]
  | y :: l' => if (key y <=? key x)%Z then x :: l else y :: insert_reverse x l'
  end.

Definition sort_reverse (l : list A) : list A := foldr insert_reverse [] l.

(** The order of the result, and its strict version. *)
Definition descending (a b : A) : Prop := (key b ≤ key a)%Z.
Definition strictly_descending (a b : A) : Prop := (key b < key a)%Z.
End sort_reverse.

(** ** [_flatten_workflow_run_timeline] *)

Definition flatten_warning (workflow_run_id organization_id : string)
    (task_v2_obj : option TaskV2.t) : LogRecord :=
  mkLog WARNING "Block workflow run id is not set for task_v2 block"
    [("workflow_run_id", LStr workflow_run_id);
     ("organization_id", LStr organization_id);
     ("task_v2_id", log_opt_str (TaskV2.observer_cruise_id <$> task_v2_obj))].

Abbreviation flat := (list WorkflowRunTimeline.t * list LogRecord)%type.

(** The [for timeline in workflow_run_block_timeline] loop. [recur] is the
    recursive call; [final] is [final_workflow_run_block_timeline] and
    [logs] the records written so far. *)
Fixpoint flatten_loop (recur : string → option flat) (warning : LogRecord)
    (final : list WorkflowRunTimeline.t) (logs : list LogRecord)
    (workflow_run_block_timeline : list WorkflowRunTimeline.t) : option flat :=
  match workflow_run_block_timeline with
  | [] => Some (final, logs)
  | timeline :: rest =>
    match WorkflowRunTimeline.block timeline with
    | None => flatten_loop recur warning final logs rest
    | Some b =>
      if bool_decide (WorkflowRunBlock.block_type b ≠ BlockType.TaskV2) then
        flatten_loop recur warning (final ++ [timeline]) logs rest
      else if negb (truthy (WorkflowRunBlock.block_workflow_run_id b)) then
        flatten_loop recur warning final (logs ++ [warning]) rest
      else
        match recur (default "" (WorkflowRunBlock.block_workflow_run_id b)) with
        | None => None
        | Some (workflow_blocks, logs') =>
          flatten_loop recur warning (final ++ workflow_blocks) (logs ++ logs') rest
        end
    end
  end.

(** Everything before the final sort: the loop over the block timeline, then
    the thought entries of the run's own task v2 (if it has one). *)
Definition flatten_accumulate (recur : string → option flat) (db : Database)
    (organization_id workflow_run_id : string)
    (workflow_run_block_timeline : list WorkflowRunTimeline.t) : option flat :=
  let task_v2_obj :=
    DATABASE.get_task_v2_by_workflow_run_id db workflow_run_id organization_id in
  '(final, logs) ← flatten_loop recur
       (flatten_warning workflow_run_id organization_id task_v2_obj)
       [] [] workflow_run_block_timeline;
  match task_v2_obj with
  | Some task_v2 =>
    if truthy (TaskV2.observer_cruise_id task_v2) then
      Some (final ++ task_v2_service.get_thought_timelines db
                       (TaskV2.observer_cruise_id task_v2) organization_id,
            logs)
    else Some (final, logs)
  | None => Some (final, logs)
  end.

Definition flatten_body (recur : string → option flat) (db : Database)
    (organization_id workflow_run_id : string)
    (workflow_run_block_timeline : list WorkflowRunTimeline.t) : option flat :=
  '(final, logs) ← flatten_accumulate recur db organization_id workflow_run_id
       workflow_run_block_timeline;
  Some (sort_reverse WorkflowRunTimeline.created_at final, logs).

(** The recursion of the source has no guard; [fuel] bounds its depth and
    [None] means the bound was reached. *)
Fixpoint _flatten_workflow_run_timeline (fuel : nat) (db : Database)
    (organization_id workflow_run_id : string) : option flat :=
  match fuel with
  | O => None
  | S fuel' =>
    flatten_body (_flatten_workflow_run_timeline fuel' db organization_id)
      db organization_id workflow_run_id
      (WORKFLOW_SERVICE.get_workflow_run_timeline db workflow_run_id organization_id)
  end.

(** [GET /workflows/{workflow_id}/runs/{workflow_run_id}/timeline] *)
Definition get_workflow_run_timeline (fuel : nat) (db : Database)
    (workflow_run_id : string) (page page_size : Z)
    (current_org : Organization.t) : option flat :=
  _flatten_workflow_run_timeline fuel db (Organization.organization_id current_org)
    workflow_run_id.

(** ** [cancel_task] and [cancel_workflow_run] *)

Definition HTTP_404_NOT_FOUND : Z := 404.

Definition cancel_task (task_id : string) (current_org : Organization.t)
    (x_api_key : option string) : M unit :=
  analytics.capture "skyvern-oss-agent-task-get" ;;
  task_obj ← read_db (λ d, DATABASE.get_task d task_id
                              (Organization.organization_id current_org));
  match task_obj with
  | None => raise (HTTPException HTTP_404_NOT_FOUND ("Task not found " +:+ task_id))
  | Some task_obj =>
    task ← agent.update_task task_obj TaskStatus.canceled;
    latest_step ← read_db (λ d, DATABASE.get_latest_step d task_id
                                   (Organization.organization_id current_org));
    agent.execute_task_webhook task latest_step x_api_key
  end.

(** [status not in [running, created, queued]] *)
Definition status_not_in_active (s : WorkflowRunStatus.t) : bool :=
  negb (bool_decide (s ∈ [WorkflowRunStatus.running; WorkflowRunStatus.created;
                          WorkflowRunStatus.queued])).

Fixpoint cancel_children (child_workflow_runs : list WorkflowRun.t) : M unit :=
  match child_workflow_runs with
  | [] => mret tt
  | child_workflow_run :: rest =>
    (if status_not_in_active (WorkflowRun.status child_workflow_run)
     then mret tt
     else WORKFLOW_SERVICE.mark_workflow_run_as_canceled
            (WorkflowRun.workflow_run_id child_workflow_run)) ;;
    cancel_children rest
  end.

Definition cancel_workflow_run (workflow_run_id : string) (current_org : Organization.t)
    (x_api_key : option string) : M unit :=
  workflow_run ← read_db (λ d, DATABASE.get_workflow_run d workflow_run_id
                                  (Organization.organization_id current_org));
  match workflow_run with
  | None =>
    raise (HTTPException HTTP_404_NOT_FOUND
             ("Workflow run not found " +:+ workflow_run_id))
  | Some workflow_run =>
    child_workflow_runs ←
      read_db (λ d, DATABASE.get_workflow_runs_by_parent_workflow_run_id d
                      (Organization.organization_id current_org) workflow_run_id);
    cancel_children child_workflow_runs ;;
    WORKFLOW_SERVICE.mark_workflow_run_as_canceled workflow_run_id ;;
    WORKFLOW_SERVICE.execute_workflow_webhook workflow_run x_api_key
  end.

(** ** The dispatcher *)

Definition llm_failure : Exception :=
  HTTPException 500 "Skyvern LLM failure to initialize task v2. Please try again later.".

Definition llm_failure_log : LogRecord :=
  mkLog ERROR "LLM failure to initialize task v2" [].

Definition log_header (v : option IntOrStr) : LogValue :=
  match v with
  | None => LNone
  | Some (HInt z) => LInt z
  | Some (HStr s) => LStr s
  end.

Section dispatch.
Context (collab : Collaborators).

(** ** [run_task_v2] *)

(** The keyword arguments [run_task_v2] passes to [initialize_task_v2]. *)
Definition run_task_v2_initialize_args (data : TaskV2Request.t)
    (organization : Organization.t) : InitializeTaskV2.t :=
  InitializeTaskV2.mk organization
    (TaskV2Request.user_prompt data)
    (if truthy (TaskV2Request.url data) then TaskV2Request.url data else None)
    (TaskV2Request.totp_identifier data)
    (TaskV2Request.totp_verification_url data)
    (TaskV2Request.webhook_callback_url data)
    (TaskV2Request.proxy_location data)
    (TaskV2Request.publish_workflow data)
    true
    (TaskV2Request.extracted_information_schema data)
    (TaskV2Request.error_code_mapping data).

Definition run_task_v2 (data : TaskV2Request.t) (organization : Organization.t)
    (x_max_iterations_override x_max_steps_override : option IntOrStr)
    : M TaskV2.t :=
  (if truthy (py_or x_max_iterations_override x_max_steps_override) then
     LOG (mkLog INFO "Overriding max steps for task v2"
            [("max_iterations_override", log_header x_max_iterations_override);
             ("max_steps_override", log_header x_max_steps_override)])
   else mret tt) ;;
  PermissionChecker.check collab organization (TaskV2Request.browser_session_id data) ;;
  task_v2 ← try_except_LLMProviderError
    (task_v2_service.initialize_task_v2 collab (run_task_v2_initialize_args data organization))
    (LOG llm_failure_log ;; raise llm_failure);
  analytics.capture "skyvern-oss-agent-task-v2" ;;
  AsyncExecutor.execute_task_v2 (Organization.organization_id organization)
    (TaskV2.observer_cruise_id task_v2)
    (py_or x_max_steps_override x_max_iterations_override)
    (TaskV2Request.browser_session_id data) ;;
  mret task_v2.

(** ** [run_task] *)

(** The keyword arguments [run_task] passes to [initialize_task_v2]. *)
Definition run_task_initialize_args (run_request : TaskRunRequest.t)
    (current_org : Organization.t) : InitializeTaskV2.t :=
  InitializeTaskV2.mk current_org
    (TaskRunRequest.goal run_request)
    (TaskRunRequest.url run_request)
    (TaskRunRequest.totp_identifier run_request)
    (TaskRunRequest.totp_url run_request)
    (TaskRunRequest.webhook_url run_request)
    (TaskRunRequest.proxy_location run_request)
    (TaskRunRequest.publish_workflow run_request)
    true
    (TaskRunRequest.data_extraction_schema run_request)
    (TaskRunRequest.error_code_mapping run_request).

(** The [TaskRequest] the v1 branch builds when the request carries a URL,
    and the one it builds from a generated task when it does not. *)
Definition task_v1_request_from_request (run_request : TaskRunRequest.t) : TaskRequest.t :=
  TaskRequest.mk (TaskRunRequest.title run_request)
    (TaskRunRequest.url run_request)
    (Some (TaskRunRequest.goal run_request))
    None
    None
    (TaskRunRequest.data_extraction_schema run_request)
    (TaskRunRequest.error_code_mapping run_request)
    (TaskRunRequest.proxy_location run_request)
    (TaskRunRequest.browser_session_id run_request).

Definition task_v1_request_from_generation (run_request : TaskRunRequest.t)
    (task_generation : TaskGeneration.t) : TaskRequest.t :=
  TaskRequest.mk (TaskRunRequest.title run_request)
    (TaskGeneration.url task_generation)
    (py_or (TaskGeneration.navigation_goal task_generation)
           (Some (TaskRunRequest.goal run_request)))
    (TaskGeneration.navigation_payload task_generation)
    (TaskGeneration.data_extraction_goal task_generation)
    (py_or (TaskRunRequest.data_extraction_schema run_request)
           (TaskGeneration.extracted_information_schema task_generation))
    (TaskRunRequest.error_code_mapping run_request)
    (TaskRunRequest.proxy_location run_request)
    (TaskRunRequest.browser_session_id run_request).

Definition run_task (run_request : TaskRunRequest.t) (current_org : Organization.t)
    (x_api_key : option string) : M TaskRunResponse.t :=
  analytics.capture "skyvern-oss-run-task" ;;
  PermissionChecker.check collab current_org (TaskRunRequest.browser_session_id run_request) ;;
  if bool_decide (TaskRunRequest.engine run_request = RunEngine.skyvern_v1) then
    let url := TaskRunRequest.url run_request in
    let data_extraction_goal : option string := None in
    let data_extraction_schema := TaskRunRequest.data_extraction_schema run_request in
    let navigation_goal := Some (TaskRunRequest.goal run_request) in
    let navigation_payload : option Json := None in
    '(url, navigation_goal, navigation_payload, data_extraction_goal,
      data_extraction_schema) ←
      (if negb (truthy url) then
         task_generation ← task_v1_service.generate_task collab
                             (TaskRunRequest.goal run_request) current_org;
         mret (TaskGeneration.url task_generation,
               py_or (TaskGeneration.navigation_goal task_generation)
                     (Some (TaskRunRequest.goal run_request)),
               TaskGeneration.navigation_payload task_generation,
               TaskGeneration.data_extraction_goal task_generation,
               py_or data_extraction_schema
                     (TaskGeneration.extracted_information_schema task_generation))
       else
         mret (url, navigation_goal, navigation_payload, data_extraction_goal,
               data_extraction_schema));
    task_v1_request ← answer (new_TaskRequest collab
      (TaskRequest.mk (TaskRunRequest.title run_request) url navigation_goal
         navigation_payload data_extraction_goal data_extraction_schema
         (TaskRunRequest.error_code_mapping run_request)
         (TaskRunRequest.proxy_location run_request)
         (TaskRunRequest.browser_session_id run_request)));
    task_v1_response ← task_v1_service.run_task collab task_v1_request current_org
                         (TaskRunRequest.max_steps run_request) x_api_key;
    mret (TaskRunResponse.mk
            (TaskResponse.task_id task_v1_response)
            (TaskResponse.title task_v1_response)
            (TaskStatus_str (TaskResponse.status task_v1_response))
            (Some (TaskResponse.created_at task_v1_response))
            (Some (TaskResponse.modified_at task_v1_response))
            None
            RunEngine.skyvern_v1
            (TaskResponse.navigation_goal task_v1_response)
            (TaskResponse.url task_v1_response)
            (TaskResponse.extracted_information task_v1_response)
            (TaskResponse.failure_reason task_v1_response)
            (TaskResponse.extracted_information_schema task_v1_response)
            (TaskResponse.error_code_mapping task_v1_response)
            (TaskResponse.proxy_location task_v1_response)
            (TaskResponse.totp_identifier task_v1_response)
            (TaskResponse.totp_verification_url task_v1_response)
            (TaskResponse.webhook_callback_url task_v1_response)
            (TaskResponse.max_steps_per_run task_v1_response))
  else if bool_decide (TaskRunRequest.engine run_request = RunEngine.skyvern_v2) then
    task_v2 ← try_except_LLMProviderError
      (task_v2_service.initialize_task_v2 collab
         (run_task_initialize_args run_request current_org))
      (LOG llm_failure_log ;; raise llm_failure);
    AsyncExecutor.execute_task_v2 (Organization.organization_id current_org)
      (TaskV2.observer_cruise_id task_v2)
      (HInt <$> TaskRunRequest.max_steps run_request)
      (TaskRunRequest.browser_session_id run_request) ;;
    failure_reason ← answer (task_v2_failure_reason collab task_v2);
    mret (TaskRunResponse.mk
            (TaskV2.observer_cruise_id task_v2)
            (TaskRunRequest.title run_request)
            (TaskV2.status task_v2)
            (Some (TaskV2.created_at task_v2))
            None
            (Some (TaskV2.modified_at task_v2))
            RunEngine.skyvern_v2
            (TaskV2.prompt task_v2)
            (TaskV2.url task_v2)
            (TaskV2.output task_v2)
            failure_reason
            (TaskV2.extracted_information_schema task_v2)
            (TaskV2.error_code_mapping task_v2)
            (TaskV2.proxy_location task_v2)
            (TaskV2.totp_identifier task_v2)
            (TaskV2.totp_verification_url task_v2)
            (TaskV2.webhook_callback_url task_v2)
            None)
  else
    raise (HTTPException 400
             ("Invalid agent engine: " +:+ RunEngine_str (TaskRunRequest.engine run_request))).

End dispatch.


(** * Vocabulary of the properties *)

(** ** Timeline *)

Abbreviation entry := WorkflowRunTimeline.t.
Abbreviation entry_created_at := WorkflowRunTimeline.created_at.

(** The rule of section 4.3 step 3 for one raw entry, following the design
    document's words: no block, dropped; a block of another kind, kept; a
    nested-run block with a nested id, replaced by the nested timeline; a
    nested-run block without one, dropped with a warning. *)
Definition entry_contribution (recur : string → option flat) (warning : LogRecord)
    (e : entry) : option flat :=
  match WorkflowRunTimeline.block e with
  | None => Some ([], [])
  | Some b =>
    match WorkflowRunBlock.block_type b with
    | BlockType.other _ => Some ([e], [])
    | BlockType.TaskV2 =>
      match WorkflowRunBlock.block_workflow_run_id b with
      | Some (String c id) => recur (String c id)
      | _ => Some ([], [warning])
      end
    end
  end.

(** The thought entries step 4 appends for the run itself. *)
Definition own_thoughts (db : Database) (organization_id workflow_run_id : string)
    : list entry :=
  match DATABASE.get_task_v2_by_workflow_run_id db workflow_run_id organization_id with
  | Some task_v2 =>
    if truthy (TaskV2.observer_cruise_id task_v2) then
      task_v2_service.get_thought_timelines db (TaskV2.observer_cruise_id task_v2)
        organization_id
    else []
  | None => []
  end.

Definition is_task_v2_entry (e : entry) : Prop :=
  ∃ b, WorkflowRunTimeline.block e = Some b ∧ WorkflowRunBlock.block_type b = BlockType.TaskV2.

(** One level of the aggregation, entry by entry: the contributions of the
    raw entries in order, then the run's own thoughts, then the sort. *)
Fixpoint contributions (recur : string → option flat) (warning : LogRecord)
    (rows : list entry) : option (list flat) :=
  match rows with
  | [] => Some []
  | e :: rows' =>
    p ← entry_contribution recur warning e;
    ps ← contributions recur warning rows';
    Some (p :: ps)
  end.

(** The nested run a raw entry points at, when it is a nested-run block that
    carries a (non-empty) nested workflow-run id. *)
Definition nested_run_id (e : entry) : option string :=
  b ← WorkflowRunTimeline.block e;
  match WorkflowRunBlock.block_type b with
  | BlockType.TaskV2 =>
    match WorkflowRunBlock.block_workflow_run_id b with
    | Some (String c id) => Some (String c id)
    | _ => None
    end
  | BlockType.other _ => None
  end.

(** Nesting is well founded when a rank goes down along every nested-run
    reference (no run is nested, directly or not, in itself). *)
Definition well_founded_nesting (db : Database) (organization_id : string)
    (rank : string → nat) : Prop :=
  ∀ workflow_run_id e id,
    e ∈ WORKFLOW_SERVICE.get_workflow_run_timeline db workflow_run_id organization_id →
    nested_run_id e = Some id → (rank id < rank workflow_run_id)%nat.

(** What one level contributes for each raw entry, as a relation between the
    entry and its piece of the output. *)
Definition piece_of (recur : string → option flat) (e : entry) (piece : list entry)
    : Prop :=
  match WorkflowRunTimeline.block e with
  | None => piece = []
  | Some b =>
    match WorkflowRunBlock.block_type b with
    | BlockType.other _ => piece = [e]
    | BlockType.TaskV2 =>
      match WorkflowRunBlock.block_workflow_run_id b with
      | Some (String c id) => ∃ logs, recur (String c id) = Some (piece, logs)
      | _ => piece = []
      end
    end
  end.


(** ** Cancellation *)

Definition active_statuses : list WorkflowRunStatus.t :=
  [WorkflowRunStatus.running; WorkflowRunStatus.created; WorkflowRunStatus.queued].

Definition with_status_canceled (r : WorkflowRun.t) : WorkflowRun.t :=
  WorkflowRun.mk (WorkflowRun.workflow_run_id r) (WorkflowRun.workflow_id r)
    (WorkflowRun.organization_id r) WorkflowRunStatus.canceled
    (WorkflowRun.parent_workflow_run_id r).

(** The children the loop writes to, in the order it meets them. *)
Definition active_children (children : list WorkflowRun.t) : list WorkflowRun.t :=
  filter (λ c, WorkflowRun.status c ∈ active_statuses) children.

Definition mark_all (ids : list string) (m : gmap string WorkflowRun.row)
    : gmap string WorkflowRun.row :=
  foldl (λ m k, alter (WorkflowRun.set_status WorkflowRunStatus.canceled) k m) m ids.

Definition is_workflow_webhook (ev : Event) : bool :=
  match ev with EvWorkflowWebhook _ _ => true | _ => false end.

Definition is_status_write (ev : Event) : bool :=
  match ev with EvMarkWorkflowRunCanceled _ => true | _ => false end.

(** ** Dispatch *)

Definition is_run_start (ev : Event) : bool :=
  match ev with
  | EvGenerateTask _ | EvRunTaskV1 _ _ | EvInitializeTaskV2 _ | EvExecuteTaskV2 _ _ _ => true
  | _ => false
  end.

(** The override a trace shows was handed to the v2 executor. *)
Definition execute_overrides (tr : list Event) : list (option IntOrStr) :=
  omap (λ ev, match ev with EvExecuteTaskV2 _ o _ => Some o | _ => None end) tr.

Definition override_logs (tr : list Event) : list LogRecord :=
  omap (λ ev, match ev with
              | EvLog r => match level r with INFO => Some r | _ => None end
              | _ => None
              end) tr.

Definition override_log (x_max_iterations_override x_max_steps_override : option IntOrStr)
    : LogRecord :=
  mkLog INFO "Overriding max steps for task v2"
    [("max_iterations_override", log_header x_max_iterations_override);
     ("max_steps_override", log_header x_max_steps_override)].


(** ** Concrete stores and requests *)

(** *** The splicing example of the design document

    A parent run with blocks at [t1] (a form), [t2] (a nested-run block that
    points at run [wr_nested]) and [t3] (a form); the nested run has entries
    at [t2.1] and [t2.2]. Times: 10, 20, 21, 22, 30. *)
Module SplicingExample.

Definition block_entry (id : string) (ty : BlockType.t) (nested : option string)
    (at_ : Z) : entry :=
  WorkflowRunTimeline.mk timeline_block (Some (WorkflowRunBlock.mk id ty nested))
    None None at_ at_.

Definition t1 : entry := block_entry "b1" (BlockType.other "form") None 10.
Definition t2 : entry := block_entry "b2" BlockType.TaskV2 (Some "wr_nested") 20.
Definition t3 : entry := block_entry "b3" (BlockType.other "form") None 30.
Definition t2_1 : entry := block_entry "n1" (BlockType.other "navigation") None 21.
Definition t2_2 : entry := block_entry "n2" (BlockType.other "extraction") None 22.

Definition store : Database :=
  mkDatabase ∅ ∅ [] []
    (<[("o_1", "wr_parent") := [t1; t2; t3]]>
       (<[("o_1", "wr_nested") := [t2_1; t2_2]]> ∅))
    [].

(** The parent is one level above the nested run. *)
Definition rank (workflow_run_id : string) : nat :=
  if decide (workflow_run_id = "wr_parent") then 1%nat else 0%nat.

(** The same parent with an entry without a block and a nested-run block
    that names no run in front of its timeline. *)
Definition no_block : entry :=
  WorkflowRunTimeline.mk timeline_block None None None 15 15.
Definition dangling_block : entry := block_entry "b4" BlockType.TaskV2 None 25.

Definition store_malformed : Database :=
  mkDatabase ∅ ∅ [] []
    (<[("o_1", "wr_parent") := [no_block; dangling_block; t1; t2; t3]]>
       (<[("o_1", "wr_nested") := [t2_1; t2_2]]> ∅))
    [].

(** A nested run that points back at its parent: the recursion of the
    source does not end on it. *)
Definition store_cyclic : Database :=
  mkDatabase ∅ ∅ [] []
    (<[("o_1", "wr_parent") := [t2]]>
       (<[("o_1", "wr_nested") := [block_entry "n3" BlockType.TaskV2 (Some "wr_parent") 21]]> ∅))
    [].

End SplicingExample.

(** *** The cascade example of the design document

    A run with four direct children in statuses running, running, completed
    and canceled. *)
Module CascadeExample.

Definition org : Organization.t := Organization.mk "o_1".

Definition row (status : WorkflowRunStatus.t) (parent : option string) : WorkflowRun.row :=
  WorkflowRun.mkrow "wf_1" "o_1" status parent.

Definition store : Database :=
  mkDatabase
    (<["wr_p" := row WorkflowRunStatus.running None]>
       (<["c1" := row WorkflowRunStatus.running (Some "wr_p")]>
          (<["c2" := row WorkflowRunStatus.running (Some "wr_p")]>
             (<["c3" := row WorkflowRunStatus.completed (Some "wr_p")]>
                (<["c4" := row WorkflowRunStatus.canceled (Some "wr_p")]> ∅)))))
    (<["tsk_1" := Task.mkrow "o_1" TaskStatus.running None]> ∅)
    [Step.mk "stp_1" "tsk_1" "o_1"; Step.mk "stp_2" "tsk_1" "o_1"]
    [] ∅ [].

Definition world : World := mkWorld store [].

Definition statuses (w : World) (ids : list string) : list (option WorkflowRunStatus.t) :=
  (λ k, WorkflowRun.row_status <$> workflow_runs (db w) !! k) <$> ids.

End CascadeExample.

(** *** Collaborators and requests for the dispatcher *)
Module DispatchExample.

Definition org : Organization.t := Organization.mk "o_1".

Definition generated : TaskGeneration.t :=
  TaskGeneration.mk (Some "https://example.com") (Some "open the pricing page") None
    (Some "read the prices") (Some (JDict [("type", JStr "object")])).

Definition created_v1 : TaskResponse.t :=
  TaskResponse.mk "tsk_1" None TaskStatus.created 100 100
    (Some "open the pricing page") (Some "https://example.com/") None None None None
    None None None None None.

Definition created_v2 : TaskV2.t :=
  TaskV2.mk "oc_1" "o_1" (Some "wr_1") "created" (Some "find the price")
    None None None None None None None None 100 100.

(** A constructor that insists on a URL and gives a URL without a path the
    path [/]. *)
Definition new_TaskRequest (kwargs : TaskRequest.t) : Result TaskRequest.t :=
  match TaskRequest.url kwargs with
  | Some (String c u) =>
    Ok (TaskRequest.mk (TaskRequest.title kwargs)
          (Some (if decide (String c u = "https://example.com")
                 then "https://example.com/" else String c u))
          (TaskRequest.navigation_goal kwargs)
          (TaskRequest.navigation_payload kwargs)
          (TaskRequest.data_extraction_goal kwargs)
          (TaskRequest.extracted_information_schema kwargs)
          (TaskRequest.error_code_mapping kwargs)
          (TaskRequest.proxy_location kwargs)
          (TaskRequest.browser_session_id kwargs))
  | _ => Raise (OtherException "ValidationError")
  end.

Definition healthy : Collaborators :=
  mkCollaborators (λ _ _, Ok tt) (λ _ _, Ok generated) (λ _ _ _ _, Ok created_v1)
    (λ _, Ok created_v2) new_TaskRequest (λ _, Ok None).

Definition llm_down : Collaborators :=
  mkCollaborators (λ _ _, Ok tt) (λ _ _, Ok generated) (λ _ _ _ _, Ok created_v1)
    (λ _, Raise LLMProviderError) new_TaskRequest (λ _, Ok None).

(** The permission checker refuses every request. *)
Definition refusing : Collaborators :=
  mkCollaborators (λ _ _, Raise (HTTPException 403 "Forbidden"))
    (λ _ _, Ok generated) (λ _ _ _ _, Ok created_v1) (λ _, Ok created_v2)
    new_TaskRequest (λ _, Ok None).

(** Task generation finds no URL. *)
Definition no_url_generated : Collaborators :=
  mkCollaborators (λ _ _, Ok tt)
    (λ _ _, Ok (TaskGeneration.mk None (Some "open the pricing page") None None None))
    (λ _ _ _ _, Ok created_v1) (λ _, Ok created_v2) new_TaskRequest (λ _, Ok None).

(** The run object has no attribute [failure_reason]. *)
Definition no_failure_reason : Collaborators :=
  mkCollaborators (λ _ _, Ok tt) (λ _ _, Ok generated) (λ _ _ _ _, Ok created_v1)
    (λ _, Ok created_v2) new_TaskRequest
    (λ _, Raise (OtherException "AttributeError")).

Definition empty_db : Database := mkDatabase ∅ ∅ [] [] ∅ [].
Definition world : World := mkWorld empty_db [].

Definition request (engine : RunEngine.t) (url : option string)
    (schema : option Json) : TaskRunRequest.t :=
  TaskRunRequest.mk engine "find the price" url None schema None None None None
    None None None false.

Definition data : TaskV2Request.t :=
  TaskV2Request.mk "find the price" None None None None None None false None None.

End DispatchExample.

(** * Further handlers of [agent_protocol.py] *)

(** ** [run_task_v1] *)

Module CreateTaskResponse.
Record t : Type := mk { task_id : string }.
End CreateTaskResponse.

Definition run_task_v1 (collab : Collaborators) (task : TaskRequest.t)
    (current_org : Organization.t) (x_api_key : option string)
    (x_max_steps_override : option Z) : M CreateTaskResponse.t :=
  analytics.capture "skyvern-oss-agent-task-create" ;;
  PermissionChecker.check collab current_org (TaskRequest.browser_session_id task) ;;
  created_task ← task_v1_service.run_task collab task current_org
                   x_max_steps_override x_api_key;
  mret (CreateTaskResponse.mk (TaskResponse.task_id created_task)).

(** ** Runs reachable by nesting *)

(** [nested_in db org wr wr']: [wr'] is [wr] or a run reached from it
    through nested-run blocks that carry an id, within the organization. *)
Inductive nested_in (db : Database) (organization_id : string)
    : string → string → Prop :=
  | nested_in_refl wr : nested_in db organization_id wr wr
  | nested_in_step wr e id wr' :
      e ∈ WORKFLOW_SERVICE.get_workflow_run_timeline db wr organization_id →
      nested_run_id e = Some id →
      nested_in db organization_id id wr' →
      nested_in db organization_id wr wr'.

(** A raw entry the loop keeps: it has a block and the block is no
    nested-run block. *)
Definition kept_entry (e : entry) : Prop :=
  ∃ b, WorkflowRunTimeline.block e = Some b
       ∧ WorkflowRunBlock.block_type b ≠ BlockType.TaskV2.

(** ** [get_task_v1] and [retry_webhook] *)

(** What a step put out: the actions it took, each with its results. *)
Module ActionResult.
Record t : Type := mk { success : bool }.
End ActionResult.

(** [action_type] is the text the f-string renders for the action's type. *)
Module Action.
Record t : Type := mk { action_type : string }.
End Action.

Module AgentStepOutput.
Record t : Type := mk {
  actions_and_results : option (list (Action.t * list ActionResult.t));
}.
End AgentStepOutput.

Global Instance truthy_AgentStepOutput : Truthy AgentStepOutput.t := λ _, true.

(** [str(l)] for a list of strings, given [repr] of a string. *)
Definition py_str_list (repr : string → string) (l : list string) : string :=
  "[" +:+ String.concat ", " (repr <$> l) +:+ "]".

(** The loop over [latest_step.output.actions_and_results]. *)
Fixpoint failed_action_messages (actions_and_results : list (Action.t * list ActionResult.t))
    : list string :=
  match actions_and_results with
  | [] => []
  | (action, results) :: rest =>
    if (length results =? 0)%nat then failed_action_messages rest
    else
      match last results with
      | Some result =>
        if ActionResult.success result then failed_action_messages rest
        else (Action.action_type action +:+ " action failed.")
               :: failed_action_messages rest
      | None => failed_action_messages rest
      end
  end.

Section task_views.
(** The fields of a task and of a step that the records above do not carry
    ([task.failure_reason], [step.output]), Python's [repr] of a string, and
    [app.agent.build_task_response] with its keyword arguments [task],
    [last_step], [failure_reason] and [need_browser_log]. *)
Context (task_failure_reason : Task.t → option string)
        (step_output : Step.t → option AgentStepOutput.t)
        (repr : string → string)
        (build_task_response :
           Task.t → option Step.t → option string → bool → TaskResponse.t).

(** The [failure_reason] that [get_task_v1] computes once it has a step. *)
Definition get_task_v1_failure_reason (task_obj : Task.t) (latest_step : Step.t)
    : option string :=
  if bool_decide (Task.status task_obj = TaskStatus.failed)
     && (truthy (step_output latest_step) || truthy (task_failure_reason task_obj))
  then
    let failure_reason := "" in
    let failure_reason :=
      if truthy (task_failure_reason task_obj)
      then failure_reason +:+ default "" (py_or (task_failure_reason task_obj) (Some ""))
      else failure_reason in
    match step_output latest_step with
    | Some output =>
      match AgentStepOutput.actions_and_results output with
      | Some actions_and_results =>
        let action_results_string := failed_action_messages actions_and_results in
        if (0 <? length action_results_string)%nat
        then Some (failure_reason +:+ "(Exceptions: "
                     +:+ py_str_list repr action_results_string +:+ ")")
        else Some failure_reason
      | None => Some failure_reason
      end
    | None => Some failure_reason
    end
  else None.

Definition get_task_v1 (task_id : string) (current_org : Organization.t)
    : M TaskResponse.t :=
  analytics.capture "skyvern-oss-agent-task-get" ;;
  task_obj ← read_db (λ d, DATABASE.get_task d task_id
                              (Organization.organization_id current_org));
  match task_obj with
  | None => raise (HTTPException HTTP_404_NOT_FOUND ("Task not found " +:+ task_id))
  | Some task_obj =>
    latest_step ← read_db (λ d, DATABASE.get_latest_step d task_id
                                   (Organization.organization_id current_org));
    match latest_step with
    | None => mret (build_task_response task_obj None None false)
    | Some latest_step =>
      mret (build_task_response task_obj (Some latest_step)
              (get_task_v1_failure_reason task_obj latest_step) true)
    end
  end.

Definition retry_webhook (task_id : string) (current_org : Organization.t)
    (x_api_key : option string) : M TaskResponse.t :=
  analytics.capture "skyvern-oss-agent-task-retry-webhook" ;;
  task_obj ← read_db (λ d, DATABASE.get_task d task_id
                              (Organization.organization_id current_org));
  match task_obj with
  | None => raise (HTTPException HTTP_404_NOT_FOUND ("Task not found " +:+ task_id))
  | Some task_obj =>
    latest_step ← read_db (λ d, DATABASE.get_latest_step d task_id
                                   (Organization.organization_id current_org));
    match latest_step with
    | None => mret (build_task_response task_obj None None false)
    | Some latest_step =>
      agent.execute_task_webhook task_obj (Some latest_step) x_api_key ;;
      mret (build_task_response task_obj (Some latest_step) None false)
    end
  end.

End task_views.

Definition is_task_webhook (ev : Event) : bool :=
  match ev with EvTaskWebhook _ _ _ => true | _ => false end.

(** An action is reported when its last result did not succeed. *)
Definition last_result_failed (ar : Action.t * list ActionResult.t) : Prop :=
  ActionResult.success <$> last ar.2 = Some false.

Global Instance last_result_failed_dec ar : Decision (last_result_failed ar).
Proof. unfold last_result_failed. apply _. Defined.

(** *** A failed task with two steps *)
Module FailedTaskExample.

Definition org : Organization.t := Organization.mk "o_1".

Definition store : Database :=
  mkDatabase ∅
    (<["tsk_f" := Task.mkrow "o_1" TaskStatus.failed None]>
       (<["tsk_new" := Task.mkrow "o_1" TaskStatus.created None]> ∅))
    [Step.mk "stp_1" "tsk_f" "o_1"; Step.mk "stp_2" "tsk_f" "o_1"]
    [] ∅ [].

Definition world : World := mkWorld store [].

Definition task_failure_reason (task : Task.t) : option string :=
  if decide (Task.task_id task = "tsk_f") then Some "Max steps reached" else None.

(** The last step clicked (failed, then succeeded), typed (succeeded, then
    failed) and waited (no result). *)
Definition step_output (step : Step.t) : option AgentStepOutput.t :=
  if decide (Step.step_id step = "stp_2") then
    Some (AgentStepOutput.mk
            (Some [(Action.mk "click", [ActionResult.mk false; ActionResult.mk true]);
                   (Action.mk "input_text", [ActionResult.mk true; ActionResult.mk false]);
                   (Action.mk "wait", [])]))
  else None.

(** [repr] of a string without quotes, backslashes or control characters. *)
Definition repr (s : string) : string := "'" +:+ s +:+ "'".

Definition build_task_response (task : Task.t) (last_step : option Step.t)
    (failure_reason : option string) (need_browser_log : bool) : TaskResponse.t :=
  TaskResponse.mk (Task.task_id task) None (Task.status task) 100 100 None None None
    failure_reason None None None None None (Task.webhook_callback_url task) None.

End FailedTaskExample.


(** ** The two ways to start a v2 run *)

(** The [TaskV2Request] that carries the fields of a unified request. *)
Definition task_v2_request_from_request (run_request : TaskRunRequest.t)
    : TaskV2Request.t :=
  TaskV2Request.mk (TaskRunRequest.goal run_request)
    (TaskRunRequest.url run_request)
    (TaskRunRequest.browser_session_id run_request)
    (TaskRunRequest.totp_identifier run_request)
    (TaskRunRequest.totp_url run_request)
    (TaskRunRequest.webhook_url run_request)
    (TaskRunRequest.proxy_location run_request)
    (TaskRunRequest.publish_workflow run_request)
    (TaskRunRequest.data_extraction_schema run_request)
    (TaskRunRequest.error_code_mapping run_request).

(** The calls of a trace other than analytics and logging. *)
Definition is_collaborator_call (ev : Event) : bool :=
  match ev with EvAnalytics _ | EvLog _ => false | _ => true end.

(** ** [get_artifacts] and [get_step_artifacts] *)

(** [class EntityType(str, Enum)]: each member is the string [value]. *)
Module EntityType.
Inductive t : Type := STEP | TASK | WORKFLOW_RUN | WORKFLOW_RUN_BLOCK | THOUGHT.

Definition value (e : t) : string :=
  match e with
  | STEP => "step"
  | TASK => "task"
  | WORKFLOW_RUN => "workflow_run"
  | WORKFLOW_RUN_BLOCK => "workflow_run_block"
  | THOUGHT => "thought"
  end.
End EntityType.

(** The module-level dict; its keys are the members, which hash and compare
    as their string values. *)
Definition entity_type_to_param : gmap string string :=
  <[EntityType.value EntityType.STEP := "step_id"]>
  (<[EntityType.value EntityType.TASK := "task_id"]>
  (<[EntityType.value EntityType.WORKFLOW_RUN := "workflow_run_id"]>
  (<[EntityType.value EntityType.WORKFLOW_RUN_BLOCK := "workflow_run_block_id"]>
  (<[EntityType.value EntityType.THOUGHT := "thought_id"]> ∅)))).

(** [Artifact]: the handlers assign [signed_url] and touch nothing else. *)
Module Artifact.
Record t : Type := mk {
  artifact_id : string;
  uri : string;
  signed_url : option string;
}.

Definition set_signed_url (u : option string) (a : t) : t :=
  mk (artifact_id a) (uri a) u.
End Artifact.

Module Settings.
Record t : Type := mk {
  ENV : string;
  GENERATE_PRESIGNED_URLS : bool;
}.
End Settings.

(** [for i, artifact in enumerate(artifacts): artifact.signed_url =
    signed_urls[i]], from index [i] on; the subscript raises [IndexError]
    past the end of [signed_urls]. *)
Fixpoint assign_signed_urls (signed_urls : list string) (i : nat)
    (artifacts : list Artifact.t) : Result (list Artifact.t) :=
  match artifacts with
  | [] => Ok []
  | artifact :: rest =>
    match signed_urls !! i with
    | None => Raise (OtherException "IndexError")
    | Some signed_url =>
      match assign_signed_urls signed_urls (S i) rest with
      | Ok rest' => Ok (Artifact.set_signed_url (Some signed_url) artifact :: rest')
      | Raise e => Raise e
      end
    end
  end.

Section artifacts.
(** [settings], the two store queries (the first takes its keyword arguments
    as a dict), [app.ARTIFACT_MANAGER.get_share_links], and the text the
    f-string renders for an entity type. *)
Context (settings : Settings.t)
        (get_artifacts_by_entity_id : gmap string string → list Artifact.t)
        (get_artifacts_for_task_step : string → string → string → list Artifact.t)
        (get_share_links : list Artifact.t → option (list string))
        (EntityType_str : EntityType.t → string).

Definition get_artifacts (entity_type : EntityType.t) (entity_id : string)
    (current_org : Organization.t) : M (list Artifact.t) :=
  match entity_type_to_param !! EntityType.value entity_type with
  | None =>
    raise (HTTPException 400 ("Invalid entity_type: " +:+ EntityType_str entity_type))
  | Some param =>
    analytics.capture "skyvern-oss-agent-entity-artifacts-get" ;;
    let params : gmap string string :=
      <[param := entity_id]>
        (<["organization_id" := Organization.organization_id current_org]> ∅) in
    let artifacts := get_artifacts_by_entity_id params in
    if negb (bool_decide (Settings.ENV settings = "local"))
       || Settings.GENERATE_PRESIGNED_URLS settings then
      let signed_urls := get_share_links artifacts in
      match signed_urls with
      | Some (signed_url :: signed_urls') =>
        answer (assign_signed_urls (signed_url :: signed_urls') 0 artifacts)
      | _ =>
        LOG (mkLog WARNING "Failed to get signed urls for artifacts"
               [("entity_type", LStr (EntityType.value entity_type));
                ("entity_id", LStr entity_id)]) ;;
        mret artifacts
      end
    else mret artifacts
  end.

Definition get_step_artifacts (task_id step_id : string)
    (current_org : Organization.t) : M (list Artifact.t) :=
  analytics.capture "skyvern-oss-agent-task-step-artifacts-get" ;;
  let artifacts :=
    get_artifacts_for_task_step task_id step_id
      (Organization.organization_id current_org) in
  if negb (bool_decide (Settings.ENV settings = "local"))
     || Settings.GENERATE_PRESIGNED_URLS settings then
    let signed_urls := get_share_links artifacts in
    match signed_urls with
    | Some (signed_url :: signed_urls') =>
      answer (assign_signed_urls (signed_url :: signed_urls') 0 artifacts)
    | _ =>
      LOG (mkLog WARNING "Failed to get signed urls for artifacts"
             [("task_id", LStr task_id); ("step_id", LStr step_id)]) ;;
      mret artifacts
    end
  else mret artifacts.

End artifacts.

(** An artifact as it is before any link is assigned. *)
Definition unsigned (a : Artifact.t) : Artifact.t := Artifact.set_signed_url None a.

(** [signing settings]: the handlers ask for share links. *)
Definition signing (settings : Settings.t) : bool :=
  negb (bool_decide (Settings.ENV settings = "local"))
  || Settings.GENERATE_PRESIGNED_URLS settings.

(** *** Two artifacts of a step *)
Module ArtifactExample.

Definition a1 : Artifact.t := Artifact.mk "a_1" "s3://bucket/a_1.png" None.
Definition a2 : Artifact.t := Artifact.mk "a_2" "s3://bucket/a_2.har" None.

Definition production : Settings.t := Settings.mk "production" false.

Definition get_artifacts_by_entity_id (params : gmap string string) : list Artifact.t :=
  if decide (params !! "step_id" = Some "stp_1"
             ∧ params !! "organization_id" = Some "o_1")
  then [a1; a2] else [].

Definition get_artifacts_for_task_step (task_id step_id organization_id : string)
    : list Artifact.t :=
  if decide (step_id = "stp_1" ∧ organization_id = "o_1") then [a1; a2] else [].

Definition all_links (artifacts : list Artifact.t) : option (list string) :=
  Some ((λ a, "https://signed/" +:+ Artifact.artifact_id a) <$> artifacts).

Definition one_link (artifacts : list Artifact.t) : option (list string) :=
  Some ["https://signed/a_1"].

Definition EntityType_str (e : EntityType.t) : string := EntityType.value e.

End ArtifactExample.

(** ** [webhook] *)

Module Response.
Record t : Type := mk { content : string; status_code : Z }.
End Response.

(** What [webhook] logs: header values, the raw body and a truth value. *)
Inductive WebhookLogValue : Type :=
  | WNone
  | WStr (s : string)
  | WBytes (b : list Byte.byte)
  | WBool (b : bool).

Definition webhook_log_opt_str (o : option string) : WebhookLogValue :=
  match o with None => WNone | Some s => WStr s end.

Inductive WebhookEvent : Type :=
  | WhAnalytics (name : string)
  | WhLog (level : LogLevel) (event : string)
      (kwargs : list (string * WebhookLogValue)).

Section webhook.
(** [settings.SKYVERN_API_KEY], [bytes.decode("utf-8")] (nothing when the
    body is not UTF-8: [UnicodeDecodeError]) and
    [generate_skyvern_signature] of [skyvern.forge.sdk.core.security]. *)
Context (SKYVERN_API_KEY : string)
        (decode_utf8 : list Byte.byte → option string)
        (generate_skyvern_signature : string → string → string).

(** The handler reads no record: it answers and leaves events. *)
Definition webhook (payload : list Byte.byte)
    (x_skyvern_signature x_skyvern_timestamp : option string)
    : Result Response.t * list WebhookEvent :=
  let captured := [WhAnalytics "skyvern-oss-agent-webhook-received"] in
  if negb (truthy x_skyvern_signature) || negb (truthy x_skyvern_timestamp) then
    (Raise (HTTPException 400 "Missing webhook signature or timestamp"),
     captured ++
     [WhLog ERROR "Webhook signature or timestamp missing"
        [("x_skyvern_signature", webhook_log_opt_str x_skyvern_signature);
         ("x_skyvern_timestamp", webhook_log_opt_str x_skyvern_timestamp);
         ("payload", WBytes payload)]])
  else
    match decode_utf8 payload with
    | None => (Raise (OtherException "UnicodeDecodeError"), captured)
    | Some text =>
      let generated_signature := generate_skyvern_signature text SKYVERN_API_KEY in
      (Ok (Response.mk "webhook validation" 200),
       captured ++
       [WhLog INFO "Webhook received"
          [("x_skyvern_signature", webhook_log_opt_str x_skyvern_signature);
           ("x_skyvern_timestamp", webhook_log_opt_str x_skyvern_timestamp);
           ("payload", WBytes payload);
           ("generated_signature", WStr generated_signature);
           ("valid_signature",
            WBool (bool_decide (x_skyvern_signature = Some generated_signature)))]])
    end.

End webhook.

(** The values logged under [valid_signature]. *)
Definition logged_validity (events : list WebhookEvent) : list WebhookLogValue :=
  events ≫= λ ev,
    match ev with
    | WhLog _ _ kwargs =>
      omap (λ kv : string * WebhookLogValue,
              if decide (kv.1 = "valid_signature") then Some kv.2 else None) kwargs
    | WhAnalytics _ => []
    end.

(** *** A signed body *)
Module WebhookExample.

Definition SKYVERN_API_KEY : string := "secret".

Definition decode_utf8 (payload : list Byte.byte) : option string :=
  Some (String.string_of_list_byte payload).

Definition generate_skyvern_signature (payload key : string) : string :=
  "sig(" +:+ key +:+ "," +:+ payload +:+ ")".

Definition payload : list Byte.byte := String.list_byte_of_string "{}".

End WebhookExample.

(** ** [_validate_file_size] and [upload_file] *)

(** The file object behind an [UploadFile]: its bytes, its pointer, and
    whether it has been closed (an operation on a closed file raises
    [ValueError]). *)
Module File.
Record t : Type := mk {
  content : list Byte.byte;
  position : nat;
  closed : bool;
}.

(** [f.seek(offset, whence)] for [whence] 0 (from the start) and 2 (from
    the end), with the offsets the handlers use (none is negative). *)
Definition seek (offset : nat) (whence : Z) (f : t) : Result t :=
  if closed f then Raise (OtherException "ValueError")
  else if (whence =? 0)%Z then Ok (mk (content f) offset false)
  else if (whence =? 2)%Z then Ok (mk (content f) (length (content f) + offset) false)
  else Raise (OtherException "ValueError").

(** [f.tell()] *)
Definition tell (f : t) : Result nat :=
  if closed f then Raise (OtherException "ValueError") else Ok (position f).
End File.

Module UploadFile.
Record t : Type := mk {
  filename : option string;
  file : File.t;
}.
End UploadFile.

(** The JSON body of the answer of [upload_file]. *)
Module UploadResponse.
Record t : Type := mk { s3_uri : string; presigned_url : string }.
End UploadResponse.

(** [sep] of [posixpath], the slash. *)
Definition sep : Ascii.ascii := Ascii.ascii_of_byte Byte.x2f.

(** [p.rfind(sep)], nothing for -1. *)
Fixpoint rfind_sep (p : string) : option nat :=
  match p with
  | EmptyString => None
  | String c rest =>
    match rfind_sep rest with
    | Some i => Some (S i)
    | None => if Ascii.eqb c sep then Some 0%nat else None
    end
  end.

(** [p[i:]] *)
Fixpoint py_slice_from (i : nat) (p : string) : string :=
  match i, p with
  | O, _ => p
  | S i, EmptyString => EmptyString
  | S i, String _ rest => py_slice_from i rest
  end.

(** [os.path.basename] of [posixpath]: [i = p.rfind(sep) + 1; return p[i:]]. *)
Definition basename (p : string) : string :=
  py_slice_from (match rfind_sep p with Some i => S i | None => 0 end) p.

(** What an f-string renders for [str | None]. *)
Definition py_str_opt (o : option string) : string := default "None" o.

(** The calls [upload_file] makes: a stream upload (with the position of the
    file pointer when the stream is handed over), a log record, a request
    for presigned URLs. *)
Inductive UploadEvent : Type :=
  | UpStream (s3_uri : string) (position : nat)
  | UpLog (r : LogRecord)
  | UpPresign (uris : list string).

Record UploadWorld : Type := mkUploadWorld {
  file_obj : File.t;
  calls : list UploadEvent;
}.

Definition Up (A : Type) : Type := UploadWorld → Result A * UploadWorld.

Global Instance Up_ret : MRet Up := λ A a w, (Ok a, w).

Global Instance Up_bind : MBind Up := λ A B f m w,
  match m w with
  | (Ok a, w') => f a w'
  | (Raise e, w') => (Raise e, w')
  end.

Definition up_raise {A} (e : Exception) : Up A := λ w, (Raise e, w).

Definition up_emit (ev : UploadEvent) : Up unit :=
  λ w, (Ok tt, mkUploadWorld (file_obj w) (calls w ++ [ev])).

(** [try: m except Exception: handler] *)
Definition try_except_Exception {A} (m : Up A) (handler : Up A) : Up A :=
  λ w, match m w with
       | (Raise _, w') => handler w'
       | r => r
       end.

(** [file.file.seek(offset, whence)] on the shared file object. *)
Definition file_seek (offset : nat) (whence : Z) : Up unit :=
  λ w, match File.seek offset whence (file_obj w) with
       | Ok f => (Ok tt, mkUploadWorld f (calls w))
       | Raise e => (Raise e, w)
       end.

Section uploads.
(** [app.SETTINGS_MANAGER], the text of [MAX_UPLOAD_FILE_SIZE / 1024 / 1024],
    today's date as [strftime("%Y-%m-%d")] renders it, [str(uuid.uuid4())],
    and the two calls of [aws_client]: [upload_file_stream] reads from the
    file object it is given and answers the URI or nothing,
    [create_presigned_urls] answers the URLs or nothing. *)
Context (MAX_UPLOAD_FILE_SIZE : Z)
        (MAX_UPLOAD_FILE_SIZE_MB : string)
        (AWS_S3_BUCKET_UPLOADS ENV : string)
        (todays_date : string)
        (uuid4 : string)
        (upload_file_stream : string → File.t → Result (option string) * File.t)
        (create_presigned_urls : list string → option (list string)).

Definition _validate_file_size (file : UploadFile.t) : Result UploadFile.t :=
  let measured : Result (nat * File.t) :=
    match File.seek 0 2 (UploadFile.file file) with
    | Raise e => Raise e
    | Ok f =>
      match File.tell f with
      | Raise e => Raise e
      | Ok size =>
        match File.seek 0 0 f with
        | Raise e => Raise e
        | Ok f => Ok (size, f)
        end
      end
    end in
  match measured with
  | Raise _ => Raise (HTTPException 500 "Could not determine file size.")
  | Ok (size, f) =>
    if (MAX_UPLOAD_FILE_SIZE <? Z.of_nat size)%Z then
      Raise (HTTPException 413
               ("File size exceeds the maximum allowed size ("
                  +:+ MAX_UPLOAD_FILE_SIZE_MB +:+ " MB)"))
    else Ok (UploadFile.mk (UploadFile.filename file) f)
  end.

(** [aws_client.upload_file_stream(s3_uri, file.file)] *)
Definition aws_upload_file_stream (s3_uri : string) : Up (option string) :=
  λ w, let '(r, f) := upload_file_stream s3_uri (file_obj w) in
       (r, mkUploadWorld f
             (calls w ++ [UpStream s3_uri (File.position (file_obj w))])).

(** [os.path.basename(file.filename)]: [TypeError] when there is no name. *)
Definition os_path_basename (filename : option string) : Up string :=
  match filename with
  | None => up_raise (OtherException "TypeError")
  | Some p => mret (basename p)
  end.

Definition upload_folder (current_org : Organization.t) : string :=
  "s3://" +:+ AWS_S3_BUCKET_UPLOADS +:+ "/" +:+ ENV +:+ "/"
    +:+ Organization.organization_id current_org +:+ "/" +:+ todays_date +:+ "/".

Definition upload_file (file : UploadFile.t) (current_org : Organization.t)
    : Up UploadResponse.t :=
  uploaded_s3_uri ← try_except_Exception
    (sanitized_filename ← os_path_basename (UploadFile.filename file);
     let s3_uri := upload_folder current_org +:+ sanitized_filename in
     aws_upload_file_stream s3_uri)
    (up_emit (UpLog (mkLog ERROR "Failed to upload file to S3" [])) ;;
     mret None);
  uploaded_s3_uri ←
    (if negb (truthy uploaded_s3_uri) then
       let uuid_prefixed_filename :=
         uuid4 +:+ "_" +:+ py_str_opt (UploadFile.filename file) in
       let s3_uri := upload_folder current_org +:+ uuid_prefixed_filename in
       file_seek 0 0 ;;
       aws_upload_file_stream s3_uri
     else mret uploaded_s3_uri);
  match uploaded_s3_uri with
  | Some (String c s as uploaded_s3_uri) =>
    up_emit (UpPresign [uploaded_s3_uri]) ;;
    match create_presigned_urls [uploaded_s3_uri] with
    | Some (presigned_url :: _) =>
      mret (UploadResponse.mk uploaded_s3_uri presigned_url)
    | _ => up_raise (HTTPException 500 "Failed to generate presigned URL.")
    end
  | _ => up_raise (HTTPException 500 "Failed to upload file to S3.")
  end.

(** The route: FastAPI resolves [file] through [_validate_file_size] and
    calls the handler with what it returns. *)
Definition upload_file_route (file : UploadFile.t) (current_org : Organization.t)
    : Result UploadResponse.t * list UploadEvent :=
  match _validate_file_size file with
  | Raise e => (Raise e, [])
  | Ok file =>
    let '(r, w) := upload_file file current_org
                     (mkUploadWorld (UploadFile.file file) []) in
    (r, calls w)
  end.

End uploads.

(** The stream uploads of a list of calls, in order. *)
Definition stream_uploads (evs : list UploadEvent) : list (string * nat) :=
  omap (λ ev, match ev with UpStream uri pos => Some (uri, pos) | _ => None end) evs.

Definition upload_error_logs (evs : list UploadEvent) : list LogRecord :=
  omap (λ ev, match ev with UpLog r => Some r | _ => None end) evs.

(** *** An object store that refuses the first name *)
Module UploadExample.

Definition org : Organization.t := Organization.mk "o_1".

Definition report : UploadFile.t :=
  UploadFile.mk (Some "../../etc/report.pdf")
    (File.mk (String.list_byte_of_string "%PDF") 2 false).

(** Reads the stream to its end; refuses keys that end in [report.pdf]
    unless they carry the prefix. *)
Definition upload_file_stream (s3_uri : string) (f : File.t)
    : Result (option string) * File.t :=
  let f' := File.mk (File.content f) (length (File.content f)) false in
  if decide (s3_uri = "s3://uploads/prod/o_1/2025-01-01/report.pdf")
  then (Raise (OtherException "ClientError"), f')
  else (Ok (Some s3_uri), f').

Definition create_presigned_urls (uris : list string) : option (list string) :=
  Some ((λ uri, "https://signed/" +:+ uri) <$> uris).

End UploadExample.

(** An attempt produced a URI: it did not raise and what it answered is
    neither nothing nor the empty string. *)
Definition uploaded (r : Result (option string)) : bool :=
  match r with Ok u => truthy u | Raise _ => false end.

Definition upload_failed_log : LogRecord :=
  mkLog ERROR "Failed to upload file to S3" [].

(** * Properties *)

(** ** The sort *)

Section sort_reverse_facts.
Context {A : Type} (key : A → Z).

Lemma insert_reverse_perm x l : insert_reverse key x l ≡ₚ x :: l.
Proof.
  induction l as [|y l IH]; simpl; [done|].
  destruct (key y <=? key x)%Z; [done|].
  rewrite IH. apply Permutation_swap.
Qed.

Lemma sort_reverse_perm l : sort_reverse key l ≡ₚ l.
Proof.
  induction l as [|x l IH]; simpl; [done|].
  rewrite insert_reverse_perm. by f_equiv.
Qed.

Lemma insert_reverse_sorted x l :
  StronglySorted (descending key) l →
  StronglySorted (descending key) (insert_reverse key x l).
Proof.
  induction 1 as [|y l Hl IH Hy]; simpl.
  - repeat constructor.
  - destruct (key y <=? key x)%Z eqn:E.
    + apply Z.leb_le in E. constructor; [by constructor|].
      constructor; [done|].
      eapply Forall_impl; [exact Hy|]. unfold descending. intros; lia.
    + apply Z.leb_gt in E. constructor; [done|].
      rewrite insert_reverse_perm. constructor; [|done].
      unfold descending. lia.
Qed.

Lemma sort_reverse_sorted l : StronglySorted (descending key) (sort_reverse key l).
Proof.
  induction l as [|x l IH]; simpl; [constructor|].
  by apply insert_reverse_sorted.
Qed.

Lemma descending_distinct_strict l :
  StronglySorted (descending key) l → NoDup (key <$> l) →
  StronglySorted (strictly_descending key) l.
Proof.
  induction 1 as [|x l Hl IH Hx]; intros Hnd; [constructor|].
  rewrite fmap_cons in Hnd. apply NoDup_cons in Hnd as [Hnotin Hnd].
  constructor; [by apply IH|].
  apply Forall_forall. intros y Hy.
  rewrite Forall_forall in Hx. specialize (Hx y Hy).
  unfold descending, strictly_descending in *.
  assert (key y ≠ key x); [|lia].
  intros Heq. apply Hnotin. rewrite <- Heq. by apply list_elem_of_fmap_2.
Qed.

(** The sort is stable: entries with one and the same key keep their order. *)
Lemma insert_reverse_filter_key k x l :
  StronglySorted (descending key) l →
  List.filter (λ a, bool_decide (key a = k)) (insert_reverse key x l)
  = List.filter (λ a, bool_decide (key a = k)) (x :: l).
Proof.
  induction 1 as [|y l Hl IH Hy]; [done|].
  cbn [insert_reverse]. destruct (key y <=? key x)%Z eqn:E; [done|].
  apply Z.leb_gt in E.
  cbn [List.filter]. rewrite IH. cbn [List.filter].
  repeat case_bool_decide; try done; lia.
Qed.

Lemma sort_reverse_stable k l :
  List.filter (λ a, bool_decide (key a = k)) (sort_reverse key l)
  = List.filter (λ a, bool_decide (key a = k)) l.
Proof.
  induction l as [|x l IH]; [done|].
  cbn [sort_reverse foldr].
  rewrite insert_reverse_filter_key by apply sort_reverse_sorted.
  cbn [List.filter]. fold (sort_reverse key l). by rewrite IH.
Qed.

End sort_reverse_facts.

(** ** The timeline aggregator *)

Lemma flatten_loop_acc recur warning final logs l :
  flatten_loop recur warning final logs l
  = '(f, lg) ← flatten_loop recur warning [] [] l; Some (final ++ f, logs ++ lg).
Proof.
  revert final logs.
  induction l as [|e l IH]; intros final logs; simpl.
  - by rewrite !app_nil_r.
  - destruct (WorkflowRunTimeline.block e) as [b|]; [|apply IH].
    case_bool_decide.
    { rewrite IH, (IH [e]).
      destruct (flatten_loop recur warning [] [] l) as [[f lg]|]; simpl; [|done].
      by rewrite <- app_assoc. }
    destruct (negb _).
    { rewrite IH, (IH _ [warning]).
      destruct (flatten_loop recur warning [] [] l) as [[f lg]|]; simpl; [|done].
      by rewrite <- app_assoc. }
    destruct (recur _) as [[wb lg']|]; [|done].
    rewrite IH, (IH wb lg').
    destruct (flatten_loop recur warning [] [] l) as [[f lg]|]; simpl; [|done].
    by rewrite <- !app_assoc.
Qed.

(** The loop with its two accumulators computes, entry by entry, what the
    rule says. *)
Lemma flatten_loop_cons recur warning e l :
  flatten_loop recur warning [] [] (e :: l)
  = '(p, lp) ← entry_contribution recur warning e;
    '(f, lg) ← flatten_loop recur warning [] [] l;
    Some (p ++ f, lp ++ lg).
Proof.
  unfold entry_contribution. cbn [flatten_loop].
  destruct (WorkflowRunTimeline.block e) as [b|]; simpl.
  2:{ by destruct (flatten_loop recur warning [] [] l) as [[??]|]. }
  destruct (WorkflowRunBlock.block_type b) eqn:Hty.
  - rewrite bool_decide_eq_false_2 by (intros H; by apply H).
    destruct (WorkflowRunBlock.block_workflow_run_id b) as [[|c id]|]; simpl.
    + apply flatten_loop_acc.
    + destruct (recur _) as [[wb lg']|]; simpl; [|done]. apply flatten_loop_acc.
    + apply flatten_loop_acc.
  - rewrite bool_decide_eq_true_2 by done. apply flatten_loop_acc.
Qed.

Lemma flatten_loop_app recur warning l1 l2 :
  flatten_loop recur warning [] [] (l1 ++ l2)
  = '(f1, lg1) ← flatten_loop recur warning [] [] l1;
    '(f2, lg2) ← flatten_loop recur warning [] [] l2;
    Some (f1 ++ f2, lg1 ++ lg2).
Proof.
  induction l1 as [|e l1 IH].
  - simpl. by destruct (flatten_loop recur warning [] [] l2) as [[??]|].
  - rewrite <- app_comm_cons, !flatten_loop_cons, IH.
    destruct (entry_contribution recur warning e) as [[p lp]|]; simpl; [|done].
    destruct (flatten_loop recur warning [] [] l1) as [[f1 lg1]|]; simpl; [|done].
    destruct (flatten_loop recur warning [] [] l2) as [[f2 lg2]|]; simpl; [|done].
    by rewrite !app_assoc.
Qed.

Lemma flatten_accumulate_eq recur db organization_id workflow_run_id rows :
  flatten_accumulate recur db organization_id workflow_run_id rows
  = '(final, logs) ← flatten_loop recur
        (flatten_warning workflow_run_id organization_id
           (DATABASE.get_task_v2_by_workflow_run_id db workflow_run_id organization_id))
        [] [] rows;
    Some (final ++ own_thoughts db organization_id workflow_run_id, logs).
Proof.
  unfold flatten_accumulate, own_thoughts.
  destruct (flatten_loop _ _ _ _ _) as [[final logs]|]; simpl; [|done].
  destruct (DATABASE.get_task_v2_by_workflow_run_id _ _ _) as [t|]; simpl.
  - destruct (truthy (TaskV2.observer_cruise_id t)); [done|by rewrite app_nil_r].
  - by rewrite app_nil_r.
Qed.

Lemma flatten_loop_contributions recur warning rows :
  flatten_loop recur warning [] [] rows
  = ps ← contributions recur warning rows;
    Some (concat ps.*1, concat ps.*2).
Proof.
  induction rows as [|e rows IH]; [done|].
  rewrite flatten_loop_cons, IH. cbn [contributions].
  destruct (entry_contribution recur warning e) as [[p lp]|]; simpl; [|done].
  by destruct (contributions recur warning rows) as [ps|].
Qed.

Lemma flatten_body_eq recur db organization_id workflow_run_id rows :
  flatten_body recur db organization_id workflow_run_id rows
  = ps ← contributions recur
          (flatten_warning workflow_run_id organization_id
             (DATABASE.get_task_v2_by_workflow_run_id db workflow_run_id organization_id))
          rows;
    Some (sort_reverse entry_created_at
            (concat ps.*1 ++ own_thoughts db organization_id workflow_run_id),
          concat ps.*2).
Proof.
  unfold flatten_body. rewrite flatten_accumulate_eq, flatten_loop_contributions.
  by destruct (contributions _ _ rows) as [ps|].
Qed.

Lemma contributions_Forall2 recur warning rows ps :
  contributions recur warning rows = Some ps ↔
  Forall2 (λ e p, entry_contribution recur warning e = Some p) rows ps.
Proof.
  revert ps. induction rows as [|e rows IH]; intros ps; simpl.
  - split; [intros [= <-]; constructor|by inv 1].
  - split.
    + destruct (entry_contribution recur warning e) as [p|] eqn:E; simpl; [|done].
      destruct (contributions recur warning rows) as [ps'|] eqn:E'; simpl; [|done].
      intros [= <-]. constructor; [done|]. by apply IH.
    + inv 1 as [|? p ? ps' Hp Hps]. rewrite Hp. simpl.
      apply IH in Hps. by rewrite Hps.
Qed.

(** More fuel never changes a result. *)
Lemma contributions_mono recur1 recur2 warning rows ps :
  (∀ id r, recur1 id = Some r → recur2 id = Some r) →
  contributions recur1 warning rows = Some ps →
  contributions recur2 warning rows = Some ps.
Proof.
  intros Hrec. rewrite !contributions_Forall2.
  intros H. eapply Forall2_impl; [exact H|].
  intros e p. unfold entry_contribution.
  destruct (WorkflowRunTimeline.block e) as [b|]; [|done].
  destruct (WorkflowRunBlock.block_type b); [|done].
  destruct (WorkflowRunBlock.block_workflow_run_id b) as [[|c id]|]; [done| |done].
  apply Hrec.
Qed.

Lemma flatten_fuel_mono (fuel fuel' : nat) db organization_id workflow_run_id r :
  (fuel ≤ fuel')%nat →
  _flatten_workflow_run_timeline fuel db organization_id workflow_run_id = Some r →
  _flatten_workflow_run_timeline fuel' db organization_id workflow_run_id = Some r.
Proof.
  revert fuel' workflow_run_id r.
  induction fuel as [|fuel IH]; intros fuel' wr r Hle; [done|].
  destruct fuel' as [|fuel']; [lia|].
  cbn [_flatten_workflow_run_timeline]. rewrite !flatten_body_eq.
  destruct (contributions (_flatten_workflow_run_timeline fuel db organization_id) _ _)
    as [ps|] eqn:E; simpl; [|done].
  intros [= <-].
  erewrite contributions_mono; [done| |exact E].
  intros id r. apply IH. lia.
Qed.


Lemma entry_contribution_nested recur warning e id :
  nested_run_id e = Some id → entry_contribution recur warning e = recur id.
Proof.
  unfold nested_run_id, entry_contribution.
  destruct (WorkflowRunTimeline.block e) as [b|]; simpl; [|done].
  destruct (WorkflowRunBlock.block_type b); [|done].
  by destruct (WorkflowRunBlock.block_workflow_run_id b) as [[|c s]|]; intros [= <-].
Qed.

Lemma entry_contribution_not_nested recur warning e :
  nested_run_id e = None → is_Some (entry_contribution recur warning e).
Proof.
  unfold nested_run_id, entry_contribution.
  destruct (WorkflowRunTimeline.block e) as [b|]; simpl; [|by eexists].
  destruct (WorkflowRunBlock.block_type b); [|by eexists].
  destruct (WorkflowRunBlock.block_workflow_run_id b) as [[|c s]|];
    intros H; try discriminate H; by eexists.
Qed.

Lemma contributions_is_Some recur warning rows :
  (∀ e id, e ∈ rows → nested_run_id e = Some id → is_Some (recur id)) →
  is_Some (contributions recur warning rows).
Proof.
  induction rows as [|e rows IH]; intros Hrec; simpl; [by eexists|].
  assert (is_Some (entry_contribution recur warning e)) as [p ->].
  { destruct (nested_run_id e) as [id|] eqn:E.
    - rewrite (entry_contribution_nested _ _ _ _ E).
      apply (Hrec e id); [left|done].
    - by apply entry_contribution_not_nested. }
  destruct IH as [ps ->]; [|by eexists].
  intros e' id' Hin. apply Hrec. by right.
Qed.

(** The aggregator returns whenever nesting is well founded: if every nested
    run has a smaller rank than the run whose timeline names it, fuel above
    the rank of the run is enough. *)
Lemma flatten_total db organization_id (rank : string → nat) :
  well_founded_nesting db organization_id rank →
  ∀ (fuel : nat) wr, (rank wr < fuel)%nat →
    is_Some (_flatten_workflow_run_timeline fuel db organization_id wr).
Proof.
  intros Hrank fuel. induction fuel as [|fuel IH]; intros wr Hlt; [lia|].
  cbn [_flatten_workflow_run_timeline]. rewrite flatten_body_eq.
  edestruct (contributions_is_Some (_flatten_workflow_run_timeline fuel db organization_id))
    as [ps ->]; [|by eexists].
  intros e id Hin Hid. apply IH.
  specialize (Hrank wr e id Hin Hid). lia.
Qed.

(** No nested-run block entry is ever part of a result. *)
Lemma thought_entries_not_task_v2 db task_v2_id organization_id :
  Forall (λ e, ¬ is_task_v2_entry e)
    (task_v2_service.get_thought_timelines db task_v2_id organization_id).
Proof.
  unfold task_v2_service.get_thought_timelines. apply Forall_fmap, Forall_forall.
  intros th _ (b & Hb & _). simpl in Hb. discriminate.
Qed.

Lemma own_thoughts_not_task_v2 db organization_id workflow_run_id :
  Forall (λ e, ¬ is_task_v2_entry e) (own_thoughts db organization_id workflow_run_id).
Proof.
  unfold own_thoughts.
  destruct (DATABASE.get_task_v2_by_workflow_run_id _ _ _) as [t|]; [|constructor].
  destruct (truthy _); [apply thought_entries_not_task_v2|constructor].
Qed.

Lemma contributions_not_task_v2 recur warning rows ps :
  (∀ id out logs, recur id = Some (out, logs) →
     Forall (λ e, ¬ is_task_v2_entry e) out) →
  contributions recur warning rows = Some ps →
  Forall (λ e, ¬ is_task_v2_entry e) (concat ps.*1).
Proof.
  intros Hrec. rewrite contributions_Forall2.
  induction 1 as [|e [p lp] rows ps Hp _ IH]; [constructor|].
  rewrite fmap_cons. simpl. apply Forall_app. split; [|done].
  unfold entry_contribution in Hp.
  destruct (WorkflowRunTimeline.block e) as [b|] eqn:Hb; [|by inv Hp].
  destruct (WorkflowRunBlock.block_type b) eqn:Hty.
  - destruct (WorkflowRunBlock.block_workflow_run_id b) as [[|c s]|];
      [by inv Hp| |by inv Hp].
    by eapply Hrec.
  - inv Hp. constructor; [|constructor].
    intros (b' & Hb' & Hty'). congruence.
Qed.

Lemma flatten_not_task_v2 (fuel : nat) db organization_id workflow_run_id out logs :
  _flatten_workflow_run_timeline fuel db organization_id workflow_run_id
    = Some (out, logs) →
  Forall (λ e, ¬ is_task_v2_entry e) out.
Proof.
  revert workflow_run_id out logs.
  induction fuel as [|fuel IH]; intros wr out logs; [done|].
  cbn [_flatten_workflow_run_timeline]. rewrite flatten_body_eq.
  destruct (contributions _ _ _) as [ps|] eqn:E; simpl; [|done].
  intros [= <- <-].
  rewrite sort_reverse_perm. apply Forall_app. split.
  - eapply contributions_not_task_v2; [|exact E]. apply IH.
  - apply own_thoughts_not_task_v2.
Qed.

Lemma piece_submseteq_concat {A} (pieces : list (list A)) (piece : list A) :
  piece ∈ pieces → piece ⊆+ concat pieces.
Proof.
  intros (l1 & l2 & ->)%list_elem_of_split.
  rewrite concat_app, concat_cons.
  by apply submseteq_inserts_l, submseteq_inserts_r.
Qed.

Lemma entry_contribution_piece_of recur warning e p :
  entry_contribution recur warning e = Some p → piece_of recur e p.1.
Proof.
  unfold entry_contribution, piece_of.
  destruct (WorkflowRunTimeline.block e) as [b|]; [|by intros [= <-]].
  destruct (WorkflowRunBlock.block_type b); [|by intros [= <-]].
  destruct (WorkflowRunBlock.block_workflow_run_id b) as [[|c s]|];
    try by intros [= <-].
  destruct p as [piece logs]. intros ->. by exists logs.
Qed.

Lemma flatten_pieces (fuel : nat) db organization_id workflow_run_id out logs :
  _flatten_workflow_run_timeline (S fuel) db organization_id workflow_run_id
    = Some (out, logs) →
  ∃ pieces : list (list entry),
    Forall2 (piece_of (_flatten_workflow_run_timeline fuel db organization_id))
      (WORKFLOW_SERVICE.get_workflow_run_timeline db workflow_run_id organization_id) pieces
    ∧ out = sort_reverse entry_created_at
              (concat pieces ++ own_thoughts db organization_id workflow_run_id).
Proof.
  cbn [_flatten_workflow_run_timeline]. rewrite flatten_body_eq.
  destruct (contributions _ _ _) as [ps|] eqn:E; simpl; [|done].
  intros [= <- <-]. exists (ps.*1). split; [|done].
  apply contributions_Forall2 in E. apply Forall2_fmap_r.
  eapply Forall2_impl; [exact E|]. intros e p. apply entry_contribution_piece_of.
Qed.

(** C2. In the timeline aggregation every raw entry whose block is a
    nested-run ([BlockType.TaskV2]) block carrying a nested workflow-run id is
    replaced by the whole recursively built timeline of that nested run,
    spliced into this level's output; no [BlockType.TaskV2] block entry is
    part of the output; and every entry whose block is of another kind is
    kept as it is. The aggregator returns whenever nesting is well founded. *)
Theorem timeline_splices_nested_runs (fuel : nat) (db : Database)
    (organization_id workflow_run_id : string) :
  let rows := WORKFLOW_SERVICE.get_workflow_run_timeline db workflow_run_id organization_id in
  (∀ rank, well_founded_nesting db organization_id rank →
     (rank workflow_run_id ≤ fuel)%nat →
     is_Some (_flatten_workflow_run_timeline (S fuel) db organization_id
                workflow_run_id))
  ∧ ∀ out logs,
      _flatten_workflow_run_timeline (S fuel) db organization_id workflow_run_id
        = Some (out, logs) →
      (∃ pieces : list (list entry),
         Forall2 (piece_of (_flatten_workflow_run_timeline fuel db organization_id))
           rows pieces
         ∧ out = sort_reverse entry_created_at
                   (concat pieces ++ own_thoughts db organization_id workflow_run_id))
      ∧ (∀ e b id, e ∈ rows →
           WorkflowRunTimeline.block e = Some b →
           WorkflowRunBlock.block_type b = BlockType.TaskV2 →
           WorkflowRunBlock.block_workflow_run_id b = Some id → id ≠ "" →
           ∃ nested nested_logs,
             _flatten_workflow_run_timeline fuel db organization_id id
               = Some (nested, nested_logs)
             ∧ nested ⊆+ out)
      ∧ Forall (λ e, ¬ is_task_v2_entry e) out
      ∧ (∀ e b, e ∈ rows →
           WorkflowRunTimeline.block e = Some b →
           WorkflowRunBlock.block_type b ≠ BlockType.TaskV2 →
           e ∈ out).
Proof.
  intros rows. split.
  { intros rank Hrank Hle. apply (flatten_total _ _ rank Hrank). lia. }
  intros out logs Hflat.
  destruct (flatten_pieces _ _ _ _ _ _ Hflat) as (pieces & Hpieces & Hout).
  fold rows in Hpieces.
  assert (∀ e, e ∈ rows → ∃ piece,
            piece_of (_flatten_workflow_run_timeline fuel db organization_id) e piece
            ∧ piece ⊆+ out) as Hpiece.
  { intros e (i & Hi)%list_elem_of_lookup.
    destruct (Forall2_lookup_l _ _ _ _ _ Hpieces Hi) as (piece & Hpi & Hrel).
    exists piece. split; [done|].
    rewrite Hout, sort_reverse_perm.
    apply submseteq_inserts_r, piece_submseteq_concat.
    apply list_elem_of_lookup. by exists i. }
  split; [by exists pieces|]. split; [|split].
  - intros e b id He Hb Hty Hid Hne.
    destruct (Hpiece e He) as (piece & Hrel & Hsub).
    unfold piece_of in Hrel. rewrite Hb, Hty, Hid in Hrel.
    destruct id as [|c s]; [done|].
    destruct Hrel as [lg Hrec]. by exists piece, lg.
  - by eapply flatten_not_task_v2.
  - intros e b He Hb Hty.
    destruct (Hpiece e He) as (piece & Hrel & Hsub).
    unfold piece_of in Hrel. rewrite Hb in Hrel.
    destruct (WorkflowRunBlock.block_type b); [done|]. subst piece.
    eapply elem_of_submseteq; [|exact Hsub]. by left.
Qed.

(** C3. The sequence the aggregator returns is sorted by creation time, most
    recent first; it is a permutation of the accumulated entries, so entries
    that share a timestamp are each present exactly once; and when the
    timestamps are pairwise distinct the order is strictly descending. The
    aggregator returns whenever nesting is well founded. *)
Theorem timeline_sorted_descending (fuel : nat) (db : Database)
    (organization_id workflow_run_id : string) :
  (∀ rank, well_founded_nesting db organization_id rank →
     (rank workflow_run_id ≤ fuel)%nat →
     is_Some (_flatten_workflow_run_timeline (S fuel) db organization_id
                workflow_run_id))
  ∧ ∀ out logs,
      _flatten_workflow_run_timeline (S fuel) db organization_id workflow_run_id
        = Some (out, logs) →
      ∃ accumulated : list entry,
        flatten_accumulate (_flatten_workflow_run_timeline fuel db organization_id)
          db organization_id workflow_run_id
          (WORKFLOW_SERVICE.get_workflow_run_timeline db workflow_run_id organization_id)
          = Some (accumulated, logs)
        ∧ out ≡ₚ accumulated
        ∧ StronglySorted (descending entry_created_at) out
        ∧ (NoDup (entry_created_at <$> accumulated) →
           StronglySorted (strictly_descending entry_created_at) out).
Proof.
  split.
  { intros rank Hrank Hle. apply (flatten_total _ _ rank Hrank). lia. }
  intros out logs.
  cbn [_flatten_workflow_run_timeline]. unfold flatten_body.
  destruct (flatten_accumulate _ _ _ _ _) as [[accumulated logs']|]; simpl; [|done].
  intros [= <- <-]. exists accumulated.
  split; [done|]. split; [apply sort_reverse_perm|].
  split; [apply sort_reverse_sorted|].
  intros Hnd. apply descending_distinct_strict; [apply sort_reverse_sorted|].
  by rewrite sort_reverse_perm.
Qed.





(** C10. The timeline endpoint takes [page] and [page_size] and does not use
    them: for any two pairs of values the result is the same, and it is the
    whole result of the recursive flatten. *)
Theorem timeline_endpoint_ignores_pagination (fuel : nat) (db : Database)
    (workflow_run_id : string) (current_org : Organization.t)
    (page page_size page' page_size' : Z) :
  get_workflow_run_timeline fuel db workflow_run_id page page_size current_org
  = get_workflow_run_timeline fuel db workflow_run_id page' page_size' current_org
  ∧ get_workflow_run_timeline fuel db workflow_run_id page page_size current_org
    = _flatten_workflow_run_timeline fuel db
        (Organization.organization_id current_org) workflow_run_id.
Proof. split; reflexivity. Qed.

(** *** The splicing example *)

Example splicing :
  _flatten_workflow_run_timeline 2 SplicingExample.store "o_1" "wr_parent"
  = Some ([SplicingExample.t3; SplicingExample.t2_2; SplicingExample.t2_1;
           SplicingExample.t1], []).
Proof. vm_compute. reflexivity. Qed.

Example malformed_dropped :
  _flatten_workflow_run_timeline 2 SplicingExample.store_malformed "o_1" "wr_parent"
  = Some ([SplicingExample.t3; SplicingExample.t2_2; SplicingExample.t2_1;
           SplicingExample.t1],
          [flatten_warning "wr_parent" "o_1" None]).
Proof. vm_compute. reflexivity. Qed.

(** Equal timestamps keep the order in which the entries were accumulated. *)
Example ties_keep_order :
  sort_reverse entry_created_at
    [SplicingExample.block_entry "x" (BlockType.other "a") None 5;
     SplicingExample.block_entry "y" (BlockType.other "a") None 7;
     SplicingExample.block_entry "z" (BlockType.other "a") None 5]
  = [SplicingExample.block_entry "y" (BlockType.other "a") None 7;
     SplicingExample.block_entry "x" (BlockType.other "a") None 5;
     SplicingExample.block_entry "z" (BlockType.other "a") None 5].
Proof. reflexivity. Qed.

(** On a cyclic nesting every bound on the depth is reached. *)
Example cyclic_nesting_runs_out (fuel : nat) :
  _flatten_workflow_run_timeline fuel SplicingExample.store_cyclic "o_1" "wr_parent"
  = None
  ∧ _flatten_workflow_run_timeline fuel SplicingExample.store_cyclic "o_1" "wr_nested"
    = None.
Proof.
  induction fuel as [|fuel [IH1 IH2]]; [done|].
  cbn [_flatten_workflow_run_timeline]. rewrite !flatten_body_eq.
  split.
  - replace (WORKFLOW_SERVICE.get_workflow_run_timeline SplicingExample.store_cyclic
               "wr_parent" "o_1")
      with [SplicingExample.t2] by (vm_compute; reflexivity).
    cbn [contributions]. unfold entry_contribution at 1. simpl. by rewrite IH2.
  - replace (WORKFLOW_SERVICE.get_workflow_run_timeline SplicingExample.store_cyclic
               "wr_nested" "o_1")
      with [SplicingExample.block_entry "n3" BlockType.TaskV2 (Some "wr_parent") 21]
      by (vm_compute; reflexivity).
    cbn [contributions]. unfold entry_contribution at 1. simpl. by rewrite IH1.
Qed.

Lemma splicing_nesting_well_founded :
  well_founded_nesting SplicingExample.store "o_1" SplicingExample.rank.
Proof.
  intros wr e id. unfold WORKFLOW_SERVICE.get_workflow_run_timeline, SplicingExample.store.
  cbn [block_timelines].
  destruct (decide (wr = "wr_parent")) as [->|Hp].
  - rewrite lookup_insert_eq. simpl.
    rewrite !elem_of_cons, elem_of_nil.
    intros [->|[->|[->|[]]]]; simpl; intros [= <-]. vm_compute. lia.
  - rewrite lookup_insert_ne by congruence.
    destruct (decide (wr = "wr_nested")) as [->|Hn].
    + rewrite lookup_insert_eq. simpl.
      rewrite !elem_of_cons, elem_of_nil.
      intros [->|[->|[]]]; simpl; intros [= <-].
    + rewrite lookup_insert_ne by congruence. rewrite lookup_empty. simpl.
      by intros ?%elem_of_nil.
Qed.

Lemma timeline_splices_nested_runs_witness :
  is_Some (_flatten_workflow_run_timeline 2 SplicingExample.store "o_1" "wr_parent")
  ∧ _flatten_workflow_run_timeline 2 SplicingExample.store "o_1" "wr_parent"
    = Some ([SplicingExample.t3; SplicingExample.t2_2; SplicingExample.t2_1;
             SplicingExample.t1], [])
  ∧ Forall (λ e, ¬ is_task_v2_entry e)
      [SplicingExample.t3; SplicingExample.t2_2; SplicingExample.t2_1;
       SplicingExample.t1].
Proof.
  assert (_flatten_workflow_run_timeline 2 SplicingExample.store "o_1" "wr_parent"
    = Some ([SplicingExample.t3; SplicingExample.t2_2; SplicingExample.t2_1;
             SplicingExample.t1], [])) as H by (vm_compute; reflexivity).
  destruct (timeline_splices_nested_runs 1 SplicingExample.store "o_1" "wr_parent")
    as [Hreturns Hresult].
  split.
  - apply (Hreturns SplicingExample.rank splicing_nesting_well_founded).
    vm_compute. constructor.
  - split; [exact H|].
    exact (proj1 (proj2 (proj2 (Hresult _ _ H)))).
Defined.

Lemma timeline_sorted_descending_witness :
  is_Some (_flatten_workflow_run_timeline 2 SplicingExample.store "o_1" "wr_parent")
  ∧ _flatten_workflow_run_timeline 2 SplicingExample.store "o_1" "wr_parent"
    = Some ([SplicingExample.t3; SplicingExample.t2_2; SplicingExample.t2_1;
             SplicingExample.t1], [])
  ∧ ∃ accumulated : list entry,
      flatten_accumulate (_flatten_workflow_run_timeline 1 SplicingExample.store "o_1")
        SplicingExample.store "o_1" "wr_parent"
        (WORKFLOW_SERVICE.get_workflow_run_timeline SplicingExample.store "wr_parent" "o_1")
        = Some (accumulated, [])
      ∧ [SplicingExample.t3; SplicingExample.t2_2; SplicingExample.t2_1;
         SplicingExample.t1] ≡ₚ accumulated
      ∧ StronglySorted (descending entry_created_at)
          [SplicingExample.t3; SplicingExample.t2_2; SplicingExample.t2_1;
           SplicingExample.t1]
      ∧ (NoDup (entry_created_at <$> accumulated) →
         StronglySorted (strictly_descending entry_created_at)
           [SplicingExample.t3; SplicingExample.t2_2; SplicingExample.t2_1;
            SplicingExample.t1]).
Proof.
  assert (_flatten_workflow_run_timeline 2 SplicingExample.store "o_1" "wr_parent"
    = Some ([SplicingExample.t3; SplicingExample.t2_2; SplicingExample.t2_1;
             SplicingExample.t1], [])) as H by (vm_compute; reflexivity).
  destruct (timeline_sorted_descending 1 SplicingExample.store "o_1" "wr_parent")
    as [Hreturns Hresult].
  split.
  - apply (Hreturns SplicingExample.rank splicing_nesting_well_founded).
    vm_compute. constructor.
  - split; [exact H|]. exact (Hresult _ _ H).
Defined.


(** ** Cancellation *)

Ltac run_handler :=
  unfold analytics.capture, LOG;
  unfold mbind, mret, M_bind, M_ret, raise, emit, read_db, write_db, answer;
  cbn [db trace fst snd].

(** C9. Cancelling a single task: when the task does not exist for the
    caller's organization the handler fails with 404 and the record store is
    unchanged; when it exists the task is marked canceled and then its
    webhook is fired, whatever happened before (the trace so far is
    arbitrary), the webhook call coming right after the status write. *)
Theorem cancel_task_spec (task_id : string) (current_org : Organization.t)
    (x_api_key : option string) (w : World) :
  let organization_id := Organization.organization_id current_org in
  match DATABASE.get_task (db w) task_id organization_id with
  | None =>
    ∃ w', cancel_task task_id current_org x_api_key w
          = (Raise (HTTPException 404 ("Task not found " +:+ task_id)), w')
      ∧ db w' = db w
      ∧ trace w' = trace w ++ [EvAnalytics "skyvern-oss-agent-task-get"]
  | Some task_obj =>
    ∃ w', cancel_task task_id current_org x_api_key w = (Ok tt, w')
      ∧ db w' = set_tasks (alter (Task.set_status TaskStatus.canceled) task_id
                             (tasks (db w))) (db w)
      ∧ DATABASE.get_task (db w') task_id organization_id
        = Some (Task.mk task_id (Task.organization_id task_obj) TaskStatus.canceled
                  (Task.webhook_callback_url task_obj))
      ∧ trace w' = trace w ++
          [EvAnalytics "skyvern-oss-agent-task-get";
           EvUpdateTask task_id TaskStatus.canceled;
           EvTaskWebhook task_id (DATABASE.get_latest_step (db w) task_id organization_id)
             x_api_key]
  end.
Proof.
  intros organization_id.
  destruct (DATABASE.get_task (db w) task_id organization_id) as [task_obj|] eqn:Hget.
  - unfold cancel_task, agent.update_task, agent.execute_task_webhook. run_handler.
    fold organization_id. rewrite Hget. run_handler.
    unfold DATABASE.get_task in Hget.
    destruct (tasks (db w) !! task_id) as [r|] eqn:Hrow; simpl in Hget; [|done].
    case_bool_decide as Horg; [|done]. injection Hget as <-.
    eexists. split; [reflexivity|]. cbn [db trace Task.task_id Task.of_row].
    split; [done|]. split.
    + unfold DATABASE.get_task, set_tasks. cbn [tasks].
      rewrite lookup_alter_eq, Hrow. simpl.
      by rewrite bool_decide_eq_true_2.
    + unfold DATABASE.get_latest_step, set_tasks. cbn [steps].
      by rewrite <- !app_assoc.
  - unfold cancel_task. run_handler. fold organization_id. rewrite Hget.
    eexists. split; [reflexivity|]. by cbn [db trace].
Qed.

Lemma status_not_in_active_false s :
  status_not_in_active s = false ↔ s ∈ active_statuses.
Proof.
  unfold status_not_in_active, active_statuses.
  rewrite negb_false_iff. apply bool_decide_eq_true.
Qed.

Lemma set_workflow_runs_twice m1 m2 d :
  set_workflow_runs m2 (set_workflow_runs m1 d) = set_workflow_runs m2 d.
Proof. done. Qed.

Lemma cancel_children_run children d tr :
  cancel_children children (mkWorld d tr)
  = (Ok tt,
     mkWorld
       (set_workflow_runs
          (mark_all (WorkflowRun.workflow_run_id <$> active_children children)
             (workflow_runs d)) d)
       (tr ++ (EvMarkWorkflowRunCanceled ∘ WorkflowRun.workflow_run_id
                 <$> active_children children))).
Proof.
  revert d tr. induction children as [|c children IH]; intros d tr.
  - unfold active_children. simpl. rewrite app_nil_r. by destruct d.
  - cbn [cancel_children]. unfold active_children. rewrite filter_cons.
    fold (active_children children).
    destruct (status_not_in_active (WorkflowRun.status c)) eqn:E.
    + rewrite decide_False.
      2:{ intros H%status_not_in_active_false. congruence. }
      run_handler. apply IH.
    + rewrite decide_True by by apply status_not_in_active_false.
      unfold WORKFLOW_SERVICE.mark_workflow_run_as_canceled. run_handler.
      rewrite IH. cbn [workflow_runs set_workflow_runs fmap list_fmap foldl mark_all].
      rewrite set_workflow_runs_twice. unfold mark_all. simpl.
      by rewrite <- app_assoc.
Qed.

Lemma set_status_canceled_idemp r :
  WorkflowRun.set_status WorkflowRunStatus.canceled
    (WorkflowRun.set_status WorkflowRunStatus.canceled r)
  = WorkflowRun.set_status WorkflowRunStatus.canceled r.
Proof. done. Qed.

Lemma lookup_mark_all ids m k :
  mark_all ids m !! k
  = if decide (k ∈ ids)
    then WorkflowRun.set_status WorkflowRunStatus.canceled <$> m !! k
    else m !! k.
Proof.
  revert m. induction ids as [|i ids IH]; intros m; [done|].
  unfold mark_all in *. cbn [foldl]. rewrite IH.
  destruct (decide (k = i)) as [->|Hne].
  - rewrite lookup_alter_eq, (decide_True _ _ (list_elem_of_here _ _)).
    case_decide; [|done].
    destruct (m !! i); simpl; [|done]. by rewrite set_status_canceled_idemp.
  - rewrite lookup_alter_ne by done.
    destruct (decide (k ∈ ids)) as [Hin|Hnin].
    + by rewrite decide_True by by right.
    + rewrite decide_False; [done|]. by intros [?|?]%elem_of_cons.
Qed.

Lemma elem_of_children d organization_id parent c :
  c ∈ DATABASE.get_workflow_runs_by_parent_workflow_run_id d organization_id parent ↔
  ∃ r, workflow_runs d !! WorkflowRun.workflow_run_id c = Some r
       ∧ c = WorkflowRun.of_row (WorkflowRun.workflow_run_id c) r
       ∧ WorkflowRun.row_organization_id r = organization_id
       ∧ WorkflowRun.row_parent_workflow_run_id r = Some parent.
Proof.
  unfold DATABASE.get_workflow_runs_by_parent_workflow_run_id.
  rewrite list_elem_of_fmap. split.
  - intros ([k r] & -> & [[Ho Hp] Hin%elem_of_map_to_list]%list_elem_of_filter).
    simpl in *. by exists r.
  - intros (r & Hr & Hc & Ho & Hp).
    exists (WorkflowRun.workflow_run_id c, r). split; [done|].
    apply list_elem_of_filter. split; [done|]. by apply elem_of_map_to_list.
Qed.

Lemma get_workflow_run_Some d workflow_run_id organization_id workflow_run :
  DATABASE.get_workflow_run d workflow_run_id organization_id = Some workflow_run ↔
  ∃ r, workflow_runs d !! workflow_run_id = Some r
       ∧ WorkflowRun.row_organization_id r = organization_id
       ∧ workflow_run = WorkflowRun.of_row workflow_run_id r.
Proof.
  unfold DATABASE.get_workflow_run.
  destruct (workflow_runs d !! workflow_run_id) as [r|]; simpl.
  - case_bool_decide; split.
    + intros [= <-]. by exists r.
    + by intros (? & [= <-] & _ & ->).
    + done.
    + intros (? & [= <-] & ? & _). done.
  - split; [done|]. by intros (? & ? & _).
Qed.

Lemma cancel_workflow_run_run workflow_run_id current_org x_api_key d tr workflow_run :
  DATABASE.get_workflow_run d workflow_run_id (Organization.organization_id current_org)
    = Some workflow_run →
  cancel_workflow_run workflow_run_id current_org x_api_key (mkWorld d tr)
  = (Ok tt,
     mkWorld
       (set_workflow_runs
          (alter (WorkflowRun.set_status WorkflowRunStatus.canceled) workflow_run_id
             (mark_all
                (WorkflowRun.workflow_run_id <$>
                   active_children
                     (DATABASE.get_workflow_runs_by_parent_workflow_run_id d
                        (Organization.organization_id current_org) workflow_run_id))
                (workflow_runs d))) d)
       (tr ++ (EvMarkWorkflowRunCanceled ∘ WorkflowRun.workflow_run_id <$>
                 active_children
                   (DATABASE.get_workflow_runs_by_parent_workflow_run_id d
                      (Organization.organization_id current_org) workflow_run_id))
           ++ [EvMarkWorkflowRunCanceled workflow_run_id;
               EvWorkflowWebhook workflow_run_id x_api_key])).
Proof.
  intros Hget. unfold cancel_workflow_run. run_handler. rewrite Hget. run_handler.
  rewrite cancel_children_run.
  unfold WORKFLOW_SERVICE.mark_workflow_run_as_canceled,
    WORKFLOW_SERVICE.execute_workflow_webhook.
  run_handler.
  apply get_workflow_run_Some in Hget as (r & _ & _ & ->).
  cbn [WorkflowRun.of_row WorkflowRun.workflow_run_id workflow_runs set_workflow_runs].
  by rewrite <- !app_assoc.
Qed.

(** C1. Cancelling an existing workflow run marks as canceled exactly the
    direct children whose status is running, created or queued; leaves the
    direct children with any other status (in particular the terminal ones)
    as they are; marks the run itself canceled whatever its status was; and
    fires one webhook for the run, after every status write. (A run that the
    store records as its own parent is the run itself and is canceled by the
    unconditional write.) *)
Theorem cancel_workflow_run_cascade (workflow_run_id : string)
    (current_org : Organization.t) (x_api_key : option string) (w : World)
    (workflow_run : WorkflowRun.t) :
  let organization_id := Organization.organization_id current_org in
  DATABASE.get_workflow_run (db w) workflow_run_id organization_id = Some workflow_run →
  let children :=
    DATABASE.get_workflow_runs_by_parent_workflow_run_id (db w) organization_id
      workflow_run_id in
  ∃ w' new_events,
    cancel_workflow_run workflow_run_id current_org x_api_key w = (Ok tt, w')
    ∧ (∀ c, c ∈ children → WorkflowRun.status c ∈ active_statuses →
         DATABASE.get_workflow_run (db w') (WorkflowRun.workflow_run_id c) organization_id
         = Some (with_status_canceled c))
    ∧ (∀ c, c ∈ children → WorkflowRun.status c ∉ active_statuses →
         WorkflowRun.workflow_run_id c ≠ workflow_run_id →
         DATABASE.get_workflow_run (db w') (WorkflowRun.workflow_run_id c) organization_id
         = Some c)
    ∧ DATABASE.get_workflow_run (db w') workflow_run_id organization_id
      = Some (with_status_canceled workflow_run)
    ∧ (∀ k, k ≠ workflow_run_id →
         k ∉ WorkflowRun.workflow_run_id <$> active_children children →
         workflow_runs (db w') !! k = workflow_runs (db w) !! k)
    ∧ trace w' = trace w ++ new_events
    ∧ new_events
      = (EvMarkWorkflowRunCanceled ∘ WorkflowRun.workflow_run_id
           <$> active_children children)
        ++ [EvMarkWorkflowRunCanceled workflow_run_id;
            EvWorkflowWebhook workflow_run_id x_api_key]
    ∧ List.filter is_workflow_webhook new_events
      = [EvWorkflowWebhook workflow_run_id x_api_key]
    ∧ (∃ writes, new_events = writes ++ [EvWorkflowWebhook workflow_run_id x_api_key]
         ∧ Forall (λ ev, is_status_write ev = true) writes).
Proof.
  intros organization_id Hget children. destruct w as [d tr]. cbn [db trace] in *.
  set (ids := WorkflowRun.workflow_run_id <$> active_children children).
  assert (∀ k, k ∈ ids ↔ ∃ r, workflow_runs d !! k = Some r
            ∧ WorkflowRun.row_organization_id r = organization_id
            ∧ WorkflowRun.row_parent_workflow_run_id r = Some workflow_run_id
            ∧ WorkflowRun.row_status r ∈ active_statuses) as Hids.
  { intros k. unfold ids, active_children. rewrite list_elem_of_fmap. split.
    - intros (c & -> & [Hact Hc]%list_elem_of_filter).
      apply elem_of_children in Hc as (r & Hr & Hc & Ho & Hp).
      exists r. rewrite Hc in Hact. by simpl in Hact.
    - intros (r & Hr & Ho & Hp & Hact).
      exists (WorkflowRun.of_row k r). split; [done|].
      apply list_elem_of_filter. split; [done|].
      apply elem_of_children. by exists r. }
  eexists _, _. split; [by eapply cancel_workflow_run_run|].
  cbn [db trace].
  assert (∀ k r, workflow_runs d !! k = Some r →
            WorkflowRun.row_organization_id r = organization_id →
            k = workflow_run_id ∨ k ∈ ids →
            DATABASE.get_workflow_run
              (set_workflow_runs
                 (alter (WorkflowRun.set_status WorkflowRunStatus.canceled)
                    workflow_run_id (mark_all ids (workflow_runs d))) d)
              k organization_id
            = Some (with_status_canceled (WorkflowRun.of_row k r))) as Hcanceled.
  { intros k r Hr Ho Hk. apply get_workflow_run_Some.
    exists (WorkflowRun.set_status WorkflowRunStatus.canceled r).
    split; [|done]. cbn [workflow_runs set_workflow_runs].
    destruct (decide (k = workflow_run_id)) as [->|Hne].
    - rewrite lookup_alter_eq, lookup_mark_all, Hr.
      by case_decide.
    - rewrite lookup_alter_ne, lookup_mark_all, Hr by done.
      destruct Hk as [?|Hk]; [done|]. by rewrite decide_True. }
  assert (∀ k, k ≠ workflow_run_id → k ∉ ids →
            alter (WorkflowRun.set_status WorkflowRunStatus.canceled)
              workflow_run_id (mark_all ids (workflow_runs d)) !! k
            = workflow_runs d !! k) as Hframe.
  { intros k Hne Hnin.
    by rewrite lookup_alter_ne, lookup_mark_all, decide_False by done. }
  split; [|split; [|split; [|split; [|split; [|split; [|split]]]]]].
  - intros c Hc Hact.
    apply elem_of_children in Hc as (r & Hr & Hc & Ho & Hp).
    rewrite Hc at 2. apply Hcanceled; [done..|].
    right. apply Hids. exists r. rewrite Hc in Hact. by simpl in Hact.
  - intros c Hc Hact Hne.
    apply elem_of_children in Hc as (r & Hr & Hc & Ho & Hp).
    apply get_workflow_run_Some. exists r. split; [|done].
    cbn [workflow_runs set_workflow_runs]. rewrite Hframe; [done..|].
    intros (r' & Hr' & _ & _ & Hact')%Hids.
    rewrite Hr in Hr'. injection Hr' as <-.
    apply Hact. rewrite Hc. by simpl.
  - apply get_workflow_run_Some in Hget as (r & Hr & Ho & ->).
    apply Hcanceled; [done..|]. by left.
  - intros k Hne Hnin. cbn [workflow_runs set_workflow_runs]. by apply Hframe.
  - reflexivity.
  - reflexivity.
  - rewrite List.filter_app. simpl.
    assert (∀ l : list WorkflowRun.t,
              List.filter is_workflow_webhook
                (EvMarkWorkflowRunCanceled ∘ WorkflowRun.workflow_run_id <$> l) = [])
      as -> by (intros l; by induction l). done.
  - exists ((EvMarkWorkflowRunCanceled ∘ WorkflowRun.workflow_run_id
               <$> active_children children)
            ++ [EvMarkWorkflowRunCanceled workflow_run_id]).
    split; [by rewrite <- app_assoc|].
    apply Forall_app. split; [|by repeat constructor].
    by apply Forall_fmap, Forall_forall.
Qed.

(** ** Dispatch *)

Ltac run_dispatch :=
  unfold PermissionChecker.check, task_v1_service.generate_task,
    task_v1_service.run_task, task_v2_service.initialize_task_v2,
    AsyncExecutor.execute_task_v2, try_except_LLMProviderError;
  run_handler.

(** C4, as the code has it. A dispatch request whose engine is neither v1
    nor v2 always fails and creates nothing: the record store is unchanged
    and no v1 task is created, no v2 run is initialized and no execution is
    started. The permission check precedes the engine branch: when it
    passes, the failure is the 400 "Invalid agent engine" error; when it
    raises, the failure is the exception of the permission check. *)
Theorem run_task_rejects_unknown_engine (collab : Collaborators)
    (run_request : TaskRunRequest.t) (current_org : Organization.t)
    (x_api_key : option string) (w : World) :
  TaskRunRequest.engine run_request ≠ RunEngine.skyvern_v1 →
  TaskRunRequest.engine run_request ≠ RunEngine.skyvern_v2 →
  ∃ e w',
    run_task collab run_request current_org x_api_key w = (Raise e, w')
    ∧ db w' = db w
    ∧ trace w' = trace w ++
        [EvAnalytics "skyvern-oss-run-task";
         EvPermissionCheck (Organization.organization_id current_org)
           (TaskRunRequest.browser_session_id run_request)]
    ∧ e = match permission_checker collab current_org
                  (TaskRunRequest.browser_session_id run_request) with
          | Ok _ =>
            HTTPException 400
              ("Invalid agent engine: "
                 +:+ RunEngine_str (TaskRunRequest.engine run_request))
          | Raise refused => refused
          end.
Proof.
  intros Hv1 Hv2. destruct w as [d tr].
  unfold run_task. run_dispatch.
  destruct (permission_checker collab current_org _) as [[]|e] eqn:Hperm.
  - rewrite !bool_decide_eq_false_2 by done.
    eexists _, _. split; [reflexivity|]. cbn [db trace].
    rewrite <- !app_assoc. by repeat split.
  - eexists _, _. split; [reflexivity|]. cbn [db trace].
    rewrite <- !app_assoc. by repeat split.
Qed.

(** C5. When the reasoning provider fails while a v2 run is initialized, the
    unified endpoint and the v2 endpoint both fail with the 500 "try again
    later" error; the record store holds no new run and no execution start
    has been handed over. *)
Theorem llm_failure_is_try_again_later (collab : Collaborators)
    (current_org : Organization.t) (w : World) :
  (∀ run_request x_api_key,
     TaskRunRequest.engine run_request = RunEngine.skyvern_v2 →
     permission_checker collab current_org
       (TaskRunRequest.browser_session_id run_request) = Ok tt →
     create_task_v2 collab (run_task_initialize_args run_request current_org)
       = Raise LLMProviderError →
     ∃ w',
       run_task collab run_request current_org x_api_key w
       = (Raise (HTTPException 500
                   "Skyvern LLM failure to initialize task v2. Please try again later."),
          w')
       ∧ db w' = db w
       ∧ List.filter is_run_start (drop (length (trace w)) (trace w'))
         = [EvInitializeTaskV2 (run_task_initialize_args run_request current_org)])
  ∧ (∀ data x_max_iterations_override x_max_steps_override,
       permission_checker collab current_org (TaskV2Request.browser_session_id data)
         = Ok tt →
       create_task_v2 collab (run_task_v2_initialize_args data current_org)
         = Raise LLMProviderError →
       ∃ w',
         run_task_v2 collab data current_org x_max_iterations_override
           x_max_steps_override w
         = (Raise (HTTPException 500
                     "Skyvern LLM failure to initialize task v2. Please try again later."),
            w')
         ∧ db w' = db w
         ∧ List.filter is_run_start (drop (length (trace w)) (trace w'))
           = [EvInitializeTaskV2 (run_task_v2_initialize_args data current_org)]).
Proof.
  destruct w as [d tr]. split.
  - intros run_request x_api_key Heng Hperm Hllm.
    unfold run_task. run_dispatch. rewrite Hperm, Heng. cbn [bool_decide decide_rel].
    run_dispatch. rewrite Hllm.
    eexists. split; [reflexivity|]. cbn [db trace]. split; [done|].
    rewrite <- !app_assoc, drop_app_length. reflexivity.
  - intros data it st Hperm Hllm.
    unfold run_task_v2. run_dispatch.
    destruct (truthy (py_or it st)); run_dispatch; rewrite Hperm, Hllm;
      (eexists; split; [reflexivity|]; cbn [db trace]; split; [done|];
       rewrite <- !app_assoc, drop_app_length; reflexivity).
Qed.

Lemma truthy_py_or {A} `{Truthy A} (a b : A) :
  truthy (py_or a b) = truthy a || truthy b.
Proof. unfold py_or. by destruct (truthy a) eqn:E; [rewrite E|]. Qed.

(** C6, as the code has it. On the v2 path the override handed to the
    executor is [x_max_steps_override or x_max_iterations_override]: the
    max-steps header when it is supplied with a value that is not zero and
    not empty, otherwise the max-iterations header (whatever it holds); when
    only one header is supplied and it is not zero, that one is used; one
    log record is written exactly when at least one of the two is not zero
    and not empty. *)
Theorem run_task_v2_override (collab : Collaborators) (data : TaskV2Request.t)
    (organization : Organization.t)
    (x_max_iterations_override x_max_steps_override : option IntOrStr)
    (w : World) (task_v2 : TaskV2.t) :
  permission_checker collab organization (TaskV2Request.browser_session_id data)
    = Ok tt →
  create_task_v2 collab (run_task_v2_initialize_args data organization) = Ok task_v2 →
  ∃ w' used,
    run_task_v2 collab data organization x_max_iterations_override
      x_max_steps_override w = (Ok task_v2, w')
    ∧ execute_overrides (drop (length (trace w)) (trace w')) = [used]
    ∧ used = (if truthy x_max_steps_override then x_max_steps_override
              else x_max_iterations_override)
    ∧ (truthy x_max_steps_override = true → used = x_max_steps_override)
    ∧ (x_max_steps_override = None → used = x_max_iterations_override)
    ∧ (x_max_iterations_override = None → truthy x_max_steps_override = true →
       used = x_max_steps_override)
    ∧ override_logs (drop (length (trace w)) (trace w'))
      = (if truthy x_max_iterations_override || truthy x_max_steps_override
         then [override_log x_max_iterations_override x_max_steps_override]
         else []).
Proof.
  intros Hperm Hinit. destruct w as [d tr].
  unfold run_task_v2. run_dispatch. rewrite truthy_py_or.
  destruct (truthy x_max_iterations_override || truthy x_max_steps_override);
    run_dispatch; rewrite Hperm, Hinit; run_dispatch;
    (eexists _, _; split; [reflexivity|]; cbn [db trace];
     rewrite <- !app_assoc, drop_app_length;
     split; [reflexivity|]; unfold py_or;
     repeat split; try done;
     [by intros -> | by intros ->; simpl | by intros _ ->]).
Qed.


(** ** Concrete runs *)

(** C4 as stated fails: a request with an unknown engine that the
    permission check refuses; the failure is the refusal, not the
    invalid-engine error. *)
Lemma run_task_unknown_engine_refused_counterexample :
  (run_task DispatchExample.refusing
     (DispatchExample.request (RunEngine.other "skyvern-3.0") None None)
     DispatchExample.org None DispatchExample.world).1
  = Raise (HTTPException 403 "Forbidden")
  ∧ TaskRunRequest.engine
      (DispatchExample.request (RunEngine.other "skyvern-3.0") None None)
    = RunEngine.other "skyvern-3.0"
  ∧ HTTPException 403 "Forbidden"
    ≠ HTTPException 400 "Invalid agent engine: skyvern-3.0".
Proof. split; [vm_compute; reflexivity|]. split; [reflexivity|discriminate]. Qed.

(** C6 as stated fails: both headers supplied, the max-steps one holding 0;
    the executor is handed the max-iterations value 5, not the max-steps
    value. *)
Lemma run_task_v2_zero_steps_counterexample :
  execute_overrides
    (trace (run_task_v2 DispatchExample.healthy DispatchExample.data
              DispatchExample.org (Some (HInt 5)) (Some (HInt 0))
              DispatchExample.world).2)
  = [Some (HInt 5)]
  ∧ Some (HInt 5) ≠ Some (HInt 0).
Proof. split; [vm_compute; reflexivity|discriminate]. Qed.


(** A generated task without URL: the constructor refuses it, and no run is
    created. *)
Example generated_without_url_creates_no_run :
  let run :=
    run_task DispatchExample.no_url_generated
      (DispatchExample.request RunEngine.skyvern_v1 None None)
      DispatchExample.org None DispatchExample.world in
  run.1 = Raise (OtherException "ValidationError")
  ∧ List.filter is_run_start (trace run.2) = [EvGenerateTask "find the price"]
  ∧ db run.2 = db DispatchExample.world.
Proof. cbv zeta. split; [|split]; vm_compute; reflexivity. Qed.

(** *** The cascade example *)

Example cascade :
  let r := cancel_workflow_run "wr_p" CascadeExample.org (Some "key")
             CascadeExample.world in
  r.1 = Ok tt
  ∧ CascadeExample.statuses r.2 ["wr_p"; "c1"; "c2"; "c3"; "c4"]
    = [Some WorkflowRunStatus.canceled; Some WorkflowRunStatus.canceled;
       Some WorkflowRunStatus.canceled; Some WorkflowRunStatus.completed;
       Some WorkflowRunStatus.canceled]
  ∧ List.filter is_workflow_webhook (trace r.2)
    = [EvWorkflowWebhook "wr_p" (Some "key")]
  ∧ last (trace r.2) = Some (EvWorkflowWebhook "wr_p" (Some "key"))
  ∧ length (List.filter is_status_write (trace r.2)) = 3%nat.
Proof. vm_compute. repeat split. Qed.

Example cancel_unknown_run :
  cancel_workflow_run "wr_x" CascadeExample.org None CascadeExample.world
  = (Raise (HTTPException 404 "Workflow run not found wr_x"), CascadeExample.world).
Proof. vm_compute. reflexivity. Qed.

Example cancel_known_task :
  cancel_task "tsk_1" CascadeExample.org (Some "key") CascadeExample.world
  = (Ok tt,
     mkWorld
       (set_tasks (<["tsk_1" := Task.mkrow "o_1" TaskStatus.canceled None]> ∅)
          CascadeExample.store)
       [EvAnalytics "skyvern-oss-agent-task-get";
        EvUpdateTask "tsk_1" TaskStatus.canceled;
        EvTaskWebhook "tsk_1" (Some (Step.mk "stp_2" "tsk_1" "o_1")) (Some "key")]).
Proof. vm_compute. reflexivity. Qed.

Example cancel_task_of_other_organization :
  cancel_task "tsk_1" (Organization.mk "o_2") None CascadeExample.world
  = (Raise (HTTPException 404 "Task not found tsk_1"),
     mkWorld CascadeExample.store [EvAnalytics "skyvern-oss-agent-task-get"]).
Proof. vm_compute. reflexivity. Qed.

Lemma cancel_workflow_run_cascade_witness :
  DATABASE.get_workflow_run (db CascadeExample.world) "wr_p" "o_1"
    = Some (WorkflowRun.mk "wr_p" "wf_1" "o_1" WorkflowRunStatus.running None)
  ∧ ∃ w' new_events,
      cancel_workflow_run "wr_p" CascadeExample.org (Some "key") CascadeExample.world
        = (Ok tt, w')
      ∧ DATABASE.get_workflow_run (db w') "wr_p" "o_1"
        = Some (WorkflowRun.mk "wr_p" "wf_1" "o_1" WorkflowRunStatus.canceled None)
      ∧ trace w' = trace CascadeExample.world ++ new_events
      ∧ List.filter is_workflow_webhook new_events
        = [EvWorkflowWebhook "wr_p" (Some "key")].
Proof.
  assert (DATABASE.get_workflow_run (db CascadeExample.world) "wr_p" "o_1"
    = Some (WorkflowRun.mk "wr_p" "wf_1" "o_1" WorkflowRunStatus.running None)) as H
    by (vm_compute; reflexivity).
  split; [exact H|].
  destruct (cancel_workflow_run_cascade "wr_p" CascadeExample.org (Some "key")
              CascadeExample.world _ H)
    as (w' & evs & Hrun & _ & _ & Htarget & _ & Htrace & _ & Hhook & _).
  exists w', evs. repeat split; assumption.
Defined.

Lemma run_task_rejects_unknown_engine_witness :
  ∃ e w',
    run_task DispatchExample.healthy
      (DispatchExample.request (RunEngine.other "skyvern-3.0") None None)
      DispatchExample.org None DispatchExample.world = (Raise e, w')
    ∧ db w' = db DispatchExample.world
    ∧ e = HTTPException 400 "Invalid agent engine: skyvern-3.0".
Proof.
  destruct (run_task_rejects_unknown_engine DispatchExample.healthy
              (DispatchExample.request (RunEngine.other "skyvern-3.0") None None)
              DispatchExample.org None DispatchExample.world)
    as (e & w' & Hrun & Hdb & _ & He).
  - discriminate.
  - discriminate.
  - exists e, w'. repeat split; [exact Hrun|exact Hdb|exact He].
Defined.

Lemma llm_failure_is_try_again_later_witness :
  (∃ w',
     run_task DispatchExample.llm_down
       (DispatchExample.request RunEngine.skyvern_v2 None None)
       DispatchExample.org None DispatchExample.world
     = (Raise (HTTPException 500
                 "Skyvern LLM failure to initialize task v2. Please try again later."),
        w')
     ∧ db w' = db DispatchExample.world)
  ∧ (∃ w',
       run_task_v2 DispatchExample.llm_down DispatchExample.data
         DispatchExample.org None (Some (HInt 7)) DispatchExample.world
       = (Raise (HTTPException 500
                   "Skyvern LLM failure to initialize task v2. Please try again later."),
          w')
       ∧ db w' = db DispatchExample.world).
Proof.
  destruct (llm_failure_is_try_again_later DispatchExample.llm_down
              DispatchExample.org DispatchExample.world) as [H1 H2].
  split.
  - destruct (H1 (DispatchExample.request RunEngine.skyvern_v2 None None) None
                eq_refl eq_refl eq_refl) as (w' & Hrun & Hdb & _).
    exists w'. split; [exact Hrun|exact Hdb].
  - destruct (H2 DispatchExample.data None (Some (HInt 7)) eq_refl eq_refl)
      as (w' & Hrun & Hdb & _).
    exists w'. split; [exact Hrun|exact Hdb].
Defined.

Lemma run_task_v2_override_witness :
  ∃ w',
    run_task_v2 DispatchExample.healthy DispatchExample.data DispatchExample.org
      (Some (HInt 5)) (Some (HInt 9)) DispatchExample.world
    = (Ok DispatchExample.created_v2, w')
    ∧ execute_overrides (trace w') = [Some (HInt 9)]
    ∧ override_logs (trace w')
      = [override_log (Some (HInt 5)) (Some (HInt 9))].
Proof.
  destruct (run_task_v2_override DispatchExample.healthy DispatchExample.data
              DispatchExample.org (Some (HInt 5)) (Some (HInt 9))
              DispatchExample.world DispatchExample.created_v2 eq_refl eq_refl)
    as (w' & used & Hrun & Hexec & Hused & _ & _ & _ & Hlog).
  exists w'. split; [exact Hrun|]. subst used. split; [exact Hexec|exact Hlog].
Defined.


(** * Further properties *)

(** ** Cancellation: the error path and repeated requests *)

(** X1. Cancelling a workflow run that does not exist for the caller's
    organization (no such id, or a run of another organization) fails with
    404 and changes nothing: no row is written, no webhook is fired and no
    event is recorded, also when other runs name the id as their parent. *)
Theorem cancel_workflow_run_not_found (workflow_run_id : string)
    (current_org : Organization.t) (x_api_key : option string) (w : World) :
  (∀ r, workflow_runs (db w) !! workflow_run_id = Some r →
        WorkflowRun.row_organization_id r ≠ Organization.organization_id current_org) →
  cancel_workflow_run workflow_run_id current_org x_api_key w
  = (Raise (HTTPException 404 ("Workflow run not found " +:+ workflow_run_id)), w).
Proof.
  intros Hnone. unfold cancel_workflow_run. run_handler.
  unfold DATABASE.get_workflow_run.
  destruct (workflow_runs (db w) !! workflow_run_id) as [r|] eqn:Hr; simpl.
  - rewrite bool_decide_eq_false_2 by by apply Hnone. by destruct w.
  - by destruct w.
Qed.

Lemma cancel_workflow_run_not_found_witness :
  cancel_workflow_run "c1" (Organization.mk "o_2") (Some "key") CascadeExample.world
  = (Raise (HTTPException 404 "Workflow run not found c1"), CascadeExample.world).
Proof.
  apply (cancel_workflow_run_not_found "c1" (Organization.mk "o_2") (Some "key")
           CascadeExample.world).
  intros r Hr. vm_compute in Hr. injection Hr as <-. discriminate.
Defined.

Lemma elem_of_active_ids d organization_id workflow_run_id k :
  k ∈ WorkflowRun.workflow_run_id <$>
        active_children
          (DATABASE.get_workflow_runs_by_parent_workflow_run_id d organization_id
             workflow_run_id) ↔
  ∃ r, workflow_runs d !! k = Some r
       ∧ WorkflowRun.row_organization_id r = organization_id
       ∧ WorkflowRun.row_parent_workflow_run_id r = Some workflow_run_id
       ∧ WorkflowRun.row_status r ∈ active_statuses.
Proof.
  unfold active_children. rewrite list_elem_of_fmap. split.
  - intros (c & -> & [Hact Hc]%list_elem_of_filter).
    apply elem_of_children in Hc as (r & Hr & Hc & Ho & Hp).
    exists r. rewrite Hc in Hact. by simpl in Hact.
  - intros (r & Hr & Ho & Hp & Hact).
    exists (WorkflowRun.of_row k r). split; [done|].
    apply list_elem_of_filter. split; [done|].
    apply elem_of_children. by exists r.
Qed.

Lemma canceled_not_active :
  WorkflowRunStatus.canceled ∉ active_statuses.
Proof.
  unfold active_statuses. rewrite !elem_of_cons, elem_of_nil.
  intros [|[|[|[]]]]; discriminate.
Qed.

Lemma lookup_after_cancel d organization_id workflow_run_id k :
  alter (WorkflowRun.set_status WorkflowRunStatus.canceled) workflow_run_id
    (mark_all
       (WorkflowRun.workflow_run_id <$>
          active_children
            (DATABASE.get_workflow_runs_by_parent_workflow_run_id d organization_id
               workflow_run_id))
       (workflow_runs d)) !! k
  = (λ r, if bool_decide
             (k = workflow_run_id
              ∨ (WorkflowRun.row_organization_id r = organization_id
                 ∧ WorkflowRun.row_parent_workflow_run_id r = Some workflow_run_id
                 ∧ WorkflowRun.row_status r ∈ active_statuses))
          then WorkflowRun.set_status WorkflowRunStatus.canceled r else r)
    <$> workflow_runs d !! k.
Proof.
  pose proof (elem_of_active_ids d organization_id workflow_run_id k) as Hids.
  destruct (decide (k = workflow_run_id)) as [->|Hne].
  - rewrite lookup_alter_eq, lookup_mark_all.
    destruct (workflow_runs d !! workflow_run_id) as [r|] eqn:Hr;
      [|by case_decide].
    cbn [fmap option_fmap option_map].
    rewrite bool_decide_eq_true_2 by by left.
    case_decide; simpl; [by rewrite set_status_canceled_idemp|done].
  - rewrite lookup_alter_ne, lookup_mark_all by done.
    destruct (workflow_runs d !! k) as [r|] eqn:Hr; [|by case_decide].
    cbn [fmap option_fmap option_map]. case_decide as Hin.
    + apply Hids in Hin as (r' & [= <-] & ? & ? & ?).
      simpl. by rewrite bool_decide_eq_true_2 by by right.
    + rewrite bool_decide_eq_false_2; [done|].
      intros [?|(? & ? & ?)]; [done|]. apply Hin, Hids. by exists r.
Qed.

(** X2. Cancelling the same workflow run a second time changes no row: the
    record store after the second request is the store after the first. The
    second request still writes the run's status once more and fires its
    webhook once more, and it writes to no child. *)
Theorem cancel_workflow_run_twice (workflow_run_id : string)
    (current_org : Organization.t) (x_api_key : option string) (w : World)
    (workflow_run : WorkflowRun.t) :
  DATABASE.get_workflow_run (db w) workflow_run_id
    (Organization.organization_id current_org) = Some workflow_run →
  ∃ w1 w2,
    cancel_workflow_run workflow_run_id current_org x_api_key w = (Ok tt, w1)
    ∧ cancel_workflow_run workflow_run_id current_org x_api_key w1 = (Ok tt, w2)
    ∧ db w2 = db w1
    ∧ trace w2 = trace w1 ++
        [EvMarkWorkflowRunCanceled workflow_run_id;
         EvWorkflowWebhook workflow_run_id x_api_key].
Proof.
  intros Hget. destruct w as [d tr]. cbn [db] in Hget.
  set (org := Organization.organization_id current_org) in *.
  set (m1 := alter (WorkflowRun.set_status WorkflowRunStatus.canceled) workflow_run_id
               (mark_all
                  (WorkflowRun.workflow_run_id <$>
                     active_children
                       (DATABASE.get_workflow_runs_by_parent_workflow_run_id d org
                          workflow_run_id))
                  (workflow_runs d))).
  assert (∀ k, m1 !! k
    = (λ r, if bool_decide
               (k = workflow_run_id
                ∨ (WorkflowRun.row_organization_id r = org
                   ∧ WorkflowRun.row_parent_workflow_run_id r = Some workflow_run_id
                   ∧ WorkflowRun.row_status r ∈ active_statuses))
            then WorkflowRun.set_status WorkflowRunStatus.canceled r else r)
      <$> workflow_runs d !! k) as Hm1 by (intros k; apply lookup_after_cancel).
  pose proof Hget as (r0 & Hr0 & Ho0 & ->)%get_workflow_run_Some.
  assert (DATABASE.get_workflow_run (set_workflow_runs m1 d) workflow_run_id org
          = Some (with_status_canceled (WorkflowRun.of_row workflow_run_id r0))) as Hget1.
  { apply get_workflow_run_Some.
    exists (WorkflowRun.set_status WorkflowRunStatus.canceled r0).
    split; [|done]. cbn [workflow_runs set_workflow_runs].
    rewrite Hm1, Hr0. simpl. by rewrite bool_decide_eq_true_2 by by left. }
  assert (active_children
            (DATABASE.get_workflow_runs_by_parent_workflow_run_id
               (set_workflow_runs m1 d) org workflow_run_id) = []) as Hnone.
  { apply elem_of_nil_inv. intros c [Hact Hc]%list_elem_of_filter.
    apply elem_of_children in Hc as (r & Hr & Hc & Ho & Hp).
    rewrite Hc in Hact. simpl in Hact.
    cbn [workflow_runs set_workflow_runs] in Hr. rewrite Hm1 in Hr.
    destruct (workflow_runs d !! WorkflowRun.workflow_run_id c) as [r'|]; [|done].
    simpl in Hr. injection Hr as <-.
    case_bool_decide as Hcase; simpl in *.
    - by apply canceled_not_active in Hact.
    - apply Hcase. by right. }
  eexists _, _. split; [by eapply cancel_workflow_run_run|].
  split; [by eapply cancel_workflow_run_run|].
  fold org m1. rewrite Hnone. cbn [db trace fmap list_fmap mark_all foldl app].
  split; [|done].
  rewrite set_workflow_runs_twice. cbn [workflow_runs set_workflow_runs]. f_equal.
  apply map_eq. intros k.
  destruct (decide (k = workflow_run_id)) as [->|Hne].
  - rewrite lookup_alter_eq, Hm1, Hr0. simpl.
    by rewrite bool_decide_eq_true_2 by by left.
  - by rewrite lookup_alter_ne.
Qed.

Lemma cancel_workflow_run_twice_witness :
  ∃ w1 w2,
    cancel_workflow_run "wr_p" CascadeExample.org (Some "key") CascadeExample.world
      = (Ok tt, w1)
    ∧ cancel_workflow_run "wr_p" CascadeExample.org (Some "key") w1 = (Ok tt, w2)
    ∧ db w2 = db w1.
Proof.
  assert (DATABASE.get_workflow_run (db CascadeExample.world) "wr_p" "o_1"
    = Some (WorkflowRun.mk "wr_p" "wf_1" "o_1" WorkflowRunStatus.running None)) as H
    by (vm_compute; reflexivity).
  destruct (cancel_workflow_run_twice "wr_p" CascadeExample.org (Some "key")
              CascadeExample.world _ H) as (w1 & w2 & H1 & H2 & Hdb & _).
  exists w1, w2. repeat split; assumption.
Defined.

(** ** Dispatch: refusals and failures *)

(** X3. When the permission checker raises, each of the three dispatch
    handlers ([run_task_v1], [run_task], [run_task_v2]) hands that exception
    on unchanged and creates nothing: the record store is unchanged and no
    task generation, task creation, initialization or execution start is
    requested. [run_task_v2] has by then already written its override log
    record, when an override was sent. *)
Theorem permission_denied_creates_nothing (collab : Collaborators)
    (current_org : Organization.t) (x_api_key : option string) (w : World)
    (e : Exception) :
  (∀ task x_max_steps_override,
     permission_checker collab current_org (TaskRequest.browser_session_id task)
       = Raise e →
     ∃ w', run_task_v1 collab task current_org x_api_key x_max_steps_override w
           = (Raise e, w')
       ∧ db w' = db w
       ∧ List.filter is_run_start (drop (length (trace w)) (trace w')) = [])
  ∧ (∀ run_request,
       permission_checker collab current_org
         (TaskRunRequest.browser_session_id run_request) = Raise e →
       ∃ w', run_task collab run_request current_org x_api_key w = (Raise e, w')
         ∧ db w' = db w
         ∧ List.filter is_run_start (drop (length (trace w)) (trace w')) = [])
  ∧ (∀ data x_max_iterations_override x_max_steps_override,
       permission_checker collab current_org (TaskV2Request.browser_session_id data)
         = Raise e →
       ∃ w', run_task_v2 collab data current_org x_max_iterations_override
               x_max_steps_override w = (Raise e, w')
         ∧ db w' = db w
         ∧ List.filter is_run_start (drop (length (trace w)) (trace w')) = []
         ∧ override_logs (drop (length (trace w)) (trace w'))
           = (if truthy x_max_iterations_override || truthy x_max_steps_override
              then [override_log x_max_iterations_override x_max_steps_override]
              else [])).
Proof.
  destruct w as [d tr]. split; [|split].
  - intros task ov Hperm. unfold run_task_v1. run_dispatch. rewrite Hperm.
    eexists. split; [reflexivity|]. cbn [db trace]. split; [done|].
    by rewrite <- !app_assoc, drop_app_length.
  - intros run_request Hperm. unfold run_task. run_dispatch. rewrite Hperm.
    eexists. split; [reflexivity|]. cbn [db trace]. split; [done|].
    by rewrite <- !app_assoc, drop_app_length.
  - intros data it st Hperm. unfold run_task_v2. run_dispatch.
    rewrite truthy_py_or.
    destruct (truthy it || truthy st); run_dispatch; rewrite Hperm;
      (eexists; split; [reflexivity|]; cbn [db trace]; split; [done|];
       rewrite <- ?app_assoc, drop_app_length; by split).
Qed.

(** X4. Only [LLMProviderError] is turned into the 500 answer: any other
    exception raised while a v2 run is initialized leaves [run_task] and
    [run_task_v2] as it is, the record store is unchanged and no execution
    start is handed over. Nothing is logged for it: the events recorded are
    the analytics event ([run_task]) or the override record when an
    override was sent ([run_task_v2]), the permission check and the
    initialization, and no more. *)
Theorem other_initialize_failures_propagate (collab : Collaborators)
    (current_org : Organization.t) (w : World) (e : Exception) :
  e ≠ LLMProviderError →
  (∀ run_request x_api_key,
     TaskRunRequest.engine run_request = RunEngine.skyvern_v2 →
     permission_checker collab current_org
       (TaskRunRequest.browser_session_id run_request) = Ok tt →
     create_task_v2 collab (run_task_initialize_args run_request current_org)
       = Raise e →
     ∃ w', run_task collab run_request current_org x_api_key w = (Raise e, w')
       ∧ db w' = db w
       ∧ List.filter is_run_start (drop (length (trace w)) (trace w'))
         = [EvInitializeTaskV2 (run_task_initialize_args run_request current_org)]
       ∧ override_logs (drop (length (trace w)) (trace w')) = []
       ∧ trace w' = trace w ++
           [EvAnalytics "skyvern-oss-run-task";
            EvPermissionCheck (Organization.organization_id current_org)
              (TaskRunRequest.browser_session_id run_request);
            EvInitializeTaskV2 (run_task_initialize_args run_request current_org)])
  ∧ (∀ data x_max_iterations_override x_max_steps_override,
       permission_checker collab current_org (TaskV2Request.browser_session_id data)
         = Ok tt →
       create_task_v2 collab (run_task_v2_initialize_args data current_org)
         = Raise e →
       ∃ w', run_task_v2 collab data current_org x_max_iterations_override
               x_max_steps_override w = (Raise e, w')
         ∧ db w' = db w
         ∧ List.filter is_run_start (drop (length (trace w)) (trace w'))
           = [EvInitializeTaskV2 (run_task_v2_initialize_args data current_org)]
         ∧ trace w' = trace w ++
             (if truthy x_max_iterations_override || truthy x_max_steps_override
              then [EvLog (mkLog INFO "Overriding max steps for task v2"
                             [("max_iterations_override",
                               log_header x_max_iterations_override);
                              ("max_steps_override",
                               log_header x_max_steps_override)])]
              else []) ++
             [EvPermissionCheck (Organization.organization_id current_org)
                (TaskV2Request.browser_session_id data);
              EvInitializeTaskV2 (run_task_v2_initialize_args data current_org)]).
Proof.
  intros Hne. destruct w as [d tr]. split.
  - intros run_request x_api_key Heng Hperm Hinit.
    unfold run_task. run_dispatch. rewrite Hperm, Heng.
    rewrite (bool_decide_eq_false_2 (RunEngine.skyvern_v2 = RunEngine.skyvern_v1))
      by done.
    rewrite (bool_decide_eq_true_2 (RunEngine.skyvern_v2 = RunEngine.skyvern_v2))
      by done.
    run_dispatch. rewrite Hinit.
    destruct e; [|done|];
      (eexists; split; [reflexivity|]; cbn [db trace]; split; [done|];
       rewrite <- !app_assoc, drop_app_length; done).
  - intros data it st Hperm Hinit.
    unfold run_task_v2. run_dispatch. rewrite truthy_py_or.
    destruct (truthy it || truthy st); run_dispatch; rewrite Hperm, Hinit;
      (destruct e; [|done|];
       (eexists; split; [reflexivity|]; cbn [db trace]; split; [done|];
        rewrite <- !app_assoc, drop_app_length; done)).
Qed.

Lemma other_initialize_failures_propagate_witness :
  ∃ w',
    run_task_v2
      (mkCollaborators (λ _ _, Ok tt) (λ _ _, Ok DispatchExample.generated)
         (λ _ _ _ _, Ok DispatchExample.created_v1)
         (λ _, Raise (OtherException "ConnectionError"))
         DispatchExample.new_TaskRequest (λ _, Ok None))
      DispatchExample.data DispatchExample.org None None DispatchExample.world
    = (Raise (OtherException "ConnectionError"), w')
    ∧ db w' = db DispatchExample.world
    ∧ trace w'
      = [EvPermissionCheck "o_1" None;
         EvInitializeTaskV2
           (run_task_v2_initialize_args DispatchExample.data DispatchExample.org)].
Proof.
  destruct (other_initialize_failures_propagate
              (mkCollaborators (λ _ _, Ok tt) (λ _ _, Ok DispatchExample.generated)
                 (λ _ _ _ _, Ok DispatchExample.created_v1)
                 (λ _, Raise (OtherException "ConnectionError"))
                 DispatchExample.new_TaskRequest (λ _, Ok None))
              DispatchExample.org DispatchExample.world
              (OtherException "ConnectionError")) as [_ H2]; [discriminate|].
  destruct (H2 DispatchExample.data None None eq_refl eq_refl)
    as (w' & Hrun & Hdb & _ & Htrace).
  exists w'. split; [exact Hrun|]. split; [exact Hdb|exact Htrace].
Defined.

Lemma drop_S_length_app {A} (l : list A) (x : A) (k : list A) :
  drop (S (length l)) (l ++ x :: k) = k.
Proof. induction l as [|y l IH]; [done|]. exact IH. Qed.

(** X5. The unified endpoint with engine v1 and a non-empty URL is the v1
    endpoint applied to the translated request. [run_task] constructs a
    [TaskRequest] from the request's own fields. When the constructor
    answers a request (with the browser session it was given), [run_task]
    leaves the same record store and, after the analytics event (which
    carries another name), the same events as [run_task_v1] on that
    [TaskRequest] with the request's [max_steps] as the step override; both
    succeed or both fail with the same exception, and the [run_id] answered
    is the [task_id] the v1 endpoint answers. When the constructor raises,
    [run_task] creates nothing and fails with that exception (or with the
    one of the permission check, which comes first). *)
Theorem run_task_v1_engine_is_run_task_v1 (collab : Collaborators)
    (run_request : TaskRunRequest.t) (current_org : Organization.t)
    (x_api_key : option string) (w : World) :
  TaskRunRequest.engine run_request = RunEngine.skyvern_v1 →
  truthy (TaskRunRequest.url run_request) = true →
  let unified := run_task collab run_request current_org x_api_key w in
  match new_TaskRequest collab (task_v1_request_from_request run_request) with
  | Ok task =>
    TaskRequest.browser_session_id task
      = TaskRunRequest.browser_session_id run_request →
    let legacy :=
      run_task_v1 collab task current_org x_api_key
        (TaskRunRequest.max_steps run_request) w in
    db unified.2 = db legacy.2
    ∧ drop (S (length (trace w))) (trace unified.2)
      = drop (S (length (trace w))) (trace legacy.2)
    ∧ match unified.1, legacy.1 with
      | Ok response, Ok created =>
        TaskRunResponse.run_id response = CreateTaskResponse.task_id created
        ∧ TaskRunResponse.engine response = RunEngine.skyvern_v1
      | Raise e1, Raise e2 => e1 = e2
      | _, _ => False
      end
  | Raise invalid =>
    db unified.2 = db w
    ∧ List.filter is_run_start (drop (length (trace w)) (trace unified.2)) = []
    ∧ unified.1
      = Raise match permission_checker collab current_org
                      (TaskRunRequest.browser_session_id run_request) with
              | Ok _ => invalid
              | Raise refused => refused
              end
  end.
Proof.
  intros Heng Hurl unified. subst unified. destruct w as [d tr].
  destruct (new_TaskRequest collab (task_v1_request_from_request run_request))
    as [task|invalid] eqn:Hnew.
  - intros Hsession legacy. subst legacy.
    unfold run_task, run_task_v1. run_dispatch. rewrite Heng, Hsession.
    rewrite (bool_decide_eq_true_2 (RunEngine.skyvern_v1 = RunEngine.skyvern_v1))
      by done.
    destruct (permission_checker collab current_org _) as [[]|e]; run_dispatch.
    + rewrite Hurl. cbn [negb]. run_dispatch.
      fold (task_v1_request_from_request run_request). rewrite Hnew.
      run_dispatch.
      destruct (create_task_v1 collab _ current_org _ x_api_key) as [resp|e];
        cbn [db trace fst snd]; rewrite <- !app_assoc; cbn [app];
        by rewrite !drop_S_length_app.
    + cbn [db trace fst snd]. rewrite <- !app_assoc. cbn [app].
      by rewrite !drop_S_length_app.
  - unfold run_task. run_dispatch. rewrite Heng.
    rewrite (bool_decide_eq_true_2 (RunEngine.skyvern_v1 = RunEngine.skyvern_v1))
      by done.
    destruct (permission_checker collab current_org _) as [[]|e]; run_dispatch.
    + rewrite Hurl. cbn [negb]. run_dispatch.
      fold (task_v1_request_from_request run_request). rewrite Hnew.
      cbn [db trace fst snd]. rewrite <- !app_assoc, drop_app_length. done.
    + cbn [db trace fst snd]. rewrite <- !app_assoc, drop_app_length. done.
Qed.

Lemma run_task_v1_engine_is_run_task_v1_witness :
  TaskRunResponse.run_id <$>
    match (run_task DispatchExample.healthy
             (DispatchExample.request RunEngine.skyvern_v1
                (Some "https://example.com") None)
             DispatchExample.org None DispatchExample.world).1 with
    | Ok r => Some r | Raise _ => None end
  = Some "tsk_1"
  ∧ db (run_task DispatchExample.healthy
          (DispatchExample.request RunEngine.skyvern_v1
             (Some "https://example.com") None)
          DispatchExample.org None DispatchExample.world).2
    = db (run_task_v1 DispatchExample.healthy
            (TaskRequest.mk None (Some "https://example.com/")
               (Some "find the price") None None None None None None)
            DispatchExample.org None None DispatchExample.world).2.
Proof.
  split; [vm_compute; reflexivity|].
  exact (proj1 (run_task_v1_engine_is_run_task_v1 DispatchExample.healthy
           (DispatchExample.request RunEngine.skyvern_v1
              (Some "https://example.com") None)
           DispatchExample.org None DispatchExample.world eq_refl eq_refl
           eq_refl)).
Defined.

(** ** The timeline: where its entries come from *)

Lemma entry_contribution_elem recur warning e0 p x :
  entry_contribution recur warning e0 = Some p →
  x ∈ p.1 ↔
  (x = e0 ∧ kept_entry e0)
  ∨ (∃ id, nested_run_id e0 = Some id ∧ recur id = Some p ∧ x ∈ p.1).
Proof.
  unfold entry_contribution, nested_run_id, kept_entry.
  destruct (WorkflowRunTimeline.block e0) as [b|]; simpl.
  2:{ intros [= <-]. simpl. rewrite elem_of_nil. split; [done|].
      intros [(_ & ? & ? & _)|(? & ? & _)]; done. }
  destruct (WorkflowRunBlock.block_type b) eqn:Hty.
  - destruct (WorkflowRunBlock.block_workflow_run_id b) as [[|c s]|].
    + intros [= <-]. simpl. rewrite elem_of_nil. split; [done|].
      intros [(_ & ? & [= <-] & Hne)|(? & ? & _)]; [|done]. by rewrite Hty in Hne.
    + intros Hrec. split.
      * intros Hx. right. by exists (String c s).
      * intros [(_ & ? & [= <-] & Hne)|(? & _ & _ & Hx)]; [|done].
        by rewrite Hty in Hne.
    + intros [= <-]. simpl. rewrite elem_of_nil. split; [done|].
      intros [(_ & ? & [= <-] & Hne)|(? & ? & _)]; [|done]. by rewrite Hty in Hne.
  - intros [= <-]. simpl. rewrite list_elem_of_singleton. split.
    + intros ->. left. split; [done|]. exists b. by rewrite Hty.
    + intros [[-> _]|(? & ? & _)]; done.
Qed.

Lemma contributions_elem recur warning rows ps x :
  contributions recur warning rows = Some ps →
  x ∈ concat ps.*1 ↔
  ∃ e0 p, e0 ∈ rows ∧ entry_contribution recur warning e0 = Some p ∧ x ∈ p.1.
Proof.
  rewrite contributions_Forall2.
  induction 1 as [|e0 p rows ps Hp _ IH].
  - simpl. rewrite elem_of_nil. split; [done|].
    by intros (? & ? & ?%elem_of_nil & _).
  - rewrite fmap_cons. simpl. rewrite elem_of_app, IH. split.
    + intros [Hx|(e1 & p1 & Hin & Hp1 & Hx)].
      * exists e0, p. split; [by left|done].
      * exists e1, p1. split; [by right|done].
    + intros (e1 & p1 & [->|Hin]%elem_of_cons & Hp1 & Hx).
      * left. rewrite Hp in Hp1. by injection Hp1 as <-.
      * right. by exists e1, p1.
Qed.

(** X6. The flattened timeline of a run holds exactly the kept entries (the
    raw entries with a block that is no nested-run block) and the thought
    entries of the runs reachable from it by nesting, all read for the
    caller's organization: nothing else is part of it, and none of these is
    missing. *)
Theorem timeline_entries_of_reachable_runs (fuel : nat) (db : Database)
    (organization_id workflow_run_id : string) (out : list entry)
    (logs : list LogRecord) :
  _flatten_workflow_run_timeline fuel db organization_id workflow_run_id
    = Some (out, logs) →
  ∀ x, x ∈ out ↔
    ∃ wr, nested_in db organization_id workflow_run_id wr
          ∧ ((x ∈ WORKFLOW_SERVICE.get_workflow_run_timeline db wr organization_id
              ∧ kept_entry x)
             ∨ x ∈ own_thoughts db organization_id wr).
Proof.
  revert workflow_run_id out logs.
  induction fuel as [|fuel IH]; intros wr0 out logs; [done|].
  cbn [_flatten_workflow_run_timeline]. rewrite flatten_body_eq.
  destruct (contributions _ _ _) as [ps|] eqn:E; simpl; [|done].
  intros [= <- <-] x.
  pose proof (contributions_elem _ _ _ _ x E) as Hps.
  assert (x ∈ sort_reverse entry_created_at
                (concat ps.*1 ++ own_thoughts db organization_id wr0)
          ↔ x ∈ concat ps.*1 ∨ x ∈ own_thoughts db organization_id wr0) as ->.
  { by rewrite sort_reverse_perm, elem_of_app. }
  rewrite Hps. split.
  - intros [(e0 & p & Hin & Hp & Hx)|Hx].
    + apply (entry_contribution_elem _ _ _ _ x) in Hp as Hcase.
      apply Hcase in Hx as [[-> Hkept]|(id & Hid & Hrec & Hx)].
      * exists wr0. split; [constructor|]. by left.
      * destruct p as [nested lg]. simpl in Hx.
        apply (IH id nested lg Hrec x) in Hx as (wr & Hreach & Hsrc).
        exists wr. split; [|done]. by eapply nested_in_step.
    + exists wr0. split; [constructor|]. by right.
  - intros (wr & Hreach & Hsrc).
    inversion Hreach as [|? e0 id ? Hin Hid Hreach']; subst.
    + destruct Hsrc as [[Hin Hkept]|Hth]; [|by right].
      left. apply contributions_Forall2 in E.
      apply list_elem_of_lookup in Hin as [i Hi].
      destruct (Forall2_lookup_l _ _ _ _ _ E Hi) as (p & _ & Hp).
      exists x, p. split; [by eapply list_elem_of_lookup_2|]. split; [done|].
      apply (entry_contribution_elem _ _ _ _ x Hp). by left.
    + left. apply contributions_Forall2 in E.
      apply list_elem_of_lookup in Hin as [i Hi].
      destruct (Forall2_lookup_l _ _ _ _ _ E Hi) as ([nested lg] & _ & Hp).
      exists e0, (nested, lg).
      split; [by eapply list_elem_of_lookup_2|]. split; [done|].
      rewrite (entry_contribution_nested _ _ _ _ Hid) in Hp.
      simpl. apply (IH id nested lg Hp x). by exists wr.
Qed.

Lemma timeline_entries_of_reachable_runs_witness :
  SplicingExample.t2_1 ∈
    [SplicingExample.t3; SplicingExample.t2_2; SplicingExample.t2_1;
     SplicingExample.t1]
  ↔ ∃ wr, nested_in SplicingExample.store "o_1" "wr_parent" wr
          ∧ ((SplicingExample.t2_1
                ∈ WORKFLOW_SERVICE.get_workflow_run_timeline SplicingExample.store
                    wr "o_1"
              ∧ kept_entry SplicingExample.t2_1)
             ∨ SplicingExample.t2_1 ∈ own_thoughts SplicingExample.store "o_1" wr).
Proof.
  assert (_flatten_workflow_run_timeline 2 SplicingExample.store "o_1" "wr_parent"
    = Some ([SplicingExample.t3; SplicingExample.t2_2; SplicingExample.t2_1;
             SplicingExample.t1], [])) as H by (vm_compute; reflexivity).
  exact (timeline_entries_of_reachable_runs 2 SplicingExample.store "o_1" "wr_parent"
           _ _ H SplicingExample.t2_1).
Defined.

(** ** [get_task_v1] and [retry_webhook] *)

Lemma append_empty_r (s : string) : s +:+ "" = s.
Proof.
  induction s as [|c s IH]; [done|].
  change (String c (s +:+ "") = String c s). by rewrite IH.
Qed.

Lemma failed_action_messages_filter actions_and_results :
  failed_action_messages actions_and_results
  = (λ ar, Action.action_type ar.1 +:+ " action failed.")
      <$> filter last_result_failed actions_and_results.
Proof.
  induction actions_and_results as [|[action results] rest IH]; [done|].
  cbn [failed_action_messages].
  destruct (Nat.eqb_spec (length results) 0) as [Hlen|Hlen].
  - destruct results; [|done]. by rewrite filter_cons_False.
  - destruct (last results) as [result|] eqn:Hlast.
    + destruct (ActionResult.success result) eqn:Hsucc.
      * rewrite filter_cons_False; [done|].
        unfold last_result_failed. simpl. rewrite Hlast. simpl. by rewrite Hsucc.
      * rewrite filter_cons_True, fmap_cons, IH; [done|].
        unfold last_result_failed. simpl. rewrite Hlast. simpl. by rewrite Hsucc.
    + rewrite filter_cons_False; [done|].
      unfold last_result_failed. simpl. by rewrite Hlast.
Qed.

(** X7. For a task with a latest step, [get_task_v1] reads only: it answers
    the response built from the task, the step and a failure reason, and
    leaves the record store as it is. The failure reason is [None] unless
    the task's status is failed and the step has an output or the task has
    a failure reason of its own. When the step lists its actions, the
    reason is the task's own reason followed by ["(Exceptions: [...])"]
    naming exactly the actions whose last result did not succeed (an action
    without results, or one that failed first and succeeded last, is not
    named); with no such action nothing is appended. *)
Theorem get_task_v1_reports_last_failures
    (task_failure_reason : Task.t → option string)
    (step_output : Step.t → option AgentStepOutput.t)
    (repr : string → string)
    (build_task_response : Task.t → option Step.t → option string → bool
                           → TaskResponse.t)
    (task_id : string) (current_org : Organization.t) (w : World)
    (task_obj : Task.t) (latest_step : Step.t) :
  DATABASE.get_task (db w) task_id (Organization.organization_id current_org)
    = Some task_obj →
  DATABASE.get_latest_step (db w) task_id (Organization.organization_id current_org)
    = Some latest_step →
  ∃ failure_reason,
    get_task_v1 task_failure_reason step_output repr build_task_response
      task_id current_org w
    = (Ok (build_task_response task_obj (Some latest_step) failure_reason true),
       mkWorld (db w) (trace w ++ [EvAnalytics "skyvern-oss-agent-task-get"]))
    ∧ (Task.status task_obj ≠ TaskStatus.failed → failure_reason = None)
    ∧ (step_output latest_step = None →
       truthy (task_failure_reason task_obj) = false → failure_reason = None)
    ∧ (Task.status task_obj = TaskStatus.failed →
       ∀ output actions_and_results,
         step_output latest_step = Some output →
         AgentStepOutput.actions_and_results output = Some actions_and_results →
         let reported := filter last_result_failed actions_and_results in
         failure_reason
         = Some ((if truthy (task_failure_reason task_obj)
                  then default "" (task_failure_reason task_obj) else "")
                 +:+ match reported with
                     | [] => ""
                     | _ :: _ =>
                       "(Exceptions: "
                       +:+ py_str_list repr
                             ((λ ar, Action.action_type ar.1 +:+ " action failed.")
                                <$> reported)
                       +:+ ")"
                     end)).
Proof.
  intros Htask Hstep.
  exists (get_task_v1_failure_reason task_failure_reason step_output repr
            task_obj latest_step).
  split.
  { unfold get_task_v1. run_handler. rewrite Htask. run_handler. by rewrite Hstep. }
  unfold get_task_v1_failure_reason. split; [|split].
  - intros Hne. by rewrite bool_decide_eq_false_2.
  - intros -> ->. by rewrite andb_false_r.
  - intros Hfailed output actions Hout Hactions.
    set (reported := filter last_result_failed actions).
    rewrite bool_decide_eq_true_2 by done. rewrite Hout. cbn [truthy truthy_option
      truthy_AgentStepOutput orb andb]. rewrite Hactions.
    rewrite failed_action_messages_filter. fold reported.
    assert ((if truthy (task_failure_reason task_obj)
             then "" +:+ default "" (py_or (task_failure_reason task_obj) (Some ""))
             else "")
            = (if truthy (task_failure_reason task_obj)
               then default "" (task_failure_reason task_obj) else "")) as ->.
    { unfold py_or. by destruct (truthy (task_failure_reason task_obj)). }
    destruct reported as [|ar reported']; simpl.
    + by rewrite append_empty_r.
    + done.
Qed.

Lemma get_task_v1_reports_last_failures_witness :
  get_task_v1 FailedTaskExample.task_failure_reason FailedTaskExample.step_output
    FailedTaskExample.repr FailedTaskExample.build_task_response
    "tsk_f" FailedTaskExample.org FailedTaskExample.world
  = (Ok (FailedTaskExample.build_task_response
           (Task.mk "tsk_f" "o_1" TaskStatus.failed None)
           (Some (Step.mk "stp_2" "tsk_f" "o_1"))
           (Some "Max steps reached(Exceptions: ['input_text action failed.'])")
           true),
     mkWorld FailedTaskExample.store [EvAnalytics "skyvern-oss-agent-task-get"]).
Proof.
  destruct (get_task_v1_reports_last_failures
              FailedTaskExample.task_failure_reason FailedTaskExample.step_output
              FailedTaskExample.repr FailedTaskExample.build_task_response
              "tsk_f" FailedTaskExample.org FailedTaskExample.world
              (Task.mk "tsk_f" "o_1" TaskStatus.failed None)
              (Step.mk "stp_2" "tsk_f" "o_1") eq_refl eq_refl)
    as (failure_reason & Hrun & _ & _ & Hreason).
  rewrite Hrun.
  rewrite (Hreason eq_refl _ _ eq_refl eq_refl). reflexivity.
Defined.

Section retry_webhook_facts.
Context (build_task_response : Task.t → option Step.t → option string → bool
                               → TaskResponse.t).

Lemma retry_webhook_run task_id current_org x_api_key d tr :
  retry_webhook build_task_response task_id current_org x_api_key (mkWorld d tr)
  = match DATABASE.get_task d task_id (Organization.organization_id current_org) with
    | None =>
      (Raise (HTTPException 404 ("Task not found " +:+ task_id)),
       mkWorld d (tr ++ [EvAnalytics "skyvern-oss-agent-task-retry-webhook"]))
    | Some task_obj =>
      match DATABASE.get_latest_step d task_id
              (Organization.organization_id current_org) with
      | None =>
        (Ok (build_task_response task_obj None None false),
         mkWorld d (tr ++ [EvAnalytics "skyvern-oss-agent-task-retry-webhook"]))
      | Some latest_step =>
        (Ok (build_task_response task_obj (Some latest_step) None false),
         mkWorld d (tr ++ [EvAnalytics "skyvern-oss-agent-task-retry-webhook";
                           EvTaskWebhook (Task.task_id task_obj) (Some latest_step)
                             x_api_key]))
      end
    end.
Proof.
  unfold retry_webhook. run_handler.
  destruct (DATABASE.get_task d task_id _) as [task_obj|]; [|done]. run_handler.
  destruct (DATABASE.get_latest_step d task_id _) as [latest_step|]; [|done].
  unfold agent.execute_task_webhook. run_handler. by rewrite <- app_assoc.
Qed.

Lemma get_task_task_id d task_id organization_id task_obj :
  DATABASE.get_task d task_id organization_id = Some task_obj →
  Task.task_id task_obj = task_id.
Proof.
  unfold DATABASE.get_task. destruct (tasks d !! task_id) as [r|]; simpl; [|done].
  case_bool_decide; [|done]. by intros [= <-].
Qed.

(** X8. [retry_webhook] never writes to the record store and never changes
    a status. It fires the task's webhook exactly once when the task exists
    for the caller's organization and has at least one step, handing over
    that latest step; for a task without steps it answers the task's
    response and fires no webhook; for a missing task it fails with 404 and
    fires none. *)
Theorem retry_webhook_fires_once_or_never (task_id : string)
    (current_org : Organization.t) (x_api_key : option string) (w : World) :
  let organization_id := Organization.organization_id current_org in
  ∃ r w',
    retry_webhook build_task_response task_id current_org x_api_key w = (r, w')
    ∧ db w' = db w
    ∧ List.filter is_task_webhook (drop (length (trace w)) (trace w'))
      = match DATABASE.get_task (db w) task_id organization_id,
              DATABASE.get_latest_step (db w) task_id organization_id with
        | Some _, Some latest_step =>
          [EvTaskWebhook task_id (Some latest_step) x_api_key]
        | _, _ => []
        end
    ∧ r = match DATABASE.get_task (db w) task_id organization_id with
          | None => Raise (HTTPException 404 ("Task not found " +:+ task_id))
          | Some task_obj =>
            Ok (build_task_response task_obj
                  (DATABASE.get_latest_step (db w) task_id organization_id)
                  None false)
          end.
Proof.
  intros organization_id. destruct w as [d tr]. rewrite retry_webhook_run.
  fold organization_id. cbn [db trace].
  destruct (DATABASE.get_task d task_id organization_id) as [task_obj|] eqn:Htask.
  - apply get_task_task_id in Htask as Hid.
    destruct (DATABASE.get_latest_step d task_id organization_id) as [step|];
      eexists _, _; (split; [reflexivity|]); cbn [db trace];
      rewrite drop_app_length, ?Hid; done.
  - eexists _, _. split; [reflexivity|]. cbn [db trace].
    by rewrite drop_app_length.
Qed.

Lemma cancel_task_run task_id current_org x_api_key d tr task_obj :
  DATABASE.get_task d task_id (Organization.organization_id current_org)
    = Some task_obj →
  cancel_task task_id current_org x_api_key (mkWorld d tr)
  = (Ok tt,
     mkWorld
       (set_tasks (alter (Task.set_status TaskStatus.canceled) task_id (tasks d)) d)
       (tr ++ [EvAnalytics "skyvern-oss-agent-task-get";
               EvUpdateTask task_id TaskStatus.canceled;
               EvTaskWebhook task_id
                 (DATABASE.get_latest_step d task_id
                    (Organization.organization_id current_org)) x_api_key])).
Proof.
  intros Htask. apply get_task_task_id in Htask as Hid.
  unfold cancel_task, agent.update_task, agent.execute_task_webhook. run_handler.
  rewrite Htask. run_handler. rewrite Hid.
  unfold DATABASE.get_latest_step, set_tasks. cbn [steps Task.task_id].
  by rewrite <- !app_assoc.
Qed.

(** X9. After [cancel_task], [retry_webhook] replays the webhook of the
    canceled task without touching it: the store stays as the cancellation
    left it (status canceled), the response is built from the canceled
    task, and the webhook is fired again with the same latest step. For a
    task without steps the two differ: the cancellation fires the webhook
    (without a step), the retry fires none. *)
Theorem retry_webhook_after_cancel_task (task_id : string)
    (current_org : Organization.t) (x_api_key : option string) (w : World)
    (task_obj : Task.t) :
  let organization_id := Organization.organization_id current_org in
  DATABASE.get_task (db w) task_id organization_id = Some task_obj →
  let latest_step := DATABASE.get_latest_step (db w) task_id organization_id in
  let canceled :=
    Task.mk task_id (Task.organization_id task_obj) TaskStatus.canceled
      (Task.webhook_callback_url task_obj) in
  ∃ w1 w2,
    cancel_task task_id current_org x_api_key w = (Ok tt, w1)
    ∧ retry_webhook build_task_response task_id current_org x_api_key w1
      = (Ok (build_task_response canceled latest_step None false), w2)
    ∧ DATABASE.get_task (db w1) task_id organization_id = Some canceled
    ∧ db w2 = db w1
    ∧ List.filter is_task_webhook (drop (length (trace w)) (trace w1))
      = [EvTaskWebhook task_id latest_step x_api_key]
    ∧ List.filter is_task_webhook (drop (length (trace w1)) (trace w2))
      = match latest_step with
        | Some _ => [EvTaskWebhook task_id latest_step x_api_key]
        | None => []
        end.
Proof.
  intros organization_id Htask latest_step canceled. destruct w as [d tr].
  cbn [db] in *.
  assert (DATABASE.get_task
            (set_tasks (alter (Task.set_status TaskStatus.canceled) task_id (tasks d)) d)
            task_id organization_id = Some canceled) as Hcanceled.
  { revert Htask. unfold DATABASE.get_task, set_tasks. cbn [tasks].
    rewrite lookup_alter_eq.
    destruct (tasks d !! task_id) as [r|]; simpl; [|done].
    case_bool_decide; [|done]. by intros [= <-]. }
  pose proof (cancel_task_run task_id current_org x_api_key d tr task_obj Htask)
    as Hcancel.
  fold organization_id in Hcancel. fold latest_step in Hcancel.
  assert (DATABASE.get_latest_step
            (set_tasks (alter (Task.set_status TaskStatus.canceled) task_id (tasks d)) d)
            task_id organization_id = latest_step) as Hlatest by done.
  clearbody latest_step.
  destruct latest_step as [step|];
    eexists _, _; (split; [exact Hcancel|]);
    rewrite retry_webhook_run; fold organization_id;
    rewrite Hcanceled, Hlatest; cbn [db trace];
    (split; [reflexivity|]); cbn [db trace];
    (split; [done|]); (split; [done|]);
    by rewrite !drop_app_length.
Qed.

End retry_webhook_facts.

Lemma retry_webhook_after_cancel_task_witness :
  ∃ w1 w2,
    cancel_task "tsk_f" FailedTaskExample.org (Some "key") FailedTaskExample.world
      = (Ok tt, w1)
    ∧ retry_webhook FailedTaskExample.build_task_response "tsk_f"
        FailedTaskExample.org (Some "key") w1
      = (Ok (FailedTaskExample.build_task_response
               (Task.mk "tsk_f" "o_1" TaskStatus.canceled None)
               (Some (Step.mk "stp_2" "tsk_f" "o_1")) None false), w2)
    ∧ db w2 = db w1.
Proof.
  destruct (retry_webhook_after_cancel_task FailedTaskExample.build_task_response
              "tsk_f" FailedTaskExample.org (Some "key") FailedTaskExample.world
              (Task.mk "tsk_f" "o_1" TaskStatus.failed None) eq_refl)
    as (w1 & w2 & Hcancel & Hretry & _ & Hdb & _).
  exists w1, w2. repeat split; assumption.
Defined.

(** X10. The unified endpoint with engine v2 starts the same work as the v2
    endpoint given the same fields and the request's [max_steps] in the
    max-steps header, provided the URL is not the empty string (the v2
    endpoint turns it into no URL, the unified one passes it on) and
    [max_steps] is not 0 (the v2 endpoint passes a zero header over, the
    unified one hands it to the executor): the record store is the same and
    the calls other than analytics and logging are the same in the same
    order. When the v2 endpoint fails, the unified one fails with the same
    exception. When the v2 endpoint answers a run, the unified endpoint,
    which has by then handed the run to the executor, reads the run's
    [failure_reason]: if that read raises, the unified endpoint fails with
    its exception; otherwise it answers, and the [run_id] answered is the
    id of the run the v2 endpoint answers. *)
Theorem run_task_v2_engine_is_run_task_v2 (collab : Collaborators)
    (run_request : TaskRunRequest.t) (current_org : Organization.t)
    (x_api_key : option string) (w : World) :
  TaskRunRequest.engine run_request = RunEngine.skyvern_v2 →
  TaskRunRequest.url run_request ≠ Some "" →
  TaskRunRequest.max_steps run_request ≠ Some 0%Z →
  let unified := run_task collab run_request current_org x_api_key w in
  let legacy :=
    run_task_v2 collab (task_v2_request_from_request run_request) current_org
      None (HInt <$> TaskRunRequest.max_steps run_request) w in
  db unified.2 = db legacy.2
  ∧ List.filter is_collaborator_call (drop (length (trace w)) (trace unified.2))
    = List.filter is_collaborator_call (drop (length (trace w)) (trace legacy.2))
  ∧ match legacy.1 with
    | Raise e => unified.1 = Raise e
    | Ok task_v2 =>
      List.filter is_collaborator_call (drop (length (trace w)) (trace unified.2))
      = [EvPermissionCheck (Organization.organization_id current_org)
           (TaskRunRequest.browser_session_id run_request);
         EvInitializeTaskV2 (run_task_initialize_args run_request current_org);
         EvExecuteTaskV2 (TaskV2.observer_cruise_id task_v2)
           (HInt <$> TaskRunRequest.max_steps run_request)
           (TaskRunRequest.browser_session_id run_request)]
      ∧ match task_v2_failure_reason collab task_v2 with
        | Raise e => unified.1 = Raise e
        | Ok failure_reason =>
          ∃ response,
            unified.1 = Ok response
            ∧ TaskRunResponse.run_id response = TaskV2.observer_cruise_id task_v2
            ∧ TaskRunResponse.engine response = RunEngine.skyvern_v2
            ∧ TaskRunResponse.failure_reason response = failure_reason
        end
    end.
Proof.
  intros Heng Hurl Hsteps unified legacy. subst unified legacy.
  destruct w as [d tr].
  assert (run_task_v2_initialize_args (task_v2_request_from_request run_request)
            current_org
          = run_task_initialize_args run_request current_org) as Hargs.
  { unfold run_task_v2_initialize_args, run_task_initialize_args,
      task_v2_request_from_request. cbn.
    destruct (TaskRunRequest.url run_request) as [[|c u]|]; done. }
  assert (py_or (HInt <$> TaskRunRequest.max_steps run_request) None
          = HInt <$> TaskRunRequest.max_steps run_request) as Hover.
  { destruct (TaskRunRequest.max_steps run_request) as [z|]; [|done].
    unfold py_or. cbn [fmap option_fmap option_map].
    change (truthy (Some (HInt z))) with (negb (z =? 0)%Z).
    destruct (Z.eqb_spec z 0) as [->|]; [done|reflexivity]. }
  unfold run_task, run_task_v2. rewrite Hargs, Hover, Heng.
  rewrite (bool_decide_eq_false_2 (RunEngine.skyvern_v2 = RunEngine.skyvern_v1))
    by done.
  rewrite (bool_decide_eq_true_2 (RunEngine.skyvern_v2 = RunEngine.skyvern_v2))
    by done.
  cbn [TaskV2Request.browser_session_id task_v2_request_from_request].
  destruct (truthy (py_or None (HInt <$> TaskRunRequest.max_steps run_request)));
    run_dispatch.
  all: destruct (permission_checker collab current_org _) as [[]|e]; run_dispatch;
    cbn [db trace fst snd];
    [ destruct (create_task_v2 collab _) as [task_v2|[]]; run_dispatch;
      cbn [db trace fst snd];
      try destruct (task_v2_failure_reason collab task_v2) as [reason|e'];
      cbn [db trace fst snd]
    | ];
    rewrite <- ?app_assoc; rewrite ?drop_app_length;
    (split; [done|split; [done|]]); try done;
    (split; [done|]); try done; by eexists.
Qed.

Lemma run_task_v2_engine_is_run_task_v2_witness :
  let run_request :=
    TaskRunRequest.mk RunEngine.skyvern_v2 "find the price" None None None None
      None None (Some 7%Z) None None None false in
  let unified :=
    run_task DispatchExample.no_failure_reason run_request DispatchExample.org None
      DispatchExample.world in
  let legacy :=
    run_task_v2 DispatchExample.no_failure_reason
      (task_v2_request_from_request run_request)
      DispatchExample.org None (Some (HInt 7)) DispatchExample.world in
  List.filter is_collaborator_call (trace unified.2)
  = List.filter is_collaborator_call (trace legacy.2)
  ∧ List.filter is_collaborator_call (trace unified.2)
    = [EvPermissionCheck "o_1" None;
       EvInitializeTaskV2 (run_task_initialize_args run_request DispatchExample.org);
       EvExecuteTaskV2 "oc_1" (Some (HInt 7)) None]
  ∧ unified.1 = Raise (OtherException "AttributeError")
  ∧ legacy.1 = Ok DispatchExample.created_v2.
Proof.
  intros run_request unified legacy.
  destruct (run_task_v2_engine_is_run_task_v2 DispatchExample.no_failure_reason
              run_request DispatchExample.org None DispatchExample.world
              eq_refl ltac:(discriminate) ltac:(discriminate))
    as (_ & Hcalls & Hanswer).
  split; [exact Hcalls|]. split; [exact (proj1 Hanswer)|].
  split; [exact (proj2 Hanswer)|reflexivity].
Defined.

(** ** Artifacts *)

Lemma assign_signed_urls_ok signed_urls i artifacts :
  (i + length artifacts ≤ length signed_urls)%nat →
  assign_signed_urls signed_urls i artifacts
  = Ok (zip_with (λ a u, Artifact.set_signed_url (Some u) a) artifacts
          (drop i signed_urls)).
Proof.
  revert i. induction artifacts as [|a rest IH]; intros i Hlen; [done|].
  cbn [assign_signed_urls length] in *.
  destruct (signed_urls !! i) as [u|] eqn:Hu.
  - rewrite IH by lia. rewrite (drop_S _ _ _ Hu). done.
  - apply lookup_ge_None in Hu. lia.
Qed.

Lemma assign_signed_urls_short signed_urls i artifacts :
  artifacts ≠ [] →
  (length signed_urls < i + length artifacts)%nat →
  assign_signed_urls signed_urls i artifacts = Raise (OtherException "IndexError").
Proof.
  revert i. induction artifacts as [|a rest IH]; intros i Hne Hlen; [done|].
  cbn [assign_signed_urls length] in *.
  destruct (signed_urls !! i) as [u|] eqn:Hu; [|done].
  apply lookup_lt_Some in Hu.
  rewrite IH; [done| |lia]. intros ->. cbn [length] in Hlen. lia.
Qed.

Lemma assign_signed_urls_unsigned signed_urls i artifacts answered :
  assign_signed_urls signed_urls i artifacts = Ok answered →
  unsigned <$> answered = unsigned <$> artifacts.
Proof.
  revert i answered. induction artifacts as [|a rest IH]; intros i answered.
  - by intros [= <-].
  - cbn [assign_signed_urls]. destruct (signed_urls !! i) as [u|]; [|done].
    destruct (assign_signed_urls signed_urls (S i) rest) as [rest'|e] eqn:Hrest;
      [|done].
    intros [= <-]. cbn [fmap list_fmap]. f_equal. by eapply IH.
Qed.

Lemma entity_type_to_param_lookup (entity_type : EntityType.t) :
  entity_type_to_param !! EntityType.value entity_type
  = Some (EntityType.value entity_type +:+ "_id").
Proof. destruct entity_type; vm_compute; reflexivity. Qed.

Section artifact_facts.
Context (settings : Settings.t)
        (get_artifacts_by_entity_id : gmap string string → list Artifact.t)
        (get_artifacts_for_task_step : string → string → string → list Artifact.t)
        (get_share_links : list Artifact.t → option (list string))
        (EntityType_str : EntityType.t → string).

(** X11. [get_artifacts] answers for every entity type: the table has a
    parameter name for each member, [<value>_id], so the 400 answer for an
    unsupported type is never given. The store is asked for the caller's
    organization and that one parameter set to the entity id, the record
    store is not written, and whatever is answered is the artifacts of that
    query, in order, differing at most in [signed_url]; with signing
    switched off (local environment, no presigned URLs) they are answered
    as stored and no share link is asked for. *)
Theorem get_artifacts_serves_every_entity_type (entity_type : EntityType.t)
    (entity_id : string) (current_org : Organization.t) (w : World) :
  let params : gmap string string :=
    <[EntityType.value entity_type +:+ "_id" := entity_id]>
      (<["organization_id" := Organization.organization_id current_org]> ∅) in
  let artifacts := get_artifacts_by_entity_id params in
  ∃ r w',
    get_artifacts settings get_artifacts_by_entity_id get_share_links
      EntityType_str entity_type entity_id current_org w = (r, w')
    ∧ db w' = db w
    ∧ (∀ detail, r ≠ Raise (HTTPException 400 detail))
    ∧ (∀ answered, r = Ok answered → unsigned <$> answered = unsigned <$> artifacts)
    ∧ (signing settings = false →
       r = Ok artifacts
       ∧ trace w' = trace w ++ [EvAnalytics "skyvern-oss-agent-entity-artifacts-get"]).
Proof.
  intros params artifacts. destruct w as [d tr].
  unfold get_artifacts. rewrite entity_type_to_param_lookup.
  fold params. fold artifacts. fold (signing settings).
  destruct (signing settings) eqn:Hsigning.
  - destruct (get_share_links artifacts) as [[|u us]|] eqn:Hlinks; run_handler.
    + eexists _, _. split; [reflexivity|]. cbn [db trace].
      repeat split; [done| |done]. by intros answered [= <-].
    + destruct (assign_signed_urls (u :: us) 0 artifacts) as [answered|e] eqn:Hassign.
      * eexists _, _. split; [reflexivity|]. cbn [db trace].
        repeat split; [done| |done]. intros ? [= <-].
        by eapply assign_signed_urls_unsigned.
      * eexists _, _. split; [reflexivity|]. cbn [db trace].
        repeat split; [|done|done].
        intros detail [= ->].
        destruct (decide (length artifacts ≤ length (u :: us))%nat) as [Hle|Hgt].
        -- by rewrite assign_signed_urls_ok in Hassign by (cbn [length] in *; lia).
        -- rewrite assign_signed_urls_short in Hassign;
             [done| |cbn [length] in *; lia].
           intros Hnil. rewrite Hnil in Hgt. cbn [length] in Hgt. lia.
    + eexists _, _. split; [reflexivity|]. cbn [db trace].
      repeat split; [done| |done]. by intros answered [= <-].
  - run_handler. eexists _, _. split; [reflexivity|]. cbn [db trace].
    repeat split; [done|by intros answered [= <-]].
Qed.

(** X12. With signing on and a non-empty list of share links, both artifact
    handlers hand the links out by position: artifact [i] of the store's
    answer gets link [i] and nothing else about it changes, links beyond
    the last artifact are ignored, and no warning is logged. When there are
    fewer links than artifacts no artifact is answered: the handler fails
    with [IndexError]. *)
Theorem artifacts_signed_by_position (current_org : Organization.t) (w : World) :
  signing settings = true →
  let outcome (event : string) (artifacts : list Artifact.t)
      (signed_urls : list string) : Result (list Artifact.t) * World :=
    (if decide (length artifacts ≤ length signed_urls)%nat
     then Ok (zip_with (λ a u, Artifact.set_signed_url (Some u) a)
                artifacts signed_urls)
     else Raise (OtherException "IndexError"),
     mkWorld (db w) (trace w ++ [EvAnalytics event])) in
  (∀ task_id step_id signed_urls,
     let artifacts :=
       get_artifacts_for_task_step task_id step_id
         (Organization.organization_id current_org) in
     get_share_links artifacts = Some signed_urls →
     signed_urls ≠ [] →
     get_step_artifacts settings get_artifacts_for_task_step get_share_links
       task_id step_id current_org w
     = outcome "skyvern-oss-agent-task-step-artifacts-get" artifacts signed_urls)
  ∧ (∀ entity_type entity_id signed_urls,
       let artifacts :=
         get_artifacts_by_entity_id
           (<[EntityType.value entity_type +:+ "_id" := entity_id]>
              (<["organization_id" := Organization.organization_id current_org]> ∅)) in
       get_share_links artifacts = Some signed_urls →
       signed_urls ≠ [] →
       get_artifacts settings get_artifacts_by_entity_id get_share_links
         EntityType_str entity_type entity_id current_org w
       = outcome "skyvern-oss-agent-entity-artifacts-get" artifacts signed_urls).
Proof.
  intros Hsigning outcome.
  assert (∀ artifacts signed_urls,
            signed_urls ≠ [] →
            assign_signed_urls signed_urls 0 artifacts
            = if decide (length artifacts ≤ length signed_urls)%nat
              then Ok (zip_with (λ a u, Artifact.set_signed_url (Some u) a)
                         artifacts signed_urls)
              else Raise (OtherException "IndexError")) as Hassign.
  { intros artifacts signed_urls Hne. case_decide as Hlen.
    - by rewrite assign_signed_urls_ok by (cbn [length] in *; lia).
    - apply assign_signed_urls_short; [|cbn [length] in *; lia].
      intros ->. cbn [length] in Hlen. lia. }
  destruct w as [d tr]. split.
  - intros task_id step_id signed_urls artifacts Hlinks Hne.
    unfold get_step_artifacts. fold artifacts. fold (signing settings).
    rewrite Hsigning, Hlinks. destruct signed_urls as [|u us]; [done|].
    run_handler. by rewrite Hassign.
  - intros entity_type entity_id signed_urls artifacts Hlinks Hne.
    unfold get_artifacts. rewrite entity_type_to_param_lookup.
    fold artifacts. fold (signing settings).
    rewrite Hsigning, Hlinks. destruct signed_urls as [|u us]; [done|].
    run_handler. by rewrite Hassign.
Qed.

End artifact_facts.

Lemma artifacts_signed_by_position_witness :
  (get_step_artifacts ArtifactExample.production
     ArtifactExample.get_artifacts_for_task_step ArtifactExample.all_links
     "tsk_1" "stp_1" (Organization.mk "o_1") (mkWorld DispatchExample.empty_db [])).1
  = Ok [Artifact.mk "a_1" "s3://bucket/a_1.png" (Some "https://signed/a_1");
        Artifact.mk "a_2" "s3://bucket/a_2.har" (Some "https://signed/a_2")]
  ∧ (get_step_artifacts ArtifactExample.production
       ArtifactExample.get_artifacts_for_task_step ArtifactExample.one_link
       "tsk_1" "stp_1" (Organization.mk "o_1") (mkWorld DispatchExample.empty_db [])).1
    = Raise (OtherException "IndexError").
Proof.
  split.
  - rewrite (proj1 (artifacts_signed_by_position ArtifactExample.production
                      ArtifactExample.get_artifacts_by_entity_id
                      ArtifactExample.get_artifacts_for_task_step
                      ArtifactExample.all_links ArtifactExample.EntityType_str
                      (Organization.mk "o_1") (mkWorld DispatchExample.empty_db [])
                      eq_refl)
               "tsk_1" "stp_1" ["https://signed/a_1"; "https://signed/a_2"]
               eq_refl ltac:(discriminate)).
    reflexivity.
  - rewrite (proj1 (artifacts_signed_by_position ArtifactExample.production
                      ArtifactExample.get_artifacts_by_entity_id
                      ArtifactExample.get_artifacts_for_task_step
                      ArtifactExample.one_link ArtifactExample.EntityType_str
                      (Organization.mk "o_1") (mkWorld DispatchExample.empty_db [])
                      eq_refl)
               "tsk_1" "stp_1" ["https://signed/a_1"]
               eq_refl ltac:(discriminate)).
    reflexivity.
Defined.

(** ** The webhook receiver *)

Section webhook_facts.
Context (SKYVERN_API_KEY : string)
        (decode_utf8 : list Byte.byte → option string)
        (generate_skyvern_signature : string → string → string).

(** X13. [webhook] does not enforce the signature. It answers 400 exactly
    when the signature header or the timestamp header is absent or empty;
    otherwise, for a body that decodes, it answers 200 "webhook validation"
    whatever the signature is, and whether the signature equals the one
    generated from the body and the API key is only written to the log. *)
Theorem webhook_signature_only_logged (payload : list Byte.byte)
    (x_skyvern_signature x_skyvern_timestamp : option string) :
  let run :=
    webhook SKYVERN_API_KEY decode_utf8 generate_skyvern_signature payload
      x_skyvern_signature x_skyvern_timestamp in
  (run.1 = Raise (HTTPException 400 "Missing webhook signature or timestamp")
   ↔ truthy x_skyvern_signature = false ∨ truthy x_skyvern_timestamp = false)
  ∧ (∀ text,
       truthy x_skyvern_signature = true →
       truthy x_skyvern_timestamp = true →
       decode_utf8 payload = Some text →
       run.1 = Ok (Response.mk "webhook validation" 200)
       ∧ logged_validity run.2
         = [WBool (bool_decide
                     (x_skyvern_signature
                      = Some (generate_skyvern_signature text SKYVERN_API_KEY)))]).
Proof.
  intros run. subst run. unfold webhook.
  destruct (truthy x_skyvern_signature) eqn:Hsig;
    destruct (truthy x_skyvern_timestamp) eqn:Hts; cbn [negb orb fst snd].
  - split.
    + destruct (decode_utf8 payload); cbn [fst];
        (split; [discriminate|intros [|]; discriminate]).
    + intros text _ _ ->. cbn [fst snd]. split; [done|].
      unfold logged_validity. cbn. reflexivity.
  - split; [split; [by right|done]|discriminate].
  - split; [split; [by left|done]|discriminate].
  - split; [split; [by left|done]|discriminate].
Qed.

End webhook_facts.

Lemma webhook_signature_only_logged_witness :
  let run :=
    webhook WebhookExample.SKYVERN_API_KEY WebhookExample.decode_utf8
      WebhookExample.generate_skyvern_signature WebhookExample.payload
      (Some "forged") (Some "1700000000") in
  run.1 = Ok (Response.mk "webhook validation" 200)
  ∧ logged_validity run.2 = [WBool false].
Proof.
  exact (proj2 (webhook_signature_only_logged WebhookExample.SKYVERN_API_KEY
                  WebhookExample.decode_utf8
                  WebhookExample.generate_skyvern_signature WebhookExample.payload
                  (Some "forged") (Some "1700000000"))
           "{}" eq_refl eq_refl eq_refl).
Defined.

(** ** Uploads *)

Lemma basename_cons c rest :
  basename (String c rest)
  = match rfind_sep rest with
    | Some _ => basename rest
    | None => if Ascii.eqb c sep then rest else String c rest
    end.
Proof.
  unfold basename. cbn [rfind_sep].
  destruct (rfind_sep rest) as [i|]; [done|].
  by destruct (Ascii.eqb c sep).
Qed.

Lemma basename_no_sep (p : string) : rfind_sep (basename p) = None.
Proof.
  induction p as [|c rest IH]; [done|]. rewrite basename_cons.
  destruct (rfind_sep rest) as [i|] eqn:Hrest; [done|].
  destruct (Ascii.eqb c sep) eqn:Hc; [done|].
  cbn [rfind_sep]. by rewrite Hrest, Hc.
Qed.

Lemma basename_suffix (p : string) : ∃ dir, p = dir +:+ basename p.
Proof.
  induction p as [|c rest [dir IH]]; [by exists ""|]. rewrite basename_cons.
  destruct (rfind_sep rest) as [i|].
  - exists (String c dir).
    change (String c rest = String c (dir +:+ basename rest)). by f_equal.
  - destruct (Ascii.eqb c sep).
    + by exists (String c "").
    + by exists "".
Qed.

Ltac run_upload :=
  unfold try_except_Exception, os_path_basename,
    aws_upload_file_stream, file_seek, up_emit, up_raise;
  unfold mbind, mret, Up_bind, Up_ret;
  cbn [file_obj calls fst snd].

Section upload_facts.
Context (MAX_UPLOAD_FILE_SIZE : Z)
        (MAX_UPLOAD_FILE_SIZE_MB : string)
        (AWS_S3_BUCKET_UPLOADS ENV : string)
        (todays_date : string)
        (uuid4 : string)
        (upload_file_stream : string → File.t → Result (option string) * File.t)
        (create_presigned_urls : list string → option (list string)).

Lemma _validate_file_size_run (file : UploadFile.t) :
  _validate_file_size MAX_UPLOAD_FILE_SIZE MAX_UPLOAD_FILE_SIZE_MB file
  = if File.closed (UploadFile.file file) then
      Raise (HTTPException 500 "Could not determine file size.")
    else if (MAX_UPLOAD_FILE_SIZE
               <? Z.of_nat (length (File.content (UploadFile.file file))))%Z then
      Raise (HTTPException 413
               ("File size exceeds the maximum allowed size ("
                  +:+ MAX_UPLOAD_FILE_SIZE_MB +:+ " MB)"))
    else Ok (UploadFile.mk (UploadFile.filename file)
               (File.mk (File.content (UploadFile.file file)) 0 false)).
Proof.
  destruct file as [name [content position []]];
    unfold _validate_file_size, File.seek, File.tell;
    cbn -[Z.ltb Z.of_nat String.append]; [done|].
  by rewrite Nat.add_0_r.
Qed.

(** X14. [_validate_file_size] accepts a file exactly when its file object
    is open and the whole content, wherever the pointer stood, is at most
    [MAX_UPLOAD_FILE_SIZE] bytes long (a file of exactly that size passes).
    An accepted file comes back with the same name and content and its
    pointer at the start, so validating it again gives the same file. A
    closed file is answered 500, an open file that is too long 413. *)
Theorem validate_file_size_accepts_up_to_max (file : UploadFile.t) :
  let validate := _validate_file_size MAX_UPLOAD_FILE_SIZE MAX_UPLOAD_FILE_SIZE_MB in
  let f := UploadFile.file file in
  ((∃ accepted, validate file = Ok accepted)
   ↔ File.closed f = false ∧ (Z.of_nat (length (File.content f)) ≤ MAX_UPLOAD_FILE_SIZE)%Z)
  ∧ (∀ accepted,
       validate file = Ok accepted →
       accepted = UploadFile.mk (UploadFile.filename file)
                    (File.mk (File.content f) 0 false)
       ∧ validate accepted = Ok accepted)
  ∧ (File.closed f = true →
     validate file = Raise (HTTPException 500 "Could not determine file size."))
  ∧ (File.closed f = false →
     (MAX_UPLOAD_FILE_SIZE < Z.of_nat (length (File.content f)))%Z →
     ∃ detail, validate file = Raise (HTTPException 413 detail)).
Proof.
  intros validate f. subst validate f.
  rewrite _validate_file_size_run.
  destruct file as [name [content position closed]].
  cbn [UploadFile.file UploadFile.filename File.closed File.content File.position].
  destruct closed.
  - split; [|split; [|split]].
    + split; [by intros [? ?]|by intros [? _]].
    + intros accepted ?. done.
    + done.
    + done.
  - destruct (Z.ltb_spec MAX_UPLOAD_FILE_SIZE (Z.of_nat (length content)))
      as [Hlong|Hfits].
    + split; [|split; [|split]].
      * split; [by intros [? ?]|intros [_ ?]; lia].
      * intros accepted ?. done.
      * done.
      * intros _ _. by eexists.
    + split; [|split; [|split]].
      * split; [by intros _|by eexists].
      * intros accepted [= <-]. split; [done|].
        rewrite _validate_file_size_run.
        cbn [UploadFile.file UploadFile.filename File.closed File.content
               File.position].
        destruct (Z.ltb_spec MAX_UPLOAD_FILE_SIZE (Z.of_nat (length content)));
          [lia|done].
      * done.
      * intros _ ?. lia.
Qed.

(** The answer [upload_file] gives for the URI its last attempt produced. *)
Lemma upload_file_run (file : UploadFile.t) (current_org : Organization.t)
    (w : UploadWorld) :
  let folder := upload_folder AWS_S3_BUCKET_UPLOADS ENV todays_date current_org in
  let answer_for (uploaded : option string) (w' : UploadWorld)
      : Result UploadResponse.t * UploadWorld :=
    match uploaded with
    | Some (String c s) =>
      (match create_presigned_urls [String c s] with
       | Some (presigned_url :: _) => Ok (UploadResponse.mk (String c s) presigned_url)
       | _ => Raise (HTTPException 500 "Failed to generate presigned URL.")
       end,
       mkUploadWorld (file_obj w') (calls w' ++ [UpPresign [String c s]]))
    | _ => (Raise (HTTPException 500 "Failed to upload file to S3."), w')
    end in
  let fallback (w' : UploadWorld) : Result UploadResponse.t * UploadWorld :=
    match File.seek 0 0 (file_obj w') with
    | Raise e => (Raise e, w')
    | Ok f =>
      let s3_uri := folder +:+ uuid4 +:+ "_" +:+ py_str_opt (UploadFile.filename file) in
      let second := upload_file_stream s3_uri f in
      let w'' := mkUploadWorld second.2 (calls w' ++ [UpStream s3_uri 0]) in
      match second.1 with
      | Raise e => (Raise e, w'')
      | Ok uploaded => answer_for uploaded w''
      end
    end in
  let failed := UpLog (mkLog ERROR "Failed to upload file to S3" []) in
  upload_file AWS_S3_BUCKET_UPLOADS ENV todays_date uuid4 upload_file_stream
    create_presigned_urls file current_org w
  = match UploadFile.filename file with
    | None => fallback (mkUploadWorld (file_obj w) (calls w ++ [failed]))
    | Some name =>
      let s3_uri := folder +:+ basename name in
      let first := upload_file_stream s3_uri (file_obj w) in
      let attempted := calls w ++ [UpStream s3_uri (File.position (file_obj w))] in
      match first.1 with
      | Raise _ => fallback (mkUploadWorld first.2 (attempted ++ [failed]))
      | Ok uploaded =>
        if truthy uploaded then answer_for uploaded (mkUploadWorld first.2 attempted)
        else fallback (mkUploadWorld first.2 attempted)
      end
    end.
Proof.
  intros folder answer_for fallback failed. unfold upload_file. fold folder.
  assert (∀ w',
    (uploaded_s3_uri ← (file_seek 0 0 ;;
        aws_upload_file_stream upload_file_stream
          (folder +:+ uuid4 +:+ "_" +:+ py_str_opt (UploadFile.filename file)));
     match uploaded_s3_uri with
     | Some (String c s as uploaded_s3_uri) =>
       up_emit (UpPresign [uploaded_s3_uri]) ;;
       match create_presigned_urls [uploaded_s3_uri] with
       | Some (presigned_url :: _) =>
         mret (UploadResponse.mk uploaded_s3_uri presigned_url)
       | _ => up_raise (HTTPException 500 "Failed to generate presigned URL.")
       end
     | _ => up_raise (HTTPException 500 "Failed to upload file to S3.")
     end) w' = fallback w') as Hfallback.
  { intros w'. subst fallback answer_for. run_upload.
    unfold File.seek. cbn [Z.eqb].
    destruct (File.closed (file_obj w')) eqn:Hclosed; [done|].
    cbn [file_obj calls File.position].
    destruct (upload_file_stream _ _) as [[[[|c s]|]|e] f']; cbn [fst snd];
      try done.
    by destruct (create_presigned_urls _) as [[|url urls]|]. }
  destruct (UploadFile.filename file) as [name|] eqn:Hname.
  - run_upload.
    destruct (upload_file_stream (folder +:+ basename name) (file_obj w))
      as [[uploaded|e] f'] eqn:Hfirst; cbn [fst snd].
    + destruct uploaded as [[|c s]|]; cbn [truthy truthy_option truthy_string negb].
      * change (truthy (Some "")) with false. cbn [negb]. apply Hfallback.
      * change (truthy (Some (String c s))) with true. cbn [negb].
        subst answer_for. run_upload.
        by destruct (create_presigned_urls _) as [[|url urls]|].
      * change (truthy (@None string)) with false. cbn [negb]. apply Hfallback.
    + change (truthy (@None string)) with false. cbn [negb].
      rewrite <- Hfallback. done.
  - run_upload. change (truthy (@None string)) with false. cbn [negb].
    rewrite <- Hfallback. done.
Qed.

(** X15. An accepted upload with a file name is first streamed, from the
    start of the file, under the last component of the name: that component
    holds no slash and the name ends in it. When this attempt produces a
    URI it is the only one and nothing is logged. When it raises or
    produces nothing, and the file object is still open, the file is
    rewound and streamed once more under the uuid, an underscore and the
    name as it was sent, slashes included; the error is logged only when
    the first attempt raised. An exception of the second attempt is not
    caught, and a second attempt that produces nothing is answered 500. *)
Theorem upload_falls_back_to_unsanitized_name (file : UploadFile.t)
    (current_org : Organization.t) (name : string) :
  UploadFile.filename file = Some name →
  File.closed (UploadFile.file file) = false →
  (Z.of_nat (length (File.content (UploadFile.file file))) ≤ MAX_UPLOAD_FILE_SIZE)%Z →
  let folder := upload_folder AWS_S3_BUCKET_UPLOADS ENV todays_date current_org in
  let rewound := File.mk (File.content (UploadFile.file file)) 0 false in
  let first := upload_file_stream (folder +:+ basename name) rewound in
  let second :=
    upload_file_stream (folder +:+ uuid4 +:+ "_" +:+ name)
      (File.mk (File.content first.2) 0 false) in
  let run :=
    upload_file_route MAX_UPLOAD_FILE_SIZE MAX_UPLOAD_FILE_SIZE_MB
      AWS_S3_BUCKET_UPLOADS ENV todays_date uuid4 upload_file_stream
      create_presigned_urls file current_org in
  rfind_sep (basename name) = None
  ∧ (∃ dir, name = dir +:+ basename name)
  ∧ (uploaded first.1 = true →
     stream_uploads run.2 = [(folder +:+ basename name, 0%nat)]
     ∧ upload_error_logs run.2 = [])
  ∧ (uploaded first.1 = false →
     File.closed first.2 = false →
     stream_uploads run.2
     = [(folder +:+ basename name, 0%nat);
        (folder +:+ uuid4 +:+ "_" +:+ name, 0%nat)]
     ∧ upload_error_logs run.2
       = match first.1 with Raise _ => [upload_failed_log] | Ok _ => [] end
     ∧ (∀ e, second.1 = Raise e → run.1 = Raise e)
     ∧ (uploaded second.1 = false →
        (∀ e, second.1 ≠ Raise e) →
        run.1 = Raise (HTTPException 500 "Failed to upload file to S3."))).
Proof.
  intros Hname Hopen Hfits folder rewound first second run.
  split; [apply basename_no_sep|]. split; [apply basename_suffix|].
  subst run. unfold upload_file_route. rewrite _validate_file_size_run, Hopen.
  destruct (Z.ltb_spec MAX_UPLOAD_FILE_SIZE
              (Z.of_nat (length (File.content (UploadFile.file file)))))
    as [|_]; [lia|].
  rewrite upload_file_run. cbn [UploadFile.filename UploadFile.file file_obj calls].
  rewrite Hname. fold folder. fold rewound. fold first.
  change (py_str_opt (Some name)) with name.
  cbn [File.position rewound app].
  split.
  - intros Hfirst. destruct (first.1) as [[[|c s]|]|e]; try discriminate Hfirst.
    change (truthy (Some (String c s))) with true. cbn iota.
    by destruct (create_presigned_urls _) as [[|url urls]|].
  - intros Hfirst Hstill.
    assert (File.seek 0 0 first.2 = Ok (File.mk (File.content first.2) 0 false))
      as Hseek by (unfold File.seek; by rewrite Hstill).
    destruct (first.1) as [[[|c s]|]|e] eqn:Hfirst1; try discriminate Hfirst.
    all: cbn [truthy truthy_option truthy_string file_obj calls];
      rewrite Hseek; fold second; cbn [file_obj calls].
    all: destruct second as [[[[|c' s']|]|e'] f2]; cbn [fst snd uploaded];
      try destruct (create_presigned_urls _) as [[|url urls]|];
      (split; [reflexivity|split; [reflexivity|split]]);
      solve [ by intros ? [= <-] | by intros ? [=] | by intros [=]
            | by intros _ Hno; destruct (Hno e')
            | done ].
Qed.

(** X16. An accepted upload without a file name is never streamed under a
    sanitized name: taking the last component fails, which is logged, and
    the file is streamed once, from its start, under the uuid followed by
    [_None]. *)
Theorem upload_without_name_is_stored_as_None (file : UploadFile.t)
    (current_org : Organization.t) :
  UploadFile.filename file = None →
  File.closed (UploadFile.file file) = false →
  (Z.of_nat (length (File.content (UploadFile.file file))) ≤ MAX_UPLOAD_FILE_SIZE)%Z →
  let folder := upload_folder AWS_S3_BUCKET_UPLOADS ENV todays_date current_org in
  let run :=
    upload_file_route MAX_UPLOAD_FILE_SIZE MAX_UPLOAD_FILE_SIZE_MB
      AWS_S3_BUCKET_UPLOADS ENV todays_date uuid4 upload_file_stream
      create_presigned_urls file current_org in
  stream_uploads run.2 = [(folder +:+ uuid4 +:+ "_None", 0%nat)]
  ∧ upload_error_logs run.2 = [upload_failed_log].
Proof.
  intros Hname Hopen Hfits folder run.
  subst run. unfold upload_file_route. rewrite _validate_file_size_run, Hopen.
  destruct (Z.ltb_spec MAX_UPLOAD_FILE_SIZE
              (Z.of_nat (length (File.content (UploadFile.file file)))))
    as [|_]; [lia|].
  rewrite upload_file_run. cbn [UploadFile.filename UploadFile.file file_obj calls].
  rewrite Hname. fold folder.
  unfold File.seek. cbn [File.closed File.content Z.eqb app py_str_opt default].
  destruct (upload_file_stream _ _) as [[[[|c s]|]|e] f'];
    cbn [fst snd file_obj calls]; try done.
Qed.

(** X17. Whatever the object store answers, [upload_file] streams the file
    at most twice and logs at most one error. When it answers, the URI it
    answers is not empty, the presigned URL is the first one the store
    gave for exactly that URI, and asking for it was the last call made. *)
Theorem upload_file_answer_is_presigned_upload (file : UploadFile.t)
    (current_org : Organization.t) (w : UploadWorld) :
  let run :=
    upload_file AWS_S3_BUCKET_UPLOADS ENV todays_date uuid4 upload_file_stream
      create_presigned_urls file current_org w in
  let made := drop (length (calls w)) (calls run.2) in
  (length (stream_uploads made) ≤ 2)%nat
  ∧ (length (upload_error_logs made) ≤ 1)%nat
  ∧ (∀ response,
       run.1 = Ok response →
       UploadResponse.s3_uri response ≠ ""
       ∧ (∃ urls, create_presigned_urls [UploadResponse.s3_uri response]
                  = Some (UploadResponse.presigned_url response :: urls))
       ∧ last made = Some (UpPresign [UploadResponse.s3_uri response])
       ∧ (1 ≤ length (stream_uploads made))%nat).
Proof.
  intros run made. subst made run. rewrite upload_file_run.
  destruct w as [f0 calls0]. cbn [file_obj calls].
  assert (∀ (n m k : nat), n = m → (m ≤ k)%nat → (n ≤ k)%nat) as Hle by lia.
  assert (∀ f1 pre evs,
    pre = calls0 ++ evs →
    let fallen := match File.seek 0 0 f1 with
      | Raise e => (Raise e, mkUploadWorld f1 pre)
      | Ok f =>
        let s3_uri :=
          upload_folder AWS_S3_BUCKET_UPLOADS ENV todays_date current_org
            +:+ uuid4 +:+ "_" +:+ py_str_opt (UploadFile.filename file) in
        let second := upload_file_stream s3_uri f in
        let w'' := mkUploadWorld second.2 (pre ++ [UpStream s3_uri 0]) in
        match second.1 with
        | Raise e => (Raise e, w'')
        | Ok (Some (String c s)) =>
          (match create_presigned_urls [String c s] with
           | Some (presigned_url :: _) =>
             Ok (UploadResponse.mk (String c s) presigned_url)
           | _ => Raise (HTTPException 500 "Failed to generate presigned URL.")
           end,
           mkUploadWorld (file_obj w'') (calls w'' ++ [UpPresign [String c s]]))
        | Ok _ => (Raise (HTTPException 500 "Failed to upload file to S3."), w'')
        end
      end in
    let made := drop (length calls0) (calls fallen.2) in
    (length (stream_uploads made) ≤ S (length (stream_uploads evs)))%nat
    ∧ length (upload_error_logs made) = length (upload_error_logs evs)
    ∧ (∀ response,
         fallen.1 = Ok response →
         UploadResponse.s3_uri response ≠ ""
         ∧ (∃ urls, create_presigned_urls [UploadResponse.s3_uri response]
                    = Some (UploadResponse.presigned_url response :: urls))
         ∧ last made = Some (UpPresign [UploadResponse.s3_uri response])
         ∧ (1 ≤ length (stream_uploads made))%nat)) as Hfallback.
  { intros f1 pre evs ->. cbv zeta.
    destruct (File.seek 0 0 f1) as [f|e]; cbn [fst snd calls].
    - destruct (upload_file_stream _ f) as [[[[|c s]|]|e] f2];
        cbn [fst snd calls file_obj];
        rewrite <- ?app_assoc, drop_app_length;
        unfold stream_uploads, upload_error_logs;
        rewrite ?omap_app, ?length_app; cbn [omap list_omap length Nat.add app].
      + split; [lia|]. split; [lia|]. done.
      + destruct (create_presigned_urls _) as [[|url urls]|] eqn:Hurls;
          (split; [lia|]; split; [lia|]); try done.
        intros ? [= <-]. cbn [UploadResponse.s3_uri UploadResponse.presigned_url].
        split; [done|]. split; [by eexists|]. split; [|lia].
        by rewrite last_app.
      + split; [lia|]. split; [lia|]. done.
      + split; [lia|]. split; [lia|]. done.
    - rewrite drop_app_length. split; [lia|]. split; [done|]. done. }
  destruct (UploadFile.filename file) as [name|].
  - cbv zeta. set (s3_uri := _ +:+ basename name).
    destruct (upload_file_stream s3_uri f0) as [[[[|c s]|]|e] f1];
      cbn [fst snd file_obj calls truthy truthy_option truthy_string].
    + destruct (Hfallback f1 (calls0 ++ [UpStream s3_uri (File.position f0)])
                  [UpStream s3_uri (File.position f0)] eq_refl)
        as (H1 & H2 & H3).
      split; [exact H1|]. split; [|exact H3].
      eapply Hle; [exact H2|cbn; lia].
    + change (truthy (Some (String c s))) with true. cbn iota.
      cbn [fst snd calls]. rewrite <- app_assoc, drop_app_length.
      cbn [app stream_uploads upload_error_logs omap list_omap length].
      split; [lia|]. split; [lia|].
      destruct (create_presigned_urls _) as [[|url urls]|] eqn:Hurls; try done.
      intros ? [= <-]. cbn [UploadResponse.s3_uri UploadResponse.presigned_url].
      split; [done|]. split; [by eexists|]. split; [done|lia].
    + destruct (Hfallback f1 (calls0 ++ [UpStream s3_uri (File.position f0)])
                  [UpStream s3_uri (File.position f0)] eq_refl)
        as (H1 & H2 & H3).
      split; [exact H1|]. split; [|exact H3].
      eapply Hle; [exact H2|cbn; lia].
    + destruct (Hfallback f1
                  ((calls0 ++ [UpStream s3_uri (File.position f0)])
                     ++ [UpLog (mkLog ERROR "Failed to upload file to S3" [])])
                  [UpStream s3_uri (File.position f0);
                   UpLog (mkLog ERROR "Failed to upload file to S3" [])]
                  ltac:(by rewrite <- app_assoc))
        as (H1 & H2 & H3).
      split; [exact H1|]. split; [|exact H3].
      eapply Hle; [exact H2|cbn; lia].
  - destruct (Hfallback f0
                (calls0 ++ [UpLog (mkLog ERROR "Failed to upload file to S3" [])])
                [UpLog (mkLog ERROR "Failed to upload file to S3" [])] eq_refl)
      as (H1 & H2 & H3).
    split; [eapply Nat.le_trans; [exact H1|cbn; lia]|]. split; [|exact H3].
    eapply Hle; [exact H2|cbn; lia].
Qed.

End upload_facts.

Lemma upload_falls_back_to_unsanitized_name_witness :
  stream_uploads
    (upload_file_route 10485760 "10.0" "uploads" "prod" "2025-01-01" "123e4567"
       UploadExample.upload_file_stream UploadExample.create_presigned_urls
       UploadExample.report UploadExample.org).2
  = [("s3://uploads/prod/o_1/2025-01-01/report.pdf", 0%nat);
     ("s3://uploads/prod/o_1/2025-01-01/123e4567_../../etc/report.pdf", 0%nat)].
Proof.
  exact (proj1 (proj2 (proj2 (proj2
           (upload_falls_back_to_unsanitized_name 10485760 "10.0" "uploads" "prod"
              "2025-01-01" "123e4567" UploadExample.upload_file_stream
              UploadExample.create_presigned_urls UploadExample.report
              UploadExample.org "../../etc/report.pdf" eq_refl eq_refl
              ltac:(cbn; lia)))) eq_refl eq_refl)).
Defined.

Lemma upload_without_name_is_stored_as_None_witness :
  stream_uploads
    (upload_file_route 10485760 "10.0" "uploads" "prod" "2025-01-01" "123e4567"
       UploadExample.upload_file_stream UploadExample.create_presigned_urls
       (UploadFile.mk None (File.mk [] 0 false)) UploadExample.org).2
  = [("s3://uploads/prod/o_1/2025-01-01/123e4567_None", 0%nat)].
Proof.
  exact (proj1 (upload_without_name_is_stored_as_None 10485760 "10.0" "uploads"
                  "prod" "2025-01-01" "123e4567" UploadExample.upload_file_stream
                  UploadExample.create_presigned_urls
                  (UploadFile.mk None (File.mk [] 0 false)) UploadExample.org
                  eq_refl eq_refl ltac:(cbn; lia))).
Defined.

Lemma permission_denied_creates_nothing_witness :
  let denied :=
    mkCollaborators (λ _ _, Raise (HTTPException 403 "Forbidden"))
      (λ _ _, Ok DispatchExample.generated)
      (λ _ _ _ _, Ok DispatchExample.created_v1)
      (λ _, Ok DispatchExample.created_v2)
      DispatchExample.new_TaskRequest (λ _, Ok None) in
  ∃ w',
    run_task denied (DispatchExample.request RunEngine.skyvern_v2 None None)
      DispatchExample.org None DispatchExample.world
    = (Raise (HTTPException 403 "Forbidden"), w')
    ∧ db w' = db DispatchExample.world
    ∧ List.filter is_run_start (trace w') = [].
Proof.
  intros denied.
  exact (proj1 (proj2 (permission_denied_creates_nothing denied DispatchExample.org
                         None DispatchExample.world
                         (HTTPException 403 "Forbidden")))
           (DispatchExample.request RunEngine.skyvern_v2 None None) eq_refl).
Defined.

Lemma validate_file_size_accepts_up_to_max_witness :
  ∃ accepted,
    _validate_file_size 4 "3.814697265625e-06"
      (UploadFile.mk (Some "report.pdf")
         (File.mk (String.list_byte_of_string "%PDF") 4 false))
    = Ok accepted.
Proof.
  apply (proj2 (proj1 (validate_file_size_accepts_up_to_max 4 "3.814697265625e-06"
                         (UploadFile.mk (Some "report.pdf")
                            (File.mk (String.list_byte_of_string "%PDF") 4 false))))).
  split; [reflexivity|]. cbn [UploadFile.file File.content].
  change (Z.of_nat 4 ≤ 4)%Z. lia.
Defined.
